(** * Realtime-Digit-Classifier: a shallow embedding and its verified properties

    The development follows the repository file by file:

    - [F32], [F64]: the C++ [float] and [double] arithmetic the sources use,
      on the IEEE 754 specification floats of the standard library;
    - [cv]: the OpenCV types and calls the sources rely on.  Calls whose
      result a property depends on ([threshold], [copyMakeBorder],
      [Mat::operator()(Rect)], [HOGDescriptor]) are written out as OpenCV
      documents them; the remaining image processing and the statistical
      model are operations of the classes [ImgProc] and [StatModel].  A call
      into OpenCV is taken to return, with two exceptions: the range check
      of [Mat::operator()(Rect)] and the training call of the statistical
      model, which may raise a [cv::Exception] (no result, [None]);
    - [Svm] (lib/Svm.cpp), [HogSvm] (lib/HogSvm.cpp),
      [SvmTrainer] (SvmTrainer/SvmTrainer.cpp) and
      [RealtimeDigitClassifier] (DigitClassifier/RealtimeDigitClassifier.cpp).

    Definitions come first, the theorems after them. *)

From Stdlib Require Import ZArith List Bool Lia String DecimalString.
From Stdlib Require Import Floats.SpecFloat.
From stdpp Require Import base option list gmap strings.

Local Open Scope Z_scope.

(* ===================================================================== *)
(** ** Machine arithmetic *)

(** [unsigned int]: 32 bits, arithmetic modulo [2^32]. *)
Definition uint32 (z : Z) : Z := z mod 2 ^ 32.

Definition INT_MIN : Z := - 2 ^ 31.
Definition INT_MAX : Z := 2 ^ 31 - 1.

(** [static_cast<int>] of a floating-point value: the fraction is dropped
    (rounding toward zero).  Outside the range of [int], and for NaN and the
    infinities, C++ leaves the result undefined; x86 yields [INT_MIN], which
    is what is written here. *)
Definition float_trunc (f : spec_float) : option Z :=
  match f with
  | S754_zero _ => Some 0
  | S754_finite s m e =>
      let magnitude := Z.shiftl (Z.pos m) e in
      Some (if s then - magnitude else magnitude)
  | S754_infinity _ | S754_nan => None
  end.

Definition static_cast_int (f : spec_float) : Z :=
  match float_trunc f with
  | Some z => if (INT_MIN <=? z) && (z <=? INT_MAX) then z else INT_MIN
  | None => INT_MIN
  end.

(** C++ [float]: IEEE 754 binary32. *)
Module F32.
Definition prec : Z := 24.
Definition emax : Z := 128.
Definition float : Type := spec_float.

(** Conversion of an [int] (round to nearest, ties to even). *)
Definition of_int (n : Z) : float := binary_normalize prec emax n 0 false.
(** The literal of value [m * 2^e]. *)
Definition lit (m e : Z) : float := binary_normalize prec emax m e false.

Definition mul : float -> float -> float := SFmul prec emax.
Definition div : float -> float -> float := SFdiv prec emax.
Definition sub : float -> float -> float := SFsub prec emax.
Definition ltb : float -> float -> bool := SFltb.
Definition leb : float -> float -> bool := SFleb.
End F32.

(** C++ [double]: IEEE 754 binary64. *)
Module F64.
Definition prec : Z := 53.
Definition emax : Z := 1024.
Definition double : Type := spec_float.

Definition of_int (n : Z) : double := binary_normalize prec emax n 0 false.
Definition mul : double -> double -> double := SFmul prec emax.
Definition div : double -> double -> double := SFdiv prec emax.

(** The literal [0.2]: the double nearest to one fifth,
    [0x1.999999999999ap-3]. *)
Definition lit_0_2 : double := S754_finite false 7205759403792794 (-55).

(** The literal [0.1]: the double nearest to one tenth,
    [0x1.999999999999ap-4]. *)
Definition lit_0_1 : double := S754_finite false 7205759403792794 (-56).
End F64.

(* ===================================================================== *)
(** ** OpenCV *)

Module cv.

(** [cv::Mat]: the header fields [rows] and [cols] and the elements, row
    after row from the top.  [Mat Z] is an 8-bit or 32-bit integer matrix,
    [Mat F32.float] a [CV_32F] matrix. *)
Record Mat (A : Type) := mkMat { rows : Z; cols : Z; data : list (list A) }.
Arguments mkMat {A} _ _ _.
Arguments rows {A} _.
Arguments cols {A} _.
Arguments data {A} _.

(** [Mat()] *)
Definition empty {A} : Mat A := mkMat 0 0 [].

(** [m.at(i, j)], where the matrix has such an element. *)
Definition at_ {A} (m : Mat A) (i j : nat) : option A :=
  row ← data m !! i; row !! j.

(** The header describes the elements: [rows] rows of [cols] elements. *)
Definition well_formed {A} (m : Mat A) : Prop :=
  Z.of_nat (length (data m)) = rows m
  /\ Forall (fun row => Z.of_nat (length row) = cols m) (data m).

Record Size := mkSize { size_width : Z; size_height : Z }.
Record Point := mkPoint { px : Z; py : Z }.
Record Rect := mkRect { x : Z; y : Z; width : Z; height : Z }.
Record Scalar := mkScalar { val0 : Z; val1 : Z; val2 : Z }.

Definition tl (r : Rect) : Point := mkPoint (x r) (y r).
Definition br (r : Rect) : Point := mkPoint (x r + width r) (y r + height r).
(** [rect += point] *)
Definition shift (r : Rect) (p : Point) : Rect :=
  mkRect (x r + px p) (y r + py p) (width r) (height r).
(** [p - q] *)
Definition point_sub (p q : Point) : Point := mkPoint (px p - px q) (py p - py q).

(** [Mat(r, c, CV_8UC1)] seen over its buffer: the elements are the
    buffer's, row after row. *)
Definition of_buffer {A} (r c : Z) (buf : list A) : Mat A :=
  mkMat r c (map (fun i => take (Z.to_nat c) (drop (i * Z.to_nat c)%nat buf))
                 (seq 0 (Z.to_nat r))).

(** [threshold(src, dst, thresh, maxval, type)] on an 8-bit image:
    [THRESH_BINARY] is [src > thresh ? maxval : 0] and [THRESH_BINARY_INV]
    is [src > thresh ? 0 : maxval]. *)
Inductive ThresholdTypes := THRESH_BINARY | THRESH_BINARY_INV.

Definition threshold_pixel (thresh maxval : Z) (type : ThresholdTypes) (src : Z) : Z :=
  match type with
  | THRESH_BINARY => if thresh <? src then maxval else 0
  | THRESH_BINARY_INV => if thresh <? src then 0 else maxval
  end.

Definition threshold (src : Mat Z) (thresh maxval : Z) (type : ThresholdTypes) : Mat Z :=
  mkMat (rows src) (cols src) (map (map (threshold_pixel thresh maxval type)) (data src)).

(** [src(rect).clone()]: the rectangle must lie inside the matrix,
    otherwise OpenCV raises ([None]). *)
Definition inside {A} (r : Rect) (src : Mat A) : bool :=
  (0 <=? x r) && (0 <=? width r) && (x r + width r <=? cols src)
  && (0 <=? y r) && (0 <=? height r) && (y r + height r <=? rows src).

Definition submat {A} (src : Mat A) (r : Rect) : option (Mat A) :=
  if inside r src
  then Some (mkMat (height r) (width r)
               (map (fun row => take (Z.to_nat (width r)) (drop (Z.to_nat (x r)) row))
                    (take (Z.to_nat (height r)) (drop (Z.to_nat (y r)) (data src)))))
  else None.

(** [copyMakeBorder(src, dst, top, bottom, left, right, BORDER_CONSTANT,
    value)]: [src] with [top] rows above it, [bottom] rows below, [left]
    columns before and [right] columns after, all of them [value]. *)
Definition copyMakeBorder {A} (src : Mat A) (top bottom left right : Z) (value : A)
  : Mat A :=
  let cols' := left + cols src + right in
  mkMat (top + rows src + bottom) cols'
    (replicate (Z.to_nat top) (replicate (Z.to_nat cols') value)
     ++ map (fun row => replicate (Z.to_nat left) value ++ row
                        ++ replicate (Z.to_nat right) value) (data src)
     ++ replicate (Z.to_nat bottom) (replicate (Z.to_nat cols') value)).

(** [m.push_back(row)] with a one-row matrix: the first row gives an empty
    matrix its width. *)
Definition push_back {A} (m : Mat A) (row : list A) : Mat A :=
  mkMat (rows m + 1)
        (match data m with [] => Z.of_nat (length row) | _ => cols m end)
        (data m ++ [row]).

(** [m.row(i)] as a matrix of its own. *)
Definition row_mat {A} (row : list A) : Mat A := mkMat 1 (Z.of_nat (length row)) [row].

(** [cv::HOGDescriptor(winSize, blockSize, blockStride, cellSize, nbins)]. *)
Record HOGDescriptor := mkHOG {
  winSize : Size;
  blockSize : Size;
  blockStride : Size;
  cellSize : Size;
  nbins : Z
}.

(** [HOGDescriptor::getDescriptorSize]: the bins of every cell of every
    block position of one window. *)
Definition getDescriptorSize (hog : HOGDescriptor) : Z :=
  nbins hog
  * (size_width (blockSize hog) / size_width (cellSize hog))
  * (size_height (blockSize hog) / size_height (cellSize hog))
  * ((size_width (winSize hog) - size_width (blockSize hog))
     / size_width (blockStride hog) + 1)
  * ((size_height (winSize hog) - size_height (blockSize hog))
     / size_height (blockStride hog) + 1).

(** The windows [HOGDescriptor::compute] visits in an image when called
    without a stride and without padding: the stride is the cell size. *)
Definition windowsInImage (hog : HOGDescriptor) (img : Mat Z) : Z :=
  ((cols img - size_width (winSize hog)) / size_width (cellSize hog) + 1)
  * ((rows img - size_height (winSize hog)) / size_height (cellSize hog) + 1).

Inductive MorphTypes := MORPH_CLOSE.
Inductive MorphShapes := MORPH_ELLIPSE.
Inductive ColorConversionCodes := CV_BGR2GRAY.

(** The image-processing calls whose results no property below looks
    into.  [resize_pixel] and [hog_value] give the value of one element of
    the result of [resize] and of [HOGDescriptor::compute]. *)
Class ImgProc := {
  cvtColor : Mat Z -> ColorConversionCodes -> Mat Z;
  blur : Mat Z -> Size -> Mat Z;
  floodFill : Mat Z -> Point -> Z -> Mat Z;
  getStructuringElement : MorphShapes -> Size -> Mat Z;
  morphologyEx : Mat Z -> MorphTypes -> Mat Z -> Mat Z;
  findContours : Mat Z -> list (list Point);
  boundingRect : list Point -> Rect;
  resize_pixel : Mat Z -> Size -> nat -> nat -> Z;
  hog_value : HOGDescriptor -> Mat Z -> nat -> F32.float;
  RNG : Type;
  RNG_default : RNG;
  uniform : RNG -> Z -> Z -> Z * RNG
}.

(** [resize(src, dst, dsize)]: a [dsize] image. *)
Definition resize `{ImgProc} (src : Mat Z) (dsize : Size) : Mat Z :=
  mkMat (size_height dsize) (size_width dsize)
    (map (fun i => map (resize_pixel src dsize i) (seq 0 (Z.to_nat (size_width dsize))))
         (seq 0 (Z.to_nat (size_height dsize)))).

(** [hog.compute(img, descriptors)]: [descriptors] is resized to one
    descriptor per window and filled. *)
Definition compute `{ImgProc} (hog : HOGDescriptor) (img : Mat Z) : list F32.float :=
  map (hog_value hog img)
      (seq 0 (Z.to_nat (windowsInImage hog img * getDescriptorSize hog))).

(** [cv::ml::SVM] behind [cv::Ptr]: the statistical model.  [SVM_train] is
    the trained model, or [None] when OpenCV rejects the data and raises;
    [SVM_save] gives the bytes [save] writes, [SVM_load] the model [load]
    reads. *)
Class StatModel := {
  SVM : Type;
  SVM_create : SVM;
  SVM_predict : SVM -> Mat F32.float -> F32.float;
  SVM_train : SVM -> Mat F32.float -> Mat Z -> option SVM;
  SVM_save : SVM -> list Z;
  SVM_load : list Z -> SVM
}.

(** [m.data == nullptr] and [m.empty()]: the matrix has no element. *)
Definition no_data {A} (m : Mat A) : bool :=
  match concat (data m) with [] => true | _ :: _ => false end.

(** [cv::ml::SVM::Types] and [cv::ml::SVM::KernelTypes], as far as the
    trainer uses them, and the setters of the model's parameters: each
    stores one parameter in the model. *)
Inductive SvmTypes := C_SVC.
Inductive KernelTypes := LINEAR | POLY.

Class SvmParams `{StatModel} := {
  setType : SVM -> SvmTypes -> SVM;
  setKernel : SVM -> KernelTypes -> SVM;
  setGamma : SVM -> F64.double -> SVM;
  setDegree : SVM -> F64.double -> SVM;
  setC : SVM -> F64.double -> SVM
}.

(** A filter gives a matrix with the rows and columns of its input. *)
Definition keeps_size (filter : Mat Z -> Mat Z) : Prop :=
  forall m, rows (filter m) = rows m /\ cols (filter m) = cols m.

End cv.

(** The files of the machine, by path; a file is its bytes. *)
Abbreviation FileSystem := (gmap string (list Z)).

(* ===================================================================== *)
(** ** lib/Svm.cpp *)

Module Svm.
Section Svm.
Context `{cv.StatModel}.

(** [class Svm]: its one member, [cv::Ptr<cv::ml::SVM> m_svm]. *)
Record Svm := mkSvm { m_svm : cv.SVM }.

(** [Svm::Svm()] *)
Definition new : Svm := mkSvm cv.SVM_create.

(** [float Svm::Predict(const cv::Mat &features) const].  [features] is
    [CV_32F] already: [convertTo(input, CV_32FC1)] copies it. *)
Definition Predict (this : Svm) (features : cv.Mat F32.float) : F32.float :=
  let input := features in
  cv.SVM_predict (m_svm this) input.

(** [bool Svm::Train(const cv::Mat &features, const cv::Mat &labels) const]:
    the model behind [m_svm] is trained and the result is [true]; an
    exception of the training call is not caught here. *)
Definition Train (this : Svm) (features : cv.Mat F32.float) (labels : cv.Mat Z)
  : option (bool * Svm) :=
  let svmFeatures := features in
  let svmLabels := labels in
  trained ← cv.SVM_train (m_svm this) svmFeatures svmLabels;
  Some (true, mkSvm trained).

(** The loop of [Svm::Test] from row [i] on: [rest] are the rows [i],
    [i+1], ... of [svmFeatures].  [svmLabels.at<int>(i, 0)] outside the
    label matrix is a read nobody checks: [None]. *)
Fixpoint Test_loop (this : Svm) (rest : list (list F32.float)) (svmLabels : cv.Mat Z)
    (i : nat) (errors : Z) : option Z :=
  match rest with
  | [] => Some errors
  | row :: rest' =>
      let result := static_cast_int (cv.SVM_predict (m_svm this) (cv.row_mat row)) in
      label ← cv.at_ svmLabels i 0;
      Test_loop this rest' svmLabels (S i)
                (if result =? label then errors else errors + 1)
  end.

(** [float Svm::Test(const cv::Mat &features, const cv::Mat &labels) const] *)
Definition Test (this : Svm) (features : cv.Mat F32.float) (labels : cv.Mat Z)
  : option F32.float :=
  let svmFeatures := features in
  let svmLabels := labels in
  errors ← Test_loop this (cv.data svmFeatures) svmLabels 0 0;
  let percentError :=
    F32.div (F32.mul (F32.lit 100 0) (F32.of_int errors)) (F32.of_int (cv.rows svmLabels)) in
  Some percentError.

(** [bool Svm::Load(const std::string &filename)] *)
Definition Load (this : Svm) (filename : string) (fs : FileSystem) : bool * Svm :=
  match fs !! filename with
  | None => (false, this)
  | Some bytes => (true, mkSvm (cv.SVM_load bytes))
  end.

(** [bool Svm::Save(const std::string &filename) const]: the result and
    the files afterwards. *)
Definition Save (this : Svm) (filename : string) (fs : FileSystem)
  : bool * FileSystem :=
  if String.eqb filename EmptyString
  then (false, fs)
  else (true, <[filename := cv.SVM_save (m_svm this)]> fs).

End Svm.

Section Setters.
Context `{cv.SvmParams}.

(** [void Svm::SetType(cv::ml::SVM::Types type) const] and the other
    setters the trainer calls: the model behind [m_svm] gets the
    parameter. *)
Definition SetType (this : Svm) (type : cv.SvmTypes) : Svm :=
  mkSvm (cv.setType (m_svm this) type).
Definition SetKernel (this : Svm) (kernel : cv.KernelTypes) : Svm :=
  mkSvm (cv.setKernel (m_svm this) kernel).
Definition SetGamma (this : Svm) (gamma : F64.double) : Svm :=
  mkSvm (cv.setGamma (m_svm this) gamma).
Definition SetC (this : Svm) (c : F64.double) : Svm :=
  mkSvm (cv.setC (m_svm this) c).
Definition SetDegree (this : Svm) (degree : F64.double) : Svm :=
  mkSvm (cv.setDegree (m_svm this) degree).

End Setters.
End Svm.

(* ===================================================================== *)
(** ** lib/HogSvm.cpp *)

Module HogSvm.
Section HogSvm.
Context `{cv.ImgProc} `{cv.StatModel}.

(** [class HogSvm : public Svm] with its member [m_hog]. *)
Record HogSvm := mkHogSvm { base : Svm.Svm; m_hog : cv.HOGDescriptor }.

(** [HogSvm::HogSvm()] *)
Definition new : HogSvm :=
  mkHogSvm Svm.new
    (cv.mkHOG (cv.mkSize 28 28) (cv.mkSize 4 4) (cv.mkSize 2 2) (cv.mkSize 4 4) 9).

(** [bool HogSvm::ExtractFeatures(const cv::Mat &image, cv::Mat &features)
    const]: the result and [features] afterwards. *)
Definition ExtractFeatures (this : HogSvm) (image : cv.Mat Z)
    (features : cv.Mat F32.float) : bool * cv.Mat F32.float :=
  let numFeatures := cv.getDescriptorSize (m_hog this) in
  let hogImage := cv.resize image (cv.winSize (m_hog this)) in
  let descriptors := cv.compute (m_hog this) hogImage in
  (true, cv.push_back features descriptors).

(** [bool HogSvm::ExtractFeatures(const std::vector<Mat> &images, Mat
    &features) const] *)
Definition ExtractFeatures_all (this : HogSvm) (images : list (cv.Mat Z))
    (features : cv.Mat F32.float) : bool * cv.Mat F32.float :=
  (true, fold_left (fun features image => snd (ExtractFeatures this image features))
                   images features).

(** [float HogSvm::Predict(const Mat &image) const] *)
Definition Predict (this : HogSvm) (image : cv.Mat Z) : F32.float :=
  let features := snd (ExtractFeatures this image cv.empty) in
  Svm.Predict (base this) features.

(** [bool HogSvm::Train(const std::vector<Mat> &images, const Mat &labels)
    const] *)
Definition Train (this : HogSvm) (images : list (cv.Mat Z)) (labels : cv.Mat Z)
  : option (bool * HogSvm) :=
  let features := snd (ExtractFeatures_all this images cv.empty) in
  '(_, svm) ← Svm.Train (base this) features labels;
  Some (true, mkHogSvm svm (m_hog this)).

(** [float HogSvm::Test(const std::vector<Mat> &images, const Mat &labels)
    const] *)
Definition Test (this : HogSvm) (images : list (cv.Mat Z)) (labels : cv.Mat Z)
  : option F32.float :=
  let features := snd (ExtractFeatures_all this images cv.empty) in
  Svm.Test (base this) features labels.

(** The label matrix of a list of labels: one row per label. *)
Definition label_matrix (labels : list Z) : cv.Mat Z :=
  cv.mkMat (Z.of_nat (length labels)) 1 (map (fun label => [label]) labels).

(** The samples whose prediction, as an [int], differs from their label. *)
Definition mismatches (this : HogSvm) (images : list (cv.Mat Z)) (labels : list Z) : Z :=
  Z.of_nat (length (filter (fun sample => static_cast_int (Predict this sample.1) ≠ sample.2)
                           (zip images labels))).

(** [100 * errors / total] in [float] arithmetic. *)
Definition percent (errors total : Z) : F32.float :=
  F32.div (F32.mul (F32.lit 100 0) (F32.of_int errors)) (F32.of_int total).

(** A member function of [Svm] called on a [HogSvm]: it works on the base
    part of the object. *)
Definition on_base (f : Svm.Svm -> Svm.Svm) (this : HogSvm) : HogSvm :=
  mkHogSvm (f (base this)) (m_hog this).

End HogSvm.
End HogSvm.

(* ===================================================================== *)
(** ** SvmTrainer/SvmTrainer.cpp *)

Module SvmTrainer.

(** [std::ifstream] opened in binary mode: whether the file was opened,
    the bytes not read so far, and the stream's failure flag; once it is
    set every later read leaves stream and destination as they are. *)
Record ifstream := mk_ifstream { is_open : bool; unread : list Z; fail : bool }.

(** [std::ifstream file(filename, std::ios::binary)] *)
Definition open (fs : FileSystem) (filename : string) : ifstream :=
  match fs !! filename with
  | Some bytes => mk_ifstream true bytes false
  | None => mk_ifstream false [] true
  end.

(** [file.get(ch)]: the next byte, or [ch] as it was when there is none. *)
Definition get (file : ifstream) (ch : Z) : Z * ifstream :=
  if fail file then (ch, file)
  else match unread file with
       | b :: rest => (b, mk_ifstream (is_open file) rest false)
       | [] => (ch, mk_ifstream (is_open file) [] true)
       end.

(** [file.read(dest, count)]: as many of the [count] bytes as the file
    still has overwrite the start of [dest]; fewer than [count] is a
    failure. *)
Definition read (file : ifstream) (count : nat) (dest : list Z) : list Z * ifstream :=
  if fail file then (dest, file)
  else
    let got := take count (unread file) in
    (got ++ drop (length got) dest,
     mk_ifstream (is_open file) (drop count (unread file))
                 (negb (length got =? count)%nat)).

(** The loop of [ReadInt] with [n] bytes to go: the body runs for
    [i = n - 1] down to [0]. *)
Fixpoint ReadInt_loop (n : nat) (file : ifstream) (ch value : Z) : Z * ifstream :=
  match n with
  | O => (value, file)
  | S i =>
      let '(ch, file) := get file ch in
      let value := uint32 (Z.lor value (Z.shiftl (Z.land ch 255) (8 * Z.of_nat i))) in
      ReadInt_loop i file ch value
  end.

(** [unsigned int ReadInt(std::ifstream &file)]: [sizeof(value)] is 4. *)
Definition ReadInt (file : ifstream) : Z * ifstream :=
  ReadInt_loop 4 file 0 0.

Section Heap.
(** [heap i k]: what byte [k] of the buffer allocated for item [i] holds
    before anything is stored in it ([Mat(rows, cols, type)] and
    [Mat::create] do not initialise). *)
Variable heap : nat -> nat -> Z.

(** The loop of [ReadMnistImageFile] with [n] items to go, at item [i]. *)
Fixpoint read_images (n i : nat) (numRows numColumns imageSize : Z)
    (file : ifstream) (images : list (cv.Mat Z)) : list (cv.Mat Z) * ifstream :=
  match n with
  | O => (images, file)
  | S n' =>
      let buffer := map (heap i) (seq 0 (Z.to_nat (numRows * numColumns))) in
      let '(buffer, file) := read file (Z.to_nat imageSize) buffer in
      let image := cv.of_buffer numRows numColumns buffer in
      let image := cv.threshold image 90 255 cv.THRESH_BINARY in
      read_images n' (S i) numRows numColumns imageSize file (images ++ [image])
  end.

(** [bool ReadMnistImageFile(const char *filename, std::vector<Mat>
    &images)]: the result and [images] afterwards.  The display of the
    first images, compiled in with [_DEBUG] only, is left out.  [Mat] takes
    its sides as [int]s: the model is that of headers whose sides are at
    most [INT_MAX]. *)
Definition ReadMnistImageFile (fs : FileSystem) (filename : string)
    (images : list (cv.Mat Z)) : bool * list (cv.Mat Z) :=
  let file := open fs filename in
  if negb (is_open file) then (false, images)
  else
    let '(magicNumber, file) := ReadInt file in
    let '(numItems, file) := ReadInt file in
    let '(numRows, file) := ReadInt file in
    let '(numColumns, file) := ReadInt file in
    let imageSize := uint32 (numRows * numColumns) in
    let '(images, file) :=
      read_images (Z.to_nat numItems) 0 numRows numColumns imageSize file images in
    (true, images).

(** The loop of [LoadMnistLabelFile] with [n] labels to go, at row [i]. *)
Fixpoint read_labels (n i : nat) (itemSize : nat) (file : ifstream)
    (rows : list (list Z)) : list (list Z) * ifstream :=
  match n with
  | O => (rows, file)
  | S n' =>
      let '(row, file) := read file itemSize (map (heap i) (seq 0 itemSize)) in
      read_labels n' (S i) itemSize file (rows ++ [row])
  end.

(** [bool LoadMnistLabelFile(const char *filename, Mat &labels)]: the
    result and [labels] afterwards, for headers whose item count is at most
    [INT_MAX]. *)
Definition LoadMnistLabelFile (fs : FileSystem) (filename : string)
    (labels : cv.Mat Z) : bool * cv.Mat Z :=
  let file := open fs filename in
  if negb (is_open file) then (false, labels)
  else
    let '(magicNumber, file) := ReadInt file in
    let '(numItems, file) := ReadInt file in
    let itemSize := 1%nat in
    let '(rows, file) := read_labels (Z.to_nat numItems) 0 itemSize file [] in
    (true, cv.mkMat numItems (Z.of_nat itemSize) rows).
End Heap.


(** Item [k] of a complete pixel block: its [R * C] bytes, binarized. *)
Definition stored_image (R C : Z) (pixels : list Z) (k : nat) : cv.Mat Z :=
  cv.threshold
    (cv.of_buffer R C (take (Z.to_nat (R * C)) (drop (k * Z.to_nat (R * C)) pixels)))
    90 255 cv.THRESH_BINARY.

(** The item count, the rows and the columns a file declares: what the
    second, third and fourth [ReadInt] return. *)
Definition header_numItems (content : list Z) : Z :=
  (ReadInt (ReadInt (mk_ifstream true content false)).2).1.
Definition header_numRows (content : list Z) : Z :=
  (ReadInt (ReadInt (ReadInt (mk_ifstream true content false)).2).2).1.
Definition header_numColumns (content : list Z) : Z :=
  (ReadInt (ReadInt (ReadInt (ReadInt (mk_ifstream true content false)).2).2).2).1.





(** An image of the loader: [R] by [C], every row in place, every pixel 0
    or 255. *)
Definition loaded_image (R C : Z) (image : cv.Mat Z) : Prop :=
  cv.rows image = R /\ cv.cols image = C /\ cv.well_formed image
  /\ Forall (Forall (fun pixel => pixel = 0 \/ pixel = 255)) (cv.data image).

(** A big-endian 32-bit header field. *)
Definition be32 (n : Z) : list Z :=
  [Z.land (Z.shiftr n 24) 255; Z.land (Z.shiftr n 16) 255;
   Z.land (Z.shiftr n 8) 255; Z.land n 255].

(** The four outputs of [LoadMnistData] and [CreateDigitDetectorData],
    which both take them by reference. *)
Record Data := mkData {
  trainImages : list (cv.Mat Z);
  trainLabels : cv.Mat Z;
  testImages : list (cv.Mat Z);
  testLabels : cv.Mat Z
}.

(** [bool LoadMnistData(std::vector<Mat> &trainImages, Mat &trainLabels,
    std::vector<Mat> &testImages, Mat &testLabels)]: the result and the
    four outputs afterwards.  [heap k] is the fresh memory of the load
    number [k]. *)
Definition LoadMnistData (heap : nat -> nat -> nat -> Z) (fs : FileSystem) (d : Data)
  : bool * Data :=
  let '(ok, trainImages) :=
    ReadMnistImageFile (heap 0%nat) fs "./data/MNIST/train-images.idx3-ubyte"
                       (trainImages d) in
  if negb ok then (false, mkData trainImages (trainLabels d) (testImages d) (testLabels d))
  else
    let '(ok, trainLabels) :=
      LoadMnistLabelFile (heap 1%nat) fs "./data/MNIST/train-labels.idx1-ubyte"
                         (trainLabels d) in
    if negb ok then (false, mkData trainImages trainLabels (testImages d) (testLabels d))
    else
      let '(ok, testImages) :=
        ReadMnistImageFile (heap 2%nat) fs "./data/MNIST/t10k-images.idx3-ubyte"
                           (testImages d) in
      if negb ok then (false, mkData trainImages trainLabels testImages (testLabels d))
      else
        let '(ok, testLabels) :=
          LoadMnistLabelFile (heap 3%nat) fs "./data/MNIST/t10k-labels.idx1-ubyte"
                             (testLabels d) in
        if negb ok then (false, mkData trainImages trainLabels testImages testLabels)
        else (true, mkData trainImages trainLabels testImages testLabels).

(** The MNIST files that are there declare sides and counts that are
    [int]s, as [cv::Mat] takes them. *)
Definition int_sides (fs : FileSystem) (filename : string) : Prop :=
  forall bytes, fs !! filename = Some bytes ->
    header_numRows bytes <= INT_MAX /\ header_numColumns bytes <= INT_MAX.
Definition int_count (fs : FileSystem) (filename : string) : Prop :=
  forall bytes, fs !! filename = Some bytes -> header_numItems bytes <= INT_MAX.
Definition int_headers (fs : FileSystem) : Prop :=
  int_sides fs "./data/MNIST/train-images.idx3-ubyte"
  /\ int_count fs "./data/MNIST/train-labels.idx1-ubyte"
  /\ int_sides fs "./data/MNIST/t10k-images.idx3-ubyte"
  /\ int_count fs "./data/MNIST/t10k-labels.idx1-ubyte".

(** The four files [LoadMnistData] reads, in the order it reads them. *)
Definition mnist_files : list string :=
  ["./data/MNIST/train-images.idx3-ubyte"; "./data/MNIST/train-labels.idx1-ubyte";
   "./data/MNIST/t10k-images.idx3-ubyte"; "./data/MNIST/t10k-labels.idx1-ubyte"]%string.

(** [std::to_string(int)] *)
Definition to_string (n : Z) : string := NilZero.string_of_int (Z.to_int n).

(** The loop [for (i = 0; i < labels.rows; ++i) labels.row(i) = 1]: every
    element of row [i] becomes 1. *)
Definition label_as_digit (labels : cv.Mat Z) : cv.Mat Z :=
  fold_left (fun labels i =>
               cv.mkMat (cv.rows labels) (cv.cols labels)
                        (alter (map (fun _ => 1)) i (cv.data labels)))
            (seq 0 (Z.to_nat (cv.rows labels))) labels.

(** The file of the non-digit image [i] of a directory. *)
Definition not_digit_file (prefix : string) (i : Z) : string :=
  (prefix ++ to_string i ++ ".bmp")%string.

Section NotDigits.
(** [imread(filename, CV_LOAD_IMAGE_GRAYSCALE)]: the image in the file, or
    a matrix without data when there is no such file or it holds no image. *)
Variable imread : string -> cv.Mat Z.

(** A loop over the non-digit images of a directory with [n] images to go,
    at image [i]: the image read is appended first and looked at after; when
    it has data it is binarized in place and a label 0 is appended. *)
Fixpoint add_not_digits (prefix : string) (n : nat) (i : Z)
    (images : list (cv.Mat Z)) (labels : cv.Mat Z) : bool * (list (cv.Mat Z) * cv.Mat Z) :=
  match n with
  | O => (true, (images, labels))
  | S n' =>
      let filename := not_digit_file prefix i in
      let back := imread filename in
      if cv.no_data back then (false, (images ++ [back], labels))
      else
        let back := cv.threshold back 90 255 cv.THRESH_BINARY in
        let labels := cv.push_back labels [0] in
        add_not_digits prefix n' (i + 1) (images ++ [back]) labels
  end.

(** [bool CreateDigitDetectorData(std::vector<Mat> &trainImages, Mat
    &trainLabels, std::vector<Mat> &testImages, Mat &testLabels)]: the
    result and the four outputs afterwards. *)
Definition CreateDigitDetectorData (d : Data) : bool * Data :=
  let trainLabels := label_as_digit (trainLabels d) in
  let '(ok, (trainImages, trainLabels)) :=
    add_not_digits "./data/NotDigits/train/image" (Z.to_nat 30000) 0
                   (trainImages d) trainLabels in
  if negb ok then (false, mkData trainImages trainLabels (testImages d) (testLabels d))
  else
    let testLabels := label_as_digit (testLabels d) in
    let '(ok, (testImages, testLabels)) :=
      add_not_digits "./data/NotDigits/test/image" (Z.to_nat 10000) 0
                     (testImages d) testLabels in
    if negb ok then (false, mkData trainImages trainLabels testImages testLabels)
    else (true, mkData trainImages trainLabels testImages testLabels).

End NotDigits.

Section Main.
Context `{cv.ImgProc} `{cv.SvmParams}.
Variable heap : nat -> nat -> nat -> Z.
Variable imread : string -> cv.Mat Z.

(** The classifier and the detector of [main] before they are trained. *)
Definition digitSvm : HogSvm.HogSvm :=
  let digitSvm := HogSvm.new in
  let digitSvm := HogSvm.on_base (fun svm => Svm.SetType svm cv.C_SVC) digitSvm in
  let digitSvm := HogSvm.on_base (fun svm => Svm.SetKernel svm cv.POLY) digitSvm in
  let digitSvm := HogSvm.on_base (fun svm => Svm.SetGamma svm F64.lit_0_1) digitSvm in
  let digitSvm := HogSvm.on_base (fun svm => Svm.SetDegree svm (F64.of_int 2)) digitSvm in
  HogSvm.on_base (fun svm => Svm.SetC svm F64.lit_0_1) digitSvm.

Definition digitDetector : HogSvm.HogSvm :=
  let digitDetector := HogSvm.new in
  let digitDetector := HogSvm.on_base (fun svm => Svm.SetType svm cv.C_SVC) digitDetector in
  let digitDetector := HogSvm.on_base (fun svm => Svm.SetKernel svm cv.LINEAR) digitDetector in
  HogSvm.on_base (fun svm => Svm.SetC svm F64.lit_0_1) digitDetector.

(** The second half of the [try] block of [main]: the detector. *)
Definition main_detector (d : Data) (fs : FileSystem) : option (Z * FileSystem) :=
  let '(ok, d) := CreateDigitDetectorData imread d in
  if ok then
    match HogSvm.Train digitDetector (trainImages d) (trainLabels d) with
    | None => Some (0, fs)
    | Some (_, digitDetector) =>
        percentError ← HogSvm.Test digitDetector (testImages d) (testLabels d);
        let '(_, fs) := Svm.Save (HogSvm.base digitDetector) "svmDigitDetector.xml" fs in
        Some (0, fs)
    end
  else Some (0, fs).

(** [int main(int argc, char** argv)]: the exit status and the files
    afterwards.  An exception of OpenCV is caught and ends the work; a test
    that reads past the label matrix leaves the run undefined ([None]).
    What is printed is left out. *)
Definition main (fs : FileSystem) : option (Z * FileSystem) :=
  let '(ok, d) := LoadMnistData heap fs (mkData [] cv.empty [] cv.empty) in
  if ok then
    match HogSvm.Train digitSvm (trainImages d) (trainLabels d) with
    | None => Some (0, fs)
    | Some (_, digitSvm) =>
        percentError ← HogSvm.Test digitSvm (testImages d) (testLabels d);
        let '(_, fs) := Svm.Save (HogSvm.base digitSvm) "mnistSvm.xml" fs in
        main_detector d fs
    end
  else Some (0, fs).

End Main.

End SvmTrainer.

(* ===================================================================== *)
(** ** DigitClassifier/RealtimeDigitClassifier.cpp *)

Module RealtimeDigitClassifier.

(** What [rectangle] and [putText] leave on the display frame. *)
Inductive DrawOp :=
| rectangle (pt1 pt2 : cv.Point) (color : cv.Scalar) (thickness : Z)
| putText (text : string) (org : cv.Point) (color : cv.Scalar).

(** The two models of [ProcessFrame] and a record of one [Predict] call. *)
Inductive Role := Detector | Classifier.
Record PredictCall := mkCall { callee : Role; argument : cv.Mat Z; result : F32.float }.

(** [std::to_string(int)] *)
Definition to_string (n : Z) : string := NilZero.string_of_int (Z.to_int n).

Section ProcessFrame.
Context `{cv.ImgProc} `{cv.StatModel}.

(** The two frames [ProcessFrame] works on by reference, the local random
    generator, and the calls of [Predict] made so far, oldest first. *)
Record State := mkState {
  displayFrame : list DrawOp;
  frame : cv.Mat Z;
  rng : cv.RNG;
  calls : list PredictCall
}.

(** A step of [ProcessFrame]: a result, or none when OpenCV raised, and
    the state it leaves. *)
Definition Proc (A : Type) : Type := State -> option A * State.

#[export] Instance Proc_ret : MRet Proc := fun A a st => (Some a, st).
#[export] Instance Proc_bind : MBind Proc := fun A B f m st =>
  match m st with
  | (Some a, st') => f a st'
  | (None, st') => (None, st')
  end.

Definition get_frame : Proc (cv.Mat Z) := fun st => (Some (frame st), st).
Definition set_frame (f : cv.Mat Z) : Proc unit := fun st =>
  (Some tt, mkState (displayFrame st) f (rng st) (calls st)).
Definition set_rng (r : cv.RNG) : Proc unit := fun st =>
  (Some tt, mkState (displayFrame st) (frame st) r (calls st)).
Definition draw (op : DrawOp) : Proc unit := fun st =>
  (Some tt, mkState (displayFrame st ++ [op]) (frame st) (rng st) (calls st)).
Definition rng_uniform (a b : Z) : Proc Z := fun st =>
  let '(v, r) := cv.uniform (rng st) a b in
  (Some v, mkState (displayFrame st) (frame st) r (calls st)).
(** [model.Predict(image)], recorded. *)
Definition predict (who : Role) (model : HogSvm.HogSvm) (image : cv.Mat Z)
  : Proc F32.float := fun st =>
  let v := HogSvm.Predict model image in
  (Some v, mkState (displayFrame st) (frame st) (rng st)
                   (calls st ++ [mkCall who image v])).
(** The result of a call that may raise. *)
Definition may_raise {A} (r : option A) : Proc A := fun st => (r, st).

(** [float size = 0.75f] and the region of interest. *)
Definition size : F32.float := F32.lit 3 (-2).

Definition roi_of (frame : cv.Mat Z) : cv.Rect :=
  let margin := F32.sub (F32.of_int 1) size in
  cv.mkRect
    (static_cast_int (F32.div (F32.mul (F32.of_int (cv.cols frame)) margin) (F32.lit 2 0)))
    (static_cast_int (F32.div (F32.mul (F32.of_int (cv.rows frame)) margin) (F32.lit 2 0)))
    (static_cast_int (F32.mul (F32.of_int (cv.cols frame)) size))
    (static_cast_int (F32.mul (F32.of_int (cv.rows frame)) size)).

(** [static_cast<int>(n * 0.2)] *)
Definition pad (n : Z) : Z := static_cast_int (F64.mul (F64.of_int n) F64.lit_0_2).

(** The image handed to the models for a bounding rectangle: the crop of
    the processed frame inside a black border. *)
Definition padded_image (frame : cv.Mat Z) (boundRect : cv.Rect) : option (cv.Mat Z) :=
  image ← cv.submat frame
    (cv.mkRect (cv.x boundRect) (cv.y boundRect) (cv.width boundRect) (cv.height boundRect));
  let hpad := pad (cv.height boundRect) in
  let wpad := pad (cv.width boundRect) in
  Some (cv.copyMakeBorder image hpad hpad wpad wpad 0).

(** The body of the loop over the contours.  The three components of the
    colour are drawn from the generator in the order they are written. *)
Definition ProcessContour (classifier detector : HogSvm.HogSvm) (roi : cv.Rect)
    (contour : list cv.Point) : Proc unit :=
  let boundRect := cv.boundingRect contour in
  let boundRect := cv.shift boundRect (cv.mkPoint (cv.x roi) (cv.y roi)) in
  frame ← get_frame;
  image ← may_raise (padded_image frame boundRect);
  detect ← predict Detector detector image;
  if F32.ltb (F32.of_int 0) detect then
    c0 ← rng_uniform 0 255;
    c1 ← rng_uniform 0 255;
    c2 ← rng_uniform 0 255;
    let color := cv.mkScalar c0 c1 c2 in
    _ ← draw (rectangle (cv.tl boundRect) (cv.br boundRect) color 2);
    p ← predict Classifier classifier image;
    let prediction := static_cast_int p in
    draw (putText (to_string prediction)
                  (cv.point_sub (cv.tl boundRect) (cv.mkPoint 0 5))
                  (cv.mkScalar 0 0 0))
  else mret tt.

Fixpoint ProcessContours (classifier detector : HogSvm.HogSvm) (roi : cv.Rect)
    (contours : list (list cv.Point)) : Proc unit :=
  match contours with
  | [] => mret tt
  | contour :: rest =>
      _ ← ProcessContour classifier detector roi contour;
      ProcessContours classifier detector roi rest
  end.

(** [void ProcessFrame(const HogSvm &classifier, const HogSvm &detector,
    Mat &displayFrame, Mat &frame)] *)
Definition ProcessFrame (classifier detector : HogSvm.HogSvm) : Proc unit :=
  frame ← get_frame;
  let frame := cv.cvtColor frame cv.CV_BGR2GRAY in
  let frame := cv.blur frame (cv.mkSize 5 5) in
  let frame := cv.threshold frame 110 255 cv.THRESH_BINARY_INV in
  let roi := roi_of frame in
  _ ← draw (rectangle (cv.tl roi) (cv.br roi) (cv.mkScalar 0 0 255) 1);
  let frame := cv.floodFill frame (cv.tl roi) 0 in
  let frame := cv.floodFill frame (cv.mkPoint (cv.x roi) (cv.y roi + cv.height roi)) 0 in
  let frame := cv.floodFill frame (cv.br roi) 0 in
  let frame := cv.floodFill frame (cv.mkPoint (cv.x roi + cv.width roi) (cv.y roi)) 0 in
  let frame :=
    cv.morphologyEx frame cv.MORPH_CLOSE
      (cv.getStructuringElement cv.MORPH_ELLIPSE (cv.mkSize 3 3)) in
  _ ← set_frame frame;
  contourFrame ← may_raise (cv.submat frame roi);
  let contours := cv.findContours contourFrame in
  _ ← set_rng cv.RNG_default;
  ProcessContours classifier detector roi contours.

(** The state in which [main] calls [ProcessFrame]: the captured frame,
    what is on the display frame, and no call of [Predict] yet. *)
Definition entry (displayFrame : list DrawOp) (frame : cv.Mat Z) : State :=
  mkState displayFrame frame cv.RNG_default [].

(** The digits written on the display frame, with their positions. *)
Definition detections (ops : list DrawOp) : list (cv.Point * string) :=
  omap (fun op => match op with
                  | putText text org _ => Some (org, text)
                  | rectangle _ _ _ _ => None
                  end) ops.

(** No detector call on record returned a value above zero. *)
Definition detector_rejects (st : State) : Prop :=
  forall call, call ∈ calls st -> callee call = Detector ->
               F32.ltb (F32.of_int 0) (result call) = false.

(** Nothing was drawn and only the detector was called between two states. *)
Definition only_detector (st st' : State) : Prop :=
  displayFrame st' = displayFrame st
  /\ exists new, calls st' = calls st ++ new
                 /\ Forall (fun call => callee call = Detector) new.

(** What the loop does for a candidate region with the padded image
    [image]: the detector is asked, and the classifier only when the
    detector's answer is above zero. *)
Definition gated_calls (classifier detector : HogSvm.HogSvm) (image : cv.Mat Z)
  : list PredictCall :=
  mkCall Detector image (HogSvm.Predict detector image)
  :: (if F32.ltb (F32.of_int 0) (HogSvm.Predict detector image)
      then [mkCall Classifier image (HogSvm.Predict classifier image)]
      else []).

(** The digit it writes for the region, above the top left corner of the
    bounding rectangle. *)
Definition gated_detection (classifier detector : HogSvm.HogSvm) (boundRect : cv.Rect)
    (image : cv.Mat Z) : list (cv.Point * string) :=
  if F32.ltb (F32.of_int 0) (HogSvm.Predict detector image)
  then [(cv.point_sub (cv.tl boundRect) (cv.mkPoint 0 5),
         to_string (static_cast_int (HogSvm.Predict classifier image)))]
  else [].

(** The frame of [ProcessFrame] after the threshold, and after the flood
    fills and the closing: the processed frame. *)
Definition binary (frame : cv.Mat Z) : cv.Mat Z :=
  cv.threshold (cv.blur (cv.cvtColor frame cv.CV_BGR2GRAY) (cv.mkSize 5 5))
               110 255 cv.THRESH_BINARY_INV.

Definition closed (frame : cv.Mat Z) : cv.Mat Z :=
  let frame := binary frame in
  let roi := roi_of frame in
  let frame := cv.floodFill frame (cv.tl roi) 0 in
  let frame := cv.floodFill frame (cv.mkPoint (cv.x roi) (cv.y roi + cv.height roi)) 0 in
  let frame := cv.floodFill frame (cv.br roi) 0 in
  let frame := cv.floodFill frame (cv.mkPoint (cv.x roi + cv.width roi) (cv.y roi)) 0 in
  cv.morphologyEx frame cv.MORPH_CLOSE
    (cv.getStructuringElement cv.MORPH_ELLIPSE (cv.mkSize 3 3)).

(** The contours [ProcessFrame] finds in a frame, in the order of
    [findContours]: none when the crop of the region of interest raises. *)
Definition contours_of (frame : cv.Mat Z) : list (list cv.Point) :=
  match cv.submat (closed frame) (roi_of (binary frame)) with
  | Some contourFrame => cv.findContours contourFrame
  | None => []
  end.

(** The bounding rectangle of a contour, in the coordinates of the frame. *)
Definition rect_of (roi : cv.Rect) (contour : list cv.Point) : cv.Rect :=
  cv.shift (cv.boundingRect contour) (cv.mkPoint (cv.x roi) (cv.y roi)).

(** The regions of a list of contours, in its order: the rectangle of each
    contour with its padded image, up to the first contour whose crop
    raises. *)
Fixpoint regions_of (frame : cv.Mat Z) (roi : cv.Rect) (contours : list (list cv.Point))
  : list (cv.Rect * cv.Mat Z) :=
  match contours with
  | [] => []
  | contour :: rest =>
      match padded_image frame (rect_of roi contour) with
      | Some image => (rect_of roi contour, image) :: regions_of frame roi rest
      | None => []
      end
  end.

(** The regions of a frame. *)
Definition regions (frame : cv.Mat Z) : list (cv.Rect * cv.Mat Z) :=
  regions_of (closed frame) (roi_of (binary frame)) (contours_of frame).

(** The regions handled between two states: the calls and the digits they
    account for, each image being the padded crop of the processed frame. *)
Definition accounts_for (classifier detector : HogSvm.HogSvm)
    (regions : list (cv.Rect * cv.Mat Z)) (st st' : State) : Prop :=
  frame st' = frame st
  /\ calls st' = calls st ++ flat_map (fun r => gated_calls classifier detector r.2) regions
  /\ detections (displayFrame st')
     = detections (displayFrame st)
       ++ flat_map (fun r => gated_detection classifier detector r.1 r.2) regions
  /\ Forall (fun r => padded_image (frame st) r.1 = Some r.2) regions.

End ProcessFrame.

(** [cv::VideoCapture]: whether the device opened, and the frames it
    delivers, in order; after the last of them it delivers frames without
    data. *)
Record VideoCapture := mkVideoCapture { isOpened : bool; frames : list (cv.Mat Z) }.

(** How [main] ends: with a status, or in [std::terminate] when an
    exception of OpenCV leaves [ProcessFrame]. *)
Inductive Exit := Returned (status : Z) | Terminated.

Section Main.
Context `{cv.ImgProc} `{cv.StatModel}.

(** The loop of [main] at its iteration [n]: [waitKey n] is what
    [waitKey(50)] returns there.  The result is how [main] ends and, for
    every frame shown, the captured frame and the state [ProcessFrame] left:
    the display window shows the captured frame with what was drawn on it,
    the test window the processed frame. *)
Fixpoint main_loop (classifier detector : HogSvm.HogSvm) (frames : list (cv.Mat Z))
    (waitKey : nat -> Z) (n : nat) : Exit * list (cv.Mat Z * State) :=
  match frames with
  | [] => (Returned 0, [])
  | frame :: rest =>
      if cv.no_data frame then (Returned 0, [])
      else
        match ProcessFrame classifier detector (entry [] frame) with
        | (None, _) => (Terminated, [])
        | (Some _, st) =>
            let c := waitKey n mod 256 in
            if (c =? 81) || (c =? 113) then (Returned 0, [(frame, st)])
            else
              let '(exit, shown) := main_loop classifier detector rest waitKey (S n) in
              (exit, (frame, st) :: shown)
        end
  end.

(** [int main(int argc, char** argv)].  What is printed is left out. *)
Definition main (fs : FileSystem) (vidCapture : VideoCapture) (waitKey : nat -> Z)
  : Exit * list (cv.Mat Z * State) :=
  let classifier := HogSvm.new in
  let detector := HogSvm.new in
  let '(ok, svm) := Svm.Load (HogSvm.base classifier) "mnistSvm.xml" fs in
  let classifier := HogSvm.mkHogSvm svm (HogSvm.m_hog classifier) in
  if negb ok then (Returned 1, [])
  else
    let '(ok, svm) := Svm.Load (HogSvm.base detector) "svmDigitDetector.xml" fs in
    let detector := HogSvm.mkHogSvm svm (HogSvm.m_hog detector) in
    if negb ok then (Returned 1, [])
    else if negb (isOpened vidCapture) then (Returned 1, [])
    else main_loop classifier detector (frames vidCapture) waitKey 0.

(** The model a [HogSvm] holds after it loaded the bytes of a model file. *)
Definition loaded (bytes : list Z) : HogSvm.HogSvm :=
  HogSvm.mkHogSvm (Svm.mkSvm (cv.SVM_load bytes)) (HogSvm.m_hog HogSvm.new).

(** What the windows show for a captured frame. *)
Definition shown_for (classifier detector : HogSvm.HogSvm) (frame : cv.Mat Z)
  : cv.Mat Z * State :=
  (frame, (ProcessFrame classifier detector (entry [] frame)).2).

End Main.

End RealtimeDigitClassifier.


(* ===================================================================== *)
(** ** A small instance of the OpenCV operations

    Used where a statement is to be run on a concrete input: the image
    filters leave the image as it is, every frame has one contour, and the
    statistical model is the number it predicts. *)

Module Toy.

Definition boundingRect (contour : list cv.Point) : cv.Rect :=
  match contour with
  | [] => cv.mkRect 0 0 0 0
  | p :: rest =>
      let x0 := fold_right Z.min (cv.px p) (map cv.px rest) in
      let y0 := fold_right Z.min (cv.py p) (map cv.py rest) in
      let x1 := fold_right Z.max (cv.px p) (map cv.px rest) in
      let y1 := fold_right Z.max (cv.py p) (map cv.py rest) in
      cv.mkRect x0 y0 (x1 - x0 + 1) (y1 - y0 + 1)
  end.

Definition imgproc : cv.ImgProc := {|
  cv.cvtColor m _ := m;
  cv.blur m _ := m;
  cv.floodFill m _ _ := m;
  cv.getStructuringElement _ _ := cv.empty;
  cv.morphologyEx m _ _ := m;
  cv.findContours _ := [[cv.mkPoint 0 0; cv.mkPoint 2 3]];
  cv.boundingRect := boundingRect;
  cv.resize_pixel src _ i j := default 0 (cv.at_ src i j);
  cv.hog_value _ _ _ := F32.of_int 0;
  cv.RNG := Z;
  cv.RNG_default := 4294967295;
  cv.uniform state a b := (a + state mod (b - a), state + 1)
|}.

(** The same, with a contour only where the image has room for it. *)
Definition imgproc_in_bounds : cv.ImgProc := {|
  cv.cvtColor m _ := m;
  cv.blur m _ := m;
  cv.floodFill m _ _ := m;
  cv.getStructuringElement _ _ := cv.empty;
  cv.morphologyEx m _ _ := m;
  cv.findContours m :=
    if (3 <=? cv.cols m) && (4 <=? cv.rows m)
    then [[cv.mkPoint 0 0; cv.mkPoint 2 3]] else [];
  cv.boundingRect := boundingRect;
  cv.resize_pixel src _ i j := default 0 (cv.at_ src i j);
  cv.hog_value _ _ _ := F32.of_int 0;
  cv.RNG := Z;
  cv.RNG_default := 4294967295;
  cv.uniform state a b := (a + state mod (b - a), state + 1)
|}.

Definition statmodel : cv.StatModel := {|
  cv.SVM := Z;
  cv.SVM_create := 0;
  cv.SVM_predict model _ := F32.of_int model;
  cv.SVM_train model _ labels := Some (cv.rows labels);
  cv.SVM_save model := [model];
  cv.SVM_load bytes := hd 0 bytes
|}.


Definition svmparams : @cv.SvmParams statmodel := {|
  cv.setType model _ := model;
  cv.setKernel model _ := model;
  cv.setGamma model _ := model;
  cv.setDegree model _ := model;
  cv.setC model _ := model
|}.

(** A model that predicts [n] for every image. *)
Definition constant (n : Z) : @HogSvm.HogSvm statmodel :=
  HogSvm.mkHogSvm (@Svm.mkSvm statmodel n) (HogSvm.m_hog (@HogSvm.new statmodel)).

(** An image file of two 1 by 2 images with the pixels 90, 91, 89 and 255. *)
Definition boundary_images : list Z :=
  [0; 0; 8; 3] ++ SvmTrainer.be32 2 ++ SvmTrainer.be32 1 ++ SvmTrainer.be32 2
  ++ [90; 91; 89; 255].

(** An image file that declares two 1 by 1 images and holds one pixel, and
    a label file that declares three labels and holds one. *)
Definition truncated_images : list Z :=
  [0; 0; 8; 3] ++ SvmTrainer.be32 2 ++ SvmTrainer.be32 1 ++ SvmTrainer.be32 1 ++ [200].
Definition truncated_labels : list Z :=
  [0; 0; 8; 1] ++ SvmTrainer.be32 3 ++ [7].

(** A machine with these two files. *)
Definition short_files : FileSystem :=
  {[ "images"%string := truncated_images; "labels"%string := truncated_labels ]}.

(** Fresh memory that holds zeros. *)
Definition zeroed : nat -> nat -> Z := fun _ _ => 0.

(** A blank [r] by [c] frame. *)
Definition blank (r c : nat) : cv.Mat Z :=
  cv.mkMat (Z.of_nat r) (Z.of_nat c) (replicate r (replicate c 255)).

(** A machine with the four MNIST files, each with one item: a 1 by 1
    image and its label, for training and for the test. *)
Definition mnist : FileSystem :=
  {[ "./data/MNIST/train-images.idx3-ubyte"%string :=
       [0; 0; 8; 3] ++ SvmTrainer.be32 1 ++ SvmTrainer.be32 1 ++ SvmTrainer.be32 1 ++ [200];
     "./data/MNIST/train-labels.idx1-ubyte"%string :=
       [0; 0; 8; 1] ++ SvmTrainer.be32 1 ++ [1];
     "./data/MNIST/t10k-images.idx3-ubyte"%string :=
       [0; 0; 8; 3] ++ SvmTrainer.be32 1 ++ SvmTrainer.be32 1 ++ SvmTrainer.be32 1 ++ [7];
     "./data/MNIST/t10k-labels.idx1-ubyte"%string :=
       [0; 0; 8; 1] ++ SvmTrainer.be32 1 ++ [1] ]}.

(** Fresh memory that holds zeros, for every load. *)
Definition zeroed3 : nat -> nat -> nat -> Z := fun _ _ _ => 0.

(** A machine without image files, and one with a blank image under every
    name. *)
Definition no_image : string -> cv.Mat Z := fun _ => cv.empty.
Definition blank_image : string -> cv.Mat Z := fun _ => blank 1 1.

(** A machine with two model files. *)
Definition models : FileSystem :=
  {[ "mnistSvm.xml"%string := [7]; "svmDigitDetector.xml"%string := [1] ]}.

End Toy.

(* ===================================================================== *)
(** * Properties *)

(** ** Floating point *)

(** The literal [0.2] is the quotient of 1 by 5, correctly rounded. *)
Lemma F64_lit_0_2 : F64.div (F64.of_int 1) (F64.of_int 5) = F64.lit_0_2.
Proof. reflexivity. Qed.

Lemma F32_zero : F32.of_int 0 = S754_zero false.
Proof. reflexivity. Qed.

(** A value that is at most zero is not above zero. *)
Lemma F32_leb_zero_not_ltb (d : F32.float) :
  F32.leb d (F32.of_int 0) = true -> F32.ltb (F32.of_int 0) d = false.
Proof.
  rewrite F32_zero. unfold F32.leb, F32.ltb, SFleb, SFltb.
  destruct d as [s | s | | s m e]; simpl; try destruct s; simpl; congruence.
Qed.

(** ** Two-stage gating (RealtimeDigitClassifier.cpp) *)

Section Gating.
Import RealtimeDigitClassifier.
Context `{cv.ImgProc} `{cv.StatModel}.
Variables classifier detector : HogSvm.HogSvm.

Lemma ProcessContour_calls_grow roi contour st :
  exists new, calls (ProcessContour classifier detector roi contour st).2 = calls st ++ new.
Proof.
  unfold ProcessContour, mbind, Proc_bind, get_frame, may_raise, predict, rng_uniform, draw.
  simpl. destruct (padded_image _ _) as [image|]; simpl.
  - destruct (F32.ltb _ _); simpl.
    + repeat (destruct (cv.uniform _ _ _) as [? ?]; simpl).
      rewrite <- app_assoc. eauto.
    + eauto.
  - exists []. by rewrite app_nil_r.
Qed.

Lemma ProcessContours_calls_grow roi contours st :
  exists new, calls (ProcessContours classifier detector roi contours st).2 = calls st ++ new.
Proof.
  revert st. induction contours as [|contour rest IH]; intros st; simpl.
  - exists []. by rewrite app_nil_r.
  - unfold mbind, Proc_bind.
    destruct (ProcessContour_calls_grow roi contour st) as [new1 E1].
    destruct (ProcessContour classifier detector roi contour st) as [[[]|] st1]; simpl in *.
    + destruct (IH st1) as [new2 E2]. rewrite E2, E1, <- app_assoc. eauto.
    + eauto.
Qed.

Lemma ProcessContour_gated roi contour st :
  detector_rejects (ProcessContour classifier detector roi contour st).2 ->
  only_detector st (ProcessContour classifier detector roi contour st).2.
Proof.
  unfold detector_rejects, only_detector.
  unfold ProcessContour, mbind, Proc_bind, get_frame, may_raise, predict, rng_uniform, draw.
  simpl. destruct (padded_image _ _) as [image|]; simpl.
  - destruct (F32.ltb _ _) eqn:Epos; simpl.
    + repeat (destruct (cv.uniform _ _ _) as [? ?]; simpl).
      intros Hrej. exfalso.
      specialize (Hrej (mkCall Detector image (HogSvm.Predict detector image))).
      simpl in Hrej. rewrite Epos in Hrej.
      assert (true = false) by (apply Hrej; [set_solver | reflexivity]).
      discriminate.
    + intros _. split; [reflexivity|].
      eexists; split; [reflexivity|]. by repeat constructor.
  - intros _. split; [reflexivity|]. exists []. by rewrite app_nil_r.
Qed.

Lemma ProcessContours_gated roi contours st :
  detector_rejects (ProcessContours classifier detector roi contours st).2 ->
  only_detector st (ProcessContours classifier detector roi contours st).2.
Proof.
  revert st. induction contours as [|contour rest IH]; intros st; simpl.
  - intros _. split; [reflexivity|]. exists []. by rewrite app_nil_r.
  - unfold mbind, Proc_bind.
    pose proof (ProcessContour_gated roi contour st) as Hone.
    destruct (ProcessContour classifier detector roi contour st) as [[[]|] st1]; simpl in *.
    + intros Hrej.
      destruct (ProcessContours_calls_grow roi rest st1) as [later Elater].
      destruct (IH st1 Hrej) as [Hd2 (new2 & Ec2 & Hn2)].
      destruct Hone as [Hd1 (new1 & Ec1 & Hn1)].
      { intros call Hin. apply Hrej. rewrite Elater. set_solver. }
      split; [congruence|].
      exists (new1 ++ new2). split.
      * rewrite Ec2, Ec1. by rewrite app_assoc.
      * by apply Forall_app.
    + auto.
Qed.

End Gating.

(** C1.  Whenever every call of the detector's [Predict] made while a frame
    is processed returned a value that is at most zero, processing writes no
    digit on the display frame (only the rectangle of the region of interest
    is drawn) and the classifier's [Predict] is not called at all, whatever
    the classifier would have answered. *)
Theorem C1_detector_gates_classifier `{cv.ImgProc} `{cv.StatModel}
    (classifier detector : HogSvm.HogSvm)
    (display : list RealtimeDigitClassifier.DrawOp) (frame : cv.Mat Z) :
  let st' := (RealtimeDigitClassifier.ProcessFrame classifier detector
                (RealtimeDigitClassifier.entry display frame)).2 in
  (forall call, call ∈ RealtimeDigitClassifier.calls st' ->
      RealtimeDigitClassifier.callee call = RealtimeDigitClassifier.Detector ->
      F32.leb (RealtimeDigitClassifier.result call) (F32.of_int 0) = true) ->
  RealtimeDigitClassifier.detections (RealtimeDigitClassifier.displayFrame st')
    = RealtimeDigitClassifier.detections display
  /\ (exists pt1 pt2,
        RealtimeDigitClassifier.displayFrame st'
        = display ++ [RealtimeDigitClassifier.rectangle pt1 pt2 (cv.mkScalar 0 0 255) 1])
  /\ Forall (fun call => RealtimeDigitClassifier.callee call
                         = RealtimeDigitClassifier.Detector)
            (RealtimeDigitClassifier.calls st').
Proof.
  intros st' Hle.
  assert (Hrej : RealtimeDigitClassifier.detector_rejects st').
  { intros call Hin Hdet. apply F32_leb_zero_not_ltb. by apply Hle. }
  clear Hle. revert Hrej. subst st'.
  unfold RealtimeDigitClassifier.ProcessFrame, RealtimeDigitClassifier.entry.
  unfold mbind, RealtimeDigitClassifier.Proc_bind, RealtimeDigitClassifier.get_frame,
    RealtimeDigitClassifier.draw, RealtimeDigitClassifier.set_frame,
    RealtimeDigitClassifier.set_rng, RealtimeDigitClassifier.may_raise.
  simpl.
  destruct (cv.submat _ _) as [contourFrame|]; simpl.
  - intros Hrej.
    apply ProcessContours_gated in Hrej.
    destruct Hrej as [Hd (new & Ec & Hnew)]. simpl in Hd, Ec.
    rewrite Hd, Ec. split; [|split].
    + unfold RealtimeDigitClassifier.detections. rewrite omap_app. simpl.
      by rewrite app_nil_r.
    + eauto.
    + exact Hnew.
  - intros _. split; [|split].
    + unfold RealtimeDigitClassifier.detections. rewrite omap_app. simpl.
      by rewrite app_nil_r.
    + eauto.
    + constructor.
Qed.

(** C1 on a frame with one candidate region and a detector that answers -1:
    the classifier, which would answer 7, is never asked. *)
Lemma C1_witness :
  RealtimeDigitClassifier.detections
    (RealtimeDigitClassifier.displayFrame
       (@RealtimeDigitClassifier.ProcessFrame Toy.imgproc Toy.statmodel
          (Toy.constant 7) (Toy.constant (-1))
          (@RealtimeDigitClassifier.entry Toy.imgproc [] (Toy.blank 16 16))).2)
    = RealtimeDigitClassifier.detections []
  /\ (exists pt1 pt2,
        RealtimeDigitClassifier.displayFrame
          (@RealtimeDigitClassifier.ProcessFrame Toy.imgproc Toy.statmodel
             (Toy.constant 7) (Toy.constant (-1))
             (@RealtimeDigitClassifier.entry Toy.imgproc [] (Toy.blank 16 16))).2
        = [] ++ [RealtimeDigitClassifier.rectangle pt1 pt2 (cv.mkScalar 0 0 255) 1])
  /\ Forall (fun call => RealtimeDigitClassifier.callee call
                         = RealtimeDigitClassifier.Detector)
            (RealtimeDigitClassifier.calls
               (@RealtimeDigitClassifier.ProcessFrame Toy.imgproc Toy.statmodel
                  (Toy.constant 7) (Toy.constant (-1))
                  (@RealtimeDigitClassifier.entry Toy.imgproc [] (Toy.blank 16 16))).2).
Proof.
  apply (@C1_detector_gates_classifier Toy.imgproc Toy.statmodel
           (Toy.constant 7) (Toy.constant (-1)) [] (Toy.blank 16 16)).
  vm_compute. intros call Hin _.
  apply list_elem_of_singleton in Hin. subst call. reflexivity.
Defined.

(** ** Dataset files (SvmTrainer.cpp) *)

Lemma testbit_255 j : Z.testbit 255 j = (0 <=? j) && (j <? 8).
Proof.
  destruct (Z.leb_spec 0 j); simpl.
  - change 255 with (Z.ones 8).
    destruct (Z.ltb_spec j 8).
    + apply Z.ones_spec_low. lia.
    + apply Z.ones_spec_high. lia.
  - apply Z.testbit_neg_r. lia.
Qed.

Lemma testbit_uint32_high n k : 0 <= n < 2 ^ 32 -> 32 <= k -> Z.testbit n k = false.
Proof.
  intros Hn Hk. destruct (Z.eq_dec n 0) as [->|]; [apply Z.bits_0|].
  apply Z.bits_above_log2; [lia|].
  assert (Z.log2 n < 32) by (apply Z.log2_lt_pow2; lia). lia.
Qed.

(** [ReadInt] reads a 32-bit value stored most significant byte first. *)
Lemma ReadInt_be32 n rest opened : 0 <= n < 2 ^ 32 ->
  SvmTrainer.ReadInt (SvmTrainer.mk_ifstream opened (SvmTrainer.be32 n ++ rest) false)
  = (n, SvmTrainer.mk_ifstream opened rest false).
Proof.
  intros Hn. unfold SvmTrainer.ReadInt, SvmTrainer.be32. simpl. f_equal.
  change (8 * Z.of_nat 3) with 24. change (8 * Z.of_nat 2) with 16.
  change (8 * Z.of_nat 1) with 8. change (8 * Z.of_nat 0) with 0.
  unfold uint32.
  apply Z.bits_inj'. intros k Hk.
  pose proof (testbit_uint32_high n k Hn) as Hhigh.
  repeat first [ rewrite Z.testbit_mod_pow2 by lia | rewrite Z.lor_spec
               | rewrite Z.land_spec | rewrite Z.shiftl_spec by lia
               | rewrite Z.shiftr_spec by lia | rewrite testbit_255 ].
  rewrite ?Z.sub_add, ?Z.sub_0_r, ?Z.add_0_r.
  destruct (Z.ltb_spec k 32); simpl; [|symmetry; apply Hhigh; lia].
  rewrite Z.bits_0. simpl.
  repeat match goal with
         | |- context [?a <=? ?b] => destruct (Z.leb_spec a b); simpl
         | |- context [?a <? ?b] => destruct (Z.ltb_spec a b); simpl
         end;
    rewrite ?andb_false_r, ?andb_true_r, ?orb_false_r; simpl; try lia;
    rewrite ?Z.shiftr_spec by lia; rewrite ?Z.sub_add, ?Z.sub_0_r; reflexivity.
Qed.

(** Four bytes of any value are one [ReadInt]. *)
Lemma ReadInt_any4 opened b0 b1 b2 b3 rest :
  exists value,
    SvmTrainer.ReadInt (SvmTrainer.mk_ifstream opened (b0 :: b1 :: b2 :: b3 :: rest) false)
    = (value, SvmTrainer.mk_ifstream opened rest false).
Proof. eexists. reflexivity. Qed.

Section Loader.
Import SvmTrainer.
Variable heap : nat -> nat -> Z.

Lemma read_complete file count dest :
  fail file = false -> (count <= length (unread file))%nat -> length dest = count ->
  read file count dest
  = (take count (unread file), mk_ifstream (is_open file) (drop count (unread file)) false).
Proof.
  intros Hfail Hlen Hdest. unfold read. rewrite Hfail.
  rewrite length_take_le by exact Hlen.
  rewrite drop_ge by lia. rewrite app_nil_r, Nat.eqb_refl. reflexivity.
Qed.

Lemma read_images_complete n : forall i opened pixels images R C,
  (n * Z.to_nat (R * C) <= length pixels)%nat ->
  read_images heap n i R C (R * C) (mk_ifstream opened pixels false) images
  = (images ++ map (stored_image R C pixels) (seq 0 n),
     mk_ifstream opened (drop (n * Z.to_nat (R * C)) pixels) false).
Proof.
  induction n as [|n IH]; intros i opened pixels images R C Hlen.
  - simpl. by rewrite app_nil_r.
  - cbn [read_images].
    rewrite read_complete; simpl; [| reflexivity | lia | by rewrite length_map, length_seq].
    rewrite IH; [| rewrite length_drop; lia].
    rewrite drop_drop. f_equal.
    rewrite <- app_assoc. f_equal. simpl. f_equal.
    rewrite <- fmap_S_seq, <- list_fmap_compose.
    apply list_fmap_ext. intros _ k _. unfold stored_image. simpl.
    rewrite drop_drop. reflexivity.
Qed.

(** A file as long as its header says is loaded whole: every item is its
    block of pixels, binarized, in the order of the file. *)
Lemma ReadMnistImageFile_complete fs filename magic N R C pixels images :
  fs !! filename = Some (magic ++ be32 N ++ be32 R ++ be32 C ++ pixels) ->
  length magic = 4%nat ->
  0 <= N < 2 ^ 32 -> 0 <= R < 2 ^ 32 -> 0 <= C < 2 ^ 32 -> R * C < 2 ^ 32 ->
  Z.of_nat (length pixels) = N * R * C ->
  ReadMnistImageFile heap fs filename images
  = (true, images ++ map (stored_image R C pixels) (seq 0 (Z.to_nat N))).
Proof.
  intros Hfile Hmagic HN HR HC HRC Hlen.
  unfold ReadMnistImageFile, open. rewrite Hfile. cbn [is_open negb].
  destruct magic as [|m0 [|m1 [|m2 [|m3 [|]]]]]; try discriminate. clear Hmagic.
  destruct (ReadInt_any4 true m0 m1 m2 m3 (be32 N ++ be32 R ++ be32 C ++ pixels))
    as [magicNumber EmagicNumber].
  cbn [app]. rewrite EmagicNumber.
  rewrite !ReadInt_be32 by assumption.
  assert (Hsz : uint32 (R * C) = R * C) by (unfold uint32; apply Z.mod_small; lia).
  rewrite Hsz, read_images_complete; [reflexivity|].
  apply Nat2Z.inj_le. rewrite Nat2Z.inj_mul, !Z2Nat.id by lia. lia.
Qed.

(** The pixel [(i, j)] of item [k] is the binarized byte of the file. *)
Lemma stored_image_pixel R C pixels (k i j : nat) raw :
  0 <= R -> 0 <= C -> (i < Z.to_nat R)%nat -> (j < Z.to_nat C)%nat ->
  pixels !! (k * Z.to_nat (R * C) + i * Z.to_nat C + j)%nat = Some raw ->
  cv.at_ (stored_image R C pixels k) i j = Some (if raw <=? 90 then 0 else 255).
Proof.
  intros HR HC Hi Hj Hraw.
  unfold cv.at_, stored_image, cv.threshold, cv.of_buffer. simpl.
  rewrite !list_lookup_fmap, lookup_seq_lt by exact Hi. simpl.
  rewrite list_lookup_fmap, lookup_take_lt, lookup_drop by exact Hj.
  rewrite lookup_take_lt, lookup_drop.
  - rewrite Nat.add_assoc, Hraw. simpl. unfold cv.threshold_pixel.
    destruct (Z.ltb_spec 90 raw), (Z.leb_spec raw 90); try lia; reflexivity.
  - rewrite Z2Nat.inj_mul by lia. nia.
Qed.

Lemma length_read_images n : forall i R C imageSize file images,
  length (read_images heap n i R C imageSize file images).1 = (length images + n)%nat.
Proof.
  induction n as [|n IH]; intros i R C imageSize file images; cbn [read_images].
  - simpl. lia.
  - destruct (read file _ _) as [buffer file']. rewrite IH, length_app. simpl. lia.
Qed.


End Loader.

(** C2 (as amended).  In a loaded image a pixel is foreground (255) exactly
    when its byte in the file is above 90: the bytes 90 and 89 are both
    stored as background (0), and 91 is the darkest foreground value.  The
    bound at 90 is exclusive. *)
Theorem C2_binarization_above_90 (heap : nat -> nat -> Z) (fs : FileSystem)
    (filename : string) (magic : list Z) (N R C : Z) (pixels : list Z)
    (images : list (cv.Mat Z)) (k i j : nat) (raw : Z) :
  fs !! filename
    = Some (magic ++ SvmTrainer.be32 N ++ SvmTrainer.be32 R ++ SvmTrainer.be32 C ++ pixels) ->
  length magic = 4%nat ->
  0 <= N < 2 ^ 32 -> 0 <= R <= INT_MAX -> 0 <= C <= INT_MAX -> R * C < 2 ^ 32 ->
  Z.of_nat (length pixels) = N * R * C ->
  (k < Z.to_nat N)%nat -> (i < Z.to_nat R)%nat -> (j < Z.to_nat C)%nat ->
  pixels !! (k * Z.to_nat (R * C) + i * Z.to_nat C + j)%nat = Some raw ->
  (SvmTrainer.ReadMnistImageFile heap fs filename images).2 !! (length images + k)%nat
    ≫= (fun image => cv.at_ image i j)
  = Some (if raw <=? 90 then 0 else 255).
Proof.
  unfold INT_MAX. intros Hfile Hmagic HN HR HC HRC Hlen Hk Hi Hj Hraw.
  rewrite (ReadMnistImageFile_complete heap fs filename magic N R C pixels images)
    by (assumption || lia).
  simpl. rewrite lookup_app_r by lia.
  replace (length images + k - length images)%nat with k by lia.
  rewrite list_lookup_fmap, lookup_seq_lt by exact Hk. simpl.
  apply stored_image_pixel; (lia || assumption).
Qed.

(** C2 on a file of two 1 by 2 images: the first pixel, of value 90, is
    stored as 0. *)
Lemma C2_witness :
  (SvmTrainer.ReadMnistImageFile Toy.zeroed {[ "images"%string := Toy.boundary_images ]}
     "images" []).2 !! (length (@nil (cv.Mat Z)) + 0)%nat
    ≫= (fun image => cv.at_ image 0 0)
  = Some (if 90 <=? 90 then 0 else 255).
Proof.
  apply (C2_binarization_above_90 Toy.zeroed {[ "images"%string := Toy.boundary_images ]}
           "images" [0; 0; 8; 3] 2 1 2 [90; 91; 89; 255] [] 0 0 0 90);
    try reflexivity; try lia; vm_compute; (reflexivity || (split; congruence)).
Defined.

(** C2 as the specification has it fails: a pixel of intensity exactly 90 is
    not stored as foreground. *)
Lemma C2_counterexample :
  (SvmTrainer.ReadMnistImageFile Toy.zeroed {[ "images"%string := Toy.boundary_images ]}
     "images" []).2
  = [cv.mkMat 1 2 [[0; 255]]; cv.mkMat 1 2 [[0; 255]]]
  /\ (SvmTrainer.ReadMnistImageFile Toy.zeroed {[ "images"%string := Toy.boundary_images ]}
        "images" []).2 !! 0%nat ≫= (fun image => cv.at_ image 0 0)
     <> Some 255.
Proof. split; [reflexivity | vm_compute; congruence]. Qed.

(** C3.  The image file with any magic number, the header fields N = 3,
    R = 2, C = 2 and the twelve bytes 100 10 10 100, 95 95 0 0, 5 5 5 5 is
    loaded as exactly three binarized 2 by 2 images, in the order of the
    file: [[255,0],[0,255]], [[255,255],[0,0]] and [[0,0],[0,0]]. *)
Theorem C3_three_images (heap : nat -> nat -> Z) (fs : FileSystem) (filename : string)
    (m0 m1 m2 m3 : Z) :
  SvmTrainer.ReadMnistImageFile heap
    (<[filename := [m0; m1; m2; m3]
                   ++ SvmTrainer.be32 3 ++ SvmTrainer.be32 2 ++ SvmTrainer.be32 2
                   ++ [100; 10; 10; 100; 95; 95; 0; 0; 5; 5; 5; 5]]> fs)
    filename []
  = (true, [cv.mkMat 2 2 [[255; 0]; [0; 255]];
            cv.mkMat 2 2 [[255; 255]; [0; 0]];
            cv.mkMat 2 2 [[0; 0]; [0; 0]]]).
Proof.
  rewrite (ReadMnistImageFile_complete heap _ filename [m0; m1; m2; m3] 3 2 2
             [100; 10; 10; 100; 95; 95; 0; 0; 5; 5; 5; 5] []).
  - reflexivity.
  - apply lookup_insert_eq.
  - reflexivity.
  - lia.
  - lia.
  - lia.
  - lia.
  - reflexivity.
Qed.

Section LoaderAnyLength.
Import SvmTrainer.
Variable heap : nat -> nat -> Z.





End LoaderAnyLength.




(** ** Padding of a candidate region (RealtimeDigitClassifier.cpp) *)

(** [lia], without the hypotheses on every row of a matrix. *)
Ltac zlia := repeat match goal with Hrow : Forall _ _ |- _ => clear Hrow end; lia.

(** *** The specification floats *)

Lemma digits2_pos_bounds (p : positive) :
  2 ^ (Z.pos (digits2_pos p) - 1) <= Z.pos p < 2 ^ Z.pos (digits2_pos p).
Proof.
  induction p as [p IH | p IH |]; cbn [digits2_pos].
  - rewrite Pos2Z.inj_succ. replace (Z.succ (Z.pos (digits2_pos p)) - 1) with (Z.pos (digits2_pos p)) by lia.
    rewrite Z.pow_succ_r by lia.
    assert (2 ^ Z.pos (digits2_pos p) = 2 * 2 ^ (Z.pos (digits2_pos p) - 1)) as E.
    { rewrite <- Z.pow_succ_r by lia. f_equal. lia. }
    lia.
  - rewrite Pos2Z.inj_succ. replace (Z.succ (Z.pos (digits2_pos p)) - 1) with (Z.pos (digits2_pos p)) by lia.
    rewrite Z.pow_succ_r by lia.
    assert (2 ^ Z.pos (digits2_pos p) = 2 * 2 ^ (Z.pos (digits2_pos p) - 1)) as E.
    { rewrite <- Z.pow_succ_r by lia. f_equal. lia. }
    lia.
  - simpl. lia.
Qed.

Lemma digits2_pos_unique (p : positive) (k : Z) :
  2 ^ (k - 1) <= Z.pos p < 2 ^ k -> Z.pos (digits2_pos p) = k.
Proof.
  intros [Hlo Hhi]. pose proof (digits2_pos_bounds p) as [Blo Bhi].
  destruct (Z.lt_trichotomy (Z.pos (digits2_pos p)) k) as [Hlt | [Heq | Hgt]]; [exfalso | exact Heq | exfalso].
  - assert (2 ^ Z.pos (digits2_pos p) <= 2 ^ (k - 1)) by (apply Z.pow_le_mono_r; lia). lia.
  - assert (0 <= k \/ k < 0) as [Hk|Hk] by lia.
    + assert (2 ^ k <= 2 ^ (Z.pos (digits2_pos p) - 1)) by (apply Z.pow_le_mono_r; lia). lia.
    + rewrite (Z.pow_neg_r 2 k) in Hhi by lia. lia.
Qed.

Lemma iter_pos_nat {A} (f : A -> A) (p : positive) (x : A) :
  SpecFloat.iter_pos f p x = Nat.iter (Pos.to_nat p) f x.
Proof.
  revert x. induction p as [p IH | p IH |]; intros x; cbn [SpecFloat.iter_pos].
  - rewrite !IH, Pos2Nat.inj_xI. 
    replace (S (2 * Pos.to_nat p)) with (Pos.to_nat p + (Pos.to_nat p + 1))%nat by lia.
    rewrite !Nat.iter_add. simpl. reflexivity.
  - rewrite !IH, Pos2Nat.inj_xO.
    replace (2 * Pos.to_nat p)%nat with (Pos.to_nat p + Pos.to_nat p)%nat by lia.
    rewrite Nat.iter_add. reflexivity.
  - reflexivity.
Qed.

Lemma shr_1_m (mrs : shr_record) : 0 <= shr_m mrs -> shr_m (shr_1 mrs) = shr_m mrs / 2.
Proof.
  destruct mrs as [m r s]. destruct m as [|[p|p|]|p]; intros Hm; cbn [shr_1 shr_m] in *.
  - reflexivity.
  - rewrite Pos2Z.inj_xI. apply Z.div_unique with 1; lia.
  - rewrite Pos2Z.inj_xO. apply Z.div_unique with 0; lia.
  - reflexivity.
  - lia.
Qed.

Lemma shr_iter_m (k : nat) : forall mrs,
  0 <= shr_m mrs -> shr_m (Nat.iter k shr_1 mrs) = shr_m mrs / 2 ^ Z.of_nat k.
Proof.
  induction k as [|k IH]; intros mrs Hm.
  - simpl. by rewrite Z.div_1_r.
  - rewrite Nat.iter_succ_r, IH, shr_1_m by (rewrite ?shr_1_m by lia; try apply Z.div_pos; lia).
    rewrite Z.div_div by lia. f_equal.
    rewrite Nat2Z.inj_succ, Z.pow_succ_r by lia. reflexivity.
Qed.

Lemma shr_m_of_loc m l : shr_m (shr_record_of_loc m l) = m.
Proof. destruct l as [|[]]; reflexivity. Qed.

(** [shr_fexp] shifts the mantissa right by the digits it has beyond 53. *)
Lemma shr_fexp_64 (m e : Z) (l : location) :
  let s := Z.max (Zdigits2 m + e - 53) (-1074) - e in
  0 <= s ->
  shr_fexp 53 1024 m e l = (Nat.iter (Z.to_nat s) shr_1 (shr_record_of_loc m l), e + s).
Proof.
  intros s Hs. unfold shr_fexp, shr, fexp, emin.
  change (3 - 1024 - 53) with (-1074).
  fold s. destruct s as [|p|p] eqn:Es.
  - simpl. f_equal. lia.
  - rewrite iter_pos_nat. reflexivity.
  - lia.
Qed.

Lemma round_nearest_even_cases m l :
  round_nearest_even m l = m \/ round_nearest_even m l = m + 1.
Proof.
  unfold round_nearest_even. destruct l as [|[]]; auto. destruct (Z.even m); auto.
Qed.

(** Rounding a positive mantissa with more than 53 digits: the result is
    the mantissa without its low digits, or one more, at the same value
    scale. *)
Lemma binary_round_aux_64 (P : positive) (e0 : Z) :
  let s := Z.pos (digits2_pos P) - 53 in
  0 < s -> -1074 <= e0 + s -> e0 + s + 1 <= 971 ->
  exists (m2 : Z) (m3 : positive) (e3 : Z),
    (m2 = Z.pos P / 2 ^ s \/ m2 = Z.pos P / 2 ^ s + 1)
    /\ binary_round_aux 53 1024 false (Z.pos P) e0 loc_Exact = S754_finite false m3 e3
    /\ ((e3 = e0 + s /\ Z.pos m3 = m2) \/ (e3 = e0 + s + 1 /\ 2 * Z.pos m3 = m2)).
Proof.
  intros s Hs Hlo Hhi.
  pose proof (digits2_pos_bounds P) as [Plo Phi].
  assert (Epow : 2 ^ Z.pos (digits2_pos P) = 2 ^ 53 * 2 ^ s).
  { rewrite <- Z.pow_add_r by lia. f_equal. lia. }
  assert (Epow' : 2 ^ (Z.pos (digits2_pos P) - 1) = 2 ^ 52 * 2 ^ s).
  { rewrite <- Z.pow_add_r by lia. f_equal. lia. }
  assert (Hpos : 0 < 2 ^ s) by (apply Z.pow_pos_nonneg; lia).
  set (m1 := Z.pos P / 2 ^ s).
  assert (Hm1 : 2 ^ 52 <= m1 < 2 ^ 53).
  { unfold m1. split.
    - apply Z.div_le_lower_bound; lia.
    - apply Z.div_lt_upper_bound; lia. }
  unfold binary_round_aux.
  rewrite shr_fexp_64; cbn [Zdigits2]; fold s;
    [| replace (Z.max (Z.pos (digits2_pos P) + e0 - 53) (-1074) - e0) with s by lia; lia].
  replace (Z.max (Z.pos (digits2_pos P) + e0 - 53) (-1074) - e0) with s by lia.
  cbn beta iota.
  set (mrs1 := Nat.iter (Z.to_nat s) shr_1 (shr_record_of_loc (Z.pos P) loc_Exact)).
  assert (Emrs1 : shr_m mrs1 = m1).
  { unfold mrs1. rewrite shr_iter_m by (rewrite shr_m_of_loc; lia).
    rewrite shr_m_of_loc, Z2Nat.id by lia. reflexivity. }
  rewrite Emrs1.
  set (m2 := round_nearest_even m1 (loc_of_shr_record mrs1)).
  assert (Hm2 : m2 = m1 \/ m2 = m1 + 1) by apply round_nearest_even_cases.
  assert (Hm2pos : 2 ^ 52 <= m2 <= 2 ^ 53) by lia.
  destruct m2 as [|q|q] eqn:Eq; [lia | | lia].
  exists (Z.pos q).
  destruct (Z.eq_dec (Z.pos q) (2 ^ 53)) as [Htop|Hnot].
  - (* the mantissa overflows to 2^53 and is halved *)
    assert (Edig : Z.pos (digits2_pos q) = 54) by (apply digits2_pos_unique; lia).
    rewrite shr_fexp_64; cbn [Zdigits2]; rewrite Edig;
      [| lia].
    replace (Z.max (54 + (e0 + s) - 53) (-1074) - (e0 + s)) with 1 by lia.
    cbn beta iota. cbn [Z.to_nat Pos.to_nat Pos.iter_op Nat.iter nat_rect].
    rewrite shr_1_m by (rewrite shr_m_of_loc; lia).
    rewrite shr_m_of_loc, Htop. change (2 ^ 53 / 2) with (Z.pos (2 ^ 52)).
    cbn iota.
    destruct (Z.leb_spec (e0 + s + 1) (1024 - 53)) as [_|Hbad]; [|lia].
    exists (2 ^ 52)%positive, (e0 + s + 1).
    split; [rewrite <- Htop; exact Hm2|]. split; [reflexivity|].
    right. split; reflexivity.
  - assert (Edig : Z.pos (digits2_pos q) = 53) by (apply digits2_pos_unique; lia).
    rewrite shr_fexp_64; cbn [Zdigits2]; rewrite Edig; [| lia].
    replace (Z.max (53 + (e0 + s) - 53) (-1074) - (e0 + s)) with 0 by lia.
    cbn beta iota. cbn [Z.to_nat Nat.iter nat_rect].
    rewrite ?shr_m_of_loc. cbn [shr_m shr_record_of_loc]. cbn iota.
    destruct (Z.leb_spec (e0 + s + 0) (1024 - 53)) as [_|Hbad]; [|lia].
    exists q, (e0 + s + 0).
    split; [exact Hm2|]. split; [reflexivity|]. left. split; [lia | reflexivity].
Qed.

Lemma iter_xO (p d : positive) : Z.pos (Pos.iter xO p d) = Z.pos p * 2 ^ Z.pos d.
Proof.
  change (Pos.iter xO p d) with (shift (Z.pos d) p).
  rewrite shift_equiv by lia. apply Z.shiftl_mul_pow2. lia.
Qed.

(** A mantissa of 53 digits is left as it is. *)
Lemma binary_round_aux_exact (m : positive) (e : Z) :
  Z.pos (digits2_pos m) = 53 -> -1074 <= e <= 971 ->
  binary_round_aux 53 1024 false (Z.pos m) e loc_Exact = S754_finite false m e.
Proof.
  intros Hdig He. unfold binary_round_aux.
  rewrite shr_fexp_64; cbn [Zdigits2]; rewrite Hdig; [|lia].
  replace (Z.max (53 + e - 53) (-1074) - e) with 0 by lia.
  cbn beta iota. unfold shr_record_of_loc.
  change (Nat.iter (Z.to_nat 0) shr_1 ?x) with x.
  cbn [shr_m loc_of_shr_record round_nearest_even].
  rewrite shr_fexp_64; cbn [Zdigits2]; rewrite Hdig; [|lia].
  replace (Z.max (53 + (e + 0) - 53) (-1074) - (e + 0)) with 0 by lia.
  cbn beta iota. unfold shr_record_of_loc.
  change (Nat.iter (Z.to_nat 0) shr_1 ?x) with x.
  cbn [shr_m].
  destruct (Z.leb_spec (e + 0 + 0) (1024 - 53)) as [_|Hbad]; [|lia].
  f_equal. lia.
Qed.

(** A positive [int] as a [double]: its digits moved up to 53. *)
Lemma of_int_64 (p : positive) :
  Z.pos p < 2 ^ 31 ->
  exists (mn : positive) (d : Z),
    F64.of_int (Z.pos p) = S754_finite false mn (- d)
    /\ 22 <= d <= 52
    /\ Z.pos mn = Z.pos p * 2 ^ d
    /\ Z.pos (digits2_pos mn) = 53.
Proof.
  intros Hp. pose proof (digits2_pos_bounds p) as [Plo Phi].
  set (k := Z.pos (digits2_pos p)) in *.
  assert (Hk : 1 <= k <= 31).
  { split; [lia|]. destruct (Z.le_gt_cases k 31) as [|Hbig]; [assumption|].
    assert (2 ^ 31 <= 2 ^ (k - 1)) by (apply Z.pow_le_mono_r; lia). lia. }
  unfold F64.of_int, binary_normalize, binary_round, shl_align, fexp, emin.
  fold k. change (3 - F64.emax - F64.prec) with (-1074). change F64.prec with 53.
  replace (Z.max (k + 0 - 53) (-1074) - 0) with (k - 53) by lia.
  replace (Z.max (k + 0 - 53) (-1074)) with (k - 53) by lia.
  destruct (k - 53) as [|d|d] eqn:Ed; [lia | lia |].
  assert (Emn : Z.pos (Pos.iter xO p d) = Z.pos p * 2 ^ Z.pos d) by apply iter_xO.
  assert (Edig : Z.pos (digits2_pos (Pos.iter xO p d)) = 53).
  { apply digits2_pos_unique. rewrite Emn.
    assert (E1 : 2 ^ (53 - 1) = 2 ^ (k - 1) * 2 ^ Z.pos d)
      by (rewrite <- Z.pow_add_r by lia; f_equal; lia).
    assert (E2 : 2 ^ 53 = 2 ^ k * 2 ^ Z.pos d)
      by (rewrite <- Z.pow_add_r by lia; f_equal; lia).
    assert (0 < 2 ^ Z.pos d) by (apply Z.pow_pos_nonneg; lia).
    rewrite E1, E2. split; [apply Z.mul_le_mono_nonneg_r | apply Z.mul_lt_mono_pos_r]; lia. }
  exists (Pos.iter xO p d), (Z.pos d).
  split; [|split; [lia | split; assumption]].
  change F64.emax with 1024.
  rewrite binary_round_aux_exact; [reflexivity | assumption | lia].
Qed.

(** The pad of a side: the product with [0.2] in double precision, cut to
    an [int], is the integer quotient by 5 for every non-negative [int]. *)
Lemma pad_fifth (n : Z) : 0 <= n <= INT_MAX -> RealtimeDigitClassifier.pad n = n / 5.
Proof.
  unfold INT_MAX. intros Hn.
  destruct n as [|p|p]; [reflexivity | | lia].
  destruct (of_int_64 p) as (mn & d & Eof & Hd & Emn & Hdig); [lia|].
  pose proof (digits2_pos_bounds mn) as Bmn. rewrite Hdig in Bmn.
  unfold RealtimeDigitClassifier.pad, F64.mul. rewrite Eof. unfold F64.lit_0_2.
  cbn [SFmul xorb].
  set (M := 7205759403792794%positive).
  set (P := (mn * M)%positive).
  assert (EP : Z.pos P = Z.pos mn * Z.pos M) by reflexivity.
  assert (BP : 2 ^ 104 <= Z.pos P < 2 ^ 106).
  { rewrite EP. change (2 ^ 104) with (2 ^ 52 * 2 ^ 52). change (2 ^ 106) with (2 ^ 53 * 2 ^ 53).
    change (53 - 1) with 52 in Bmn. subst M. split.
    - apply Z.mul_le_mono_nonneg; lia.
    - apply Z.mul_lt_mono_nonneg; lia. }
  pose proof (digits2_pos_bounds P) as BD.
  set (D := Z.pos (digits2_pos P)) in *.
  assert (HD : 105 <= D <= 106).
  { split.
    - destruct (Z.le_gt_cases 105 D) as [|Hsmall]; [assumption|].
      assert (2 ^ D <= 2 ^ 104) by (apply Z.pow_le_mono_r; lia). lia.
    - destruct (Z.le_gt_cases D 106) as [|Hbig]; [assumption|].
      assert (2 ^ 106 <= 2 ^ (D - 1)) by (apply Z.pow_le_mono_r; lia). lia. }
  destruct (binary_round_aux_64 P (- d + -55)) as (m2 & m3 & e3 & Hm2 & Eround & Hscale);
    fold D; [lia | lia | lia |].
  change F64.prec with 53. change F64.emax with 1024. rewrite Eround. clear Eround.
  fold D in Hm2, Hscale.
  set (s := D - 53) in *.
  set (u := d + 55 - s).
  assert (Hu : 24 <= u) by (unfold u; lia).
  set (q := Z.pos p / 5).
  assert (Hq : 5 * q <= Z.pos p < 5 * q + 5).
  { unfold q. pose proof (Z.mul_div_le (Z.pos p) 5). pose proof (Z.mul_succ_div_gt (Z.pos p) 5). lia. }
  (* the powers of two at play *)
  assert (HA : 2 ^ 22 <= 2 ^ d) by (apply Z.pow_le_mono_r; lia).
  assert (HS : 0 < 2 ^ s <= 2 ^ 53)
    by (split; [apply Z.pow_pos_nonneg | apply Z.pow_le_mono_r]; lia).
  assert (HU : 0 < 2 ^ u) by (apply Z.pow_pos_nonneg; lia).
  assert (EX : 2 ^ d * 2 ^ 55 = 2 ^ u * 2 ^ s).
  { rewrite <- !Z.pow_add_r by lia. f_equal. unfold u. lia. }
  assert (E5P : 5 * Z.pos P = Z.pos p * (2 ^ d * 2 ^ 55) + 2 * Z.pos p * 2 ^ d).
  { rewrite EP, Emn. subst M. lia. }
  set (m1 := Z.pos P / 2 ^ s) in *.
  assert (Hm1 : 2 ^ s * m1 <= Z.pos P < 2 ^ s * m1 + 2 ^ s).
  { unfold m1. pose proof (Z.mul_div_le (Z.pos P) (2 ^ s)).
    pose proof (Z.mul_succ_div_gt (Z.pos P) (2 ^ s)). lia. }
  assert (Hquot : q * 2 ^ u <= m2 < (q + 1) * 2 ^ u).
  { clearbody m1 q u s. clear BD HD Hscale Hu.
    remember (2 ^ d) as A eqn:EA. remember (2 ^ s) as S' eqn:ES.
    remember (2 ^ u) as U eqn:EU. clear EA ES EU.
    assert (H1 : 5 * q * (U * S') <= Z.pos p * (U * S'))
      by (apply Z.mul_le_mono_nonneg_r; lia).
    assert (H2 : Z.pos p * (U * S') <= (5 * q + 4) * (U * S'))
      by (apply Z.mul_le_mono_nonneg_r; lia).
    assert (H3 : 0 <= 2 * Z.pos p * A <= 2 ^ 32 * A)
      by (split; [apply Z.mul_nonneg_nonneg | apply Z.mul_le_mono_nonneg_r]; lia).
    rewrite EX in E5P.
    assert (Hlow : q * U < m1 + 1).
    { apply (Z.mul_lt_mono_pos_l S'); lia. }
    assert (Hup : m1 + 1 < (q + 1) * U).
    { apply (Z.mul_lt_mono_pos_l S'); lia. }
    lia. }
  assert (Em2 : m2 / 2 ^ u = q).
  { symmetry. apply Z.div_unique with (m2 - q * 2 ^ u); lia. }
  assert (Emag : Z.shiftl (Z.pos m3) e3 = q).
  { destruct Hscale as [[-> Em3] | [-> Em3]].
    - rewrite Z.shiftl_div_pow2 by lia.
      replace (- (- d + -55 + s)) with u by (unfold u; lia). rewrite Em3. exact Em2.
    - rewrite Z.shiftl_div_pow2 by lia.
      replace (- (- d + -55 + s + 1)) with (u - 1) by (unfold u; lia).
      rewrite <- Em2, <- Em3.
      replace (2 ^ u) with (2 * 2 ^ (u - 1))
        by (rewrite <- Z.pow_succ_r by lia; f_equal; lia).
      rewrite <- Z.div_div by (try apply Z.pow_pos_nonneg; lia).
      rewrite Z.mul_comm, Z.div_mul by lia. reflexivity. }
  unfold static_cast_int, float_trunc. rewrite Emag.
  unfold INT_MIN, INT_MAX.
  destruct (Z.leb_spec (- 2 ^ 31) q), (Z.leb_spec q (2 ^ 31 - 1)); simpl; lia.
Qed.

(** *** Cropping and padding *)

Lemma submat_spec (src : cv.Mat Z) (r : cv.Rect) :
  cv.well_formed src -> cv.inside r src = true ->
  exists image, cv.submat src r = Some image
    /\ cv.rows image = cv.height r /\ cv.cols image = cv.width r
    /\ cv.well_formed image.
Proof.
  intros [Hrows Hcols] Hin. unfold cv.submat. rewrite Hin.
  unfold cv.inside in Hin.
  repeat (apply andb_true_iff in Hin as [Hin ?]).
  repeat match goal with Hle : (_ <=? _) = true |- _ => apply Z.leb_le in Hle end.
  eexists. split; [reflexivity|]. split; [reflexivity|]. split; [reflexivity|].
  unfold cv.well_formed. simpl. split.
  - rewrite length_fmap, length_take, length_drop.
    rewrite Nat.min_l by zlia. zlia.
  - apply Forall_fmap, Forall_take, Forall_drop.
    eapply Forall_impl; [exact Hcols|]. intros row Hrow. simpl in *.
    rewrite length_take, length_drop. rewrite Nat.min_l by zlia. zlia.
Qed.

Lemma copyMakeBorder_spec (src : cv.Mat Z) (top left : Z) :
  cv.well_formed src -> 0 <= top -> 0 <= left -> 0 <= cv.cols src ->
  let image := cv.copyMakeBorder src top top left left 0 in
  cv.rows image = cv.rows src + 2 * top
  /\ cv.cols image = cv.cols src + 2 * left
  /\ cv.well_formed image
  /\ forall i j : nat,
       Z.of_nat i < cv.rows image -> Z.of_nat j < cv.cols image ->
       Z.of_nat i < top \/ top + cv.rows src <= Z.of_nat i
       \/ Z.of_nat j < left \/ left + cv.cols src <= Z.of_nat j ->
       cv.at_ image i j = Some 0.
Proof.
  intros [Hrows Hcols] Htop Hleft Hc. simpl.
  split; [zlia|]. split; [zlia|]. split.
  - unfold cv.well_formed. simpl. split.
    + rewrite !length_app, !length_replicate, length_fmap. zlia.
    + rewrite !Forall_app. repeat split.
      * apply Forall_replicate. rewrite length_replicate. zlia.
      * apply Forall_fmap. eapply Forall_impl; [exact Hcols|]. intros row Hrow. simpl in *.
        rewrite !length_app, !length_replicate. zlia.
      * apply Forall_replicate. rewrite length_replicate. zlia.
  - intros i j Hi Hj Hborder. unfold cv.at_. simpl.
    destruct (Z.lt_ge_cases (Z.of_nat i) top) as [Habove|Hbelow].
    { rewrite lookup_app_l by (rewrite length_replicate; zlia).
      rewrite lookup_replicate_2 by zlia. simpl.
      apply lookup_replicate_2. zlia. }
    rewrite lookup_app_r by (rewrite length_replicate; zlia).
    rewrite length_replicate.
    destruct (Z.lt_ge_cases (Z.of_nat i) (top + cv.rows src)) as [Hmid|Hlow].
    + rewrite lookup_app_l by (rewrite length_fmap; zlia).
      rewrite list_lookup_fmap.
      destruct (lookup_lt_is_Some_2 (cv.data src) (i - Z.to_nat top)) as [row Erow]; [zlia|].
      rewrite Erow. simpl.
      assert (Hlen : Z.of_nat (length row) = cv.cols src).
      { eapply Forall_lookup_1 in Hcols; [exact Hcols | exact Erow]. }
      destruct (Z.lt_ge_cases (Z.of_nat j) left) as [Hl|Hr].
      * rewrite lookup_app_l by (rewrite length_replicate; zlia).
        apply lookup_replicate_2. zlia.
      * rewrite lookup_app_r by (rewrite length_replicate; zlia).
        rewrite length_replicate.
        rewrite lookup_app_r by zlia.
        apply lookup_replicate_2. zlia.
    + rewrite lookup_app_r by (rewrite length_fmap; zlia).
      rewrite length_fmap.
      rewrite lookup_replicate_2 by zlia. simpl.
      apply lookup_replicate_2. zlia.
Qed.

(** C4 (as amended).  The image cut out for a bounding rectangle of width
    [w] and height [h] that lies inside the frame is [w + 2 * (w / 5)] wide
    and [h + 2 * (h / 5)] high, where [/] is the integer quotient: the pad
    [static_cast<int>(w * 0.2)] drops the fraction of a fifth of the side,
    it does not round it.  Every pixel of the border is 0.  (The sides of
    the frame are [int]s.) *)
Theorem C4_padding_truncates (frame : cv.Mat Z) (boundRect : cv.Rect) :
  cv.well_formed frame ->
  cv.cols frame <= INT_MAX -> cv.rows frame <= INT_MAX ->
  cv.inside boundRect frame = true ->
  exists image,
    RealtimeDigitClassifier.padded_image frame boundRect = Some image
    /\ cv.cols image = cv.width boundRect + 2 * (cv.width boundRect / 5)
    /\ cv.rows image = cv.height boundRect + 2 * (cv.height boundRect / 5)
    /\ cv.well_formed image
    /\ forall i j : nat,
         Z.of_nat i < cv.rows image -> Z.of_nat j < cv.cols image ->
         Z.of_nat i < cv.height boundRect / 5
         \/ cv.height boundRect / 5 + cv.height boundRect <= Z.of_nat i
         \/ Z.of_nat j < cv.width boundRect / 5
         \/ cv.width boundRect / 5 + cv.width boundRect <= Z.of_nat j ->
         cv.at_ image i j = Some 0.
Proof.
  intros Hwf Hcols Hrows Hin.
  destruct boundRect as [x y w h].
  destruct (submat_spec frame (cv.mkRect x y w h) Hwf Hin)
    as (crop & Ecrop & Hcrop_rows & Hcrop_cols & Hcrop_wf).
  unfold cv.inside in Hin. simpl in Hin, Hcrop_rows, Hcrop_cols.
  repeat (apply andb_true_iff in Hin as [Hin ?]).
  repeat match goal with Hle : (_ <=? _) = true |- _ => apply Z.leb_le in Hle end.
  unfold RealtimeDigitClassifier.padded_image. simpl. rewrite Ecrop. simpl.
  rewrite !pad_fifth by lia.
  eexists. split; [reflexivity|].
  destruct (copyMakeBorder_spec crop (h / 5) (w / 5) Hcrop_wf)
    as (Erows & Ecols & Hwf' & Hborder);
    [apply Z.div_pos; lia | apply Z.div_pos; lia | lia |].
  rewrite Hcrop_rows in Erows, Hborder. rewrite Hcrop_cols in Ecols, Hborder.
  split; [exact Ecols|]. split; [exact Erows|]. split; [exact Hwf'|].
  exact Hborder.
Qed.

(** C4 on a 7 by 10 rectangle inside a 16 by 16 frame: the image is 9 by 14. *)
Lemma C4_witness :
  exists image,
    RealtimeDigitClassifier.padded_image (Toy.blank 16 16) (cv.mkRect 2 3 7 10) = Some image
    /\ cv.cols image = 7 + 2 * (7 / 5)
    /\ cv.rows image = 10 + 2 * (10 / 5)
    /\ cv.well_formed image
    /\ forall i j : nat,
         Z.of_nat i < cv.rows image -> Z.of_nat j < cv.cols image ->
         Z.of_nat i < 10 / 5 \/ 10 / 5 + 10 <= Z.of_nat i
         \/ Z.of_nat j < 7 / 5 \/ 7 / 5 + 7 <= Z.of_nat j ->
         cv.at_ image i j = Some 0.
Proof.
  apply (C4_padding_truncates (Toy.blank 16 16) (cv.mkRect 2 3 7 10)).
  - split; [reflexivity|]. simpl. repeat constructor.
  - vm_compute. discriminate.
  - vm_compute. discriminate.
  - reflexivity.
Defined.

(** C4 as the specification has it fails: a 3 by 4 rectangle is handed on
    unpadded, 3 wide and 4 high, where rounding [0.2 * 3 = 0.6] and
    [0.2 * 4 = 0.8] to 1 would give 5 by 6. *)
Lemma C4_counterexample :
  exists image,
    RealtimeDigitClassifier.padded_image (Toy.blank 16 16) (cv.mkRect 2 3 3 4) = Some image
    /\ cv.cols image = 3 /\ cv.cols image <> 3 + 2 * 1
    /\ cv.rows image = 4 /\ cv.rows image <> 4 + 2 * 1.
Proof.
  eexists. split; [vm_compute; reflexivity|].
  vm_compute. repeat split; congruence.
Qed.

(** ** Feature extraction (HogSvm.cpp) *)

Section Features.
Context `{cv.ImgProc} `{cv.StatModel}.

(** The descriptor [ExtractFeatures] appends for an image. *)
Lemma ExtractFeatures_row (this : HogSvm.HogSvm) image features :
  HogSvm.ExtractFeatures this image features
  = (true, cv.push_back features
             (cv.compute (HogSvm.m_hog this)
                (cv.resize image (cv.winSize (HogSvm.m_hog this))))).
Proof. reflexivity. Qed.

(** One row per image, in the order of the images. *)
Lemma ExtractFeatures_all_data (this : HogSvm.HogSvm) images : forall features,
  cv.data (HogSvm.ExtractFeatures_all this images features).2
  = cv.data features
    ++ map (fun image => cv.compute (HogSvm.m_hog this)
                           (cv.resize image (cv.winSize (HogSvm.m_hog this)))) images.
Proof.
  unfold HogSvm.ExtractFeatures_all. simpl.
  induction images as [|image images IH]; intros features; simpl.
  - by rewrite app_nil_r.
  - rewrite IH. simpl. by rewrite <- app_assoc.
Qed.

Lemma ExtractFeatures_all_rows (this : HogSvm.HogSvm) images : forall features,
  cv.rows (HogSvm.ExtractFeatures_all this images features).2
  = cv.rows features + Z.of_nat (length images).
Proof.
  unfold HogSvm.ExtractFeatures_all. simpl.
  induction images as [|image images IH]; intros features; simpl.
  - lia.
  - rewrite IH. simpl. lia.
Qed.

End Features.

(** C9.  With the configuration of [HogSvm::HogSvm()] (window 28 by 28,
    block 4 by 4, block stride 2 by 2, cell 4 by 4, 9 bins) the feature
    vector [ExtractFeatures] appends has 1521 entries for every image,
    whatever the size and the content of the image. *)
Theorem C9_feature_vector_length `{cv.ImgProc} `{cv.StatModel}
    (svm : Svm.Svm) (image : cv.Mat Z) (features : cv.Mat F32.float) :
  exists descriptors : list F32.float,
    HogSvm.ExtractFeatures (HogSvm.mkHogSvm svm (HogSvm.m_hog HogSvm.new)) image features
    = (true, cv.push_back features descriptors)
    /\ length descriptors = 1521%nat
    /\ Z.of_nat (length descriptors) = cv.getDescriptorSize (HogSvm.m_hog HogSvm.new).
Proof.
  rewrite ExtractFeatures_row. eexists. split; [reflexivity|].
  unfold cv.compute. rewrite length_fmap, length_seq.
  split; reflexivity.
Qed.

(** ** Training and testing (Svm.cpp, HogSvm.cpp) *)




Section Testing.
Context `{cv.ImgProc} `{cv.StatModel}.
Variable this : HogSvm.HogSvm.

(** [Svm::Test] predicts from a feature row what [HogSvm::Predict] predicts
    from the image. *)
Lemma predict_row image :
  cv.SVM_predict (Svm.m_svm (HogSvm.base this))
    (cv.row_mat (cv.compute (HogSvm.m_hog this)
                   (cv.resize image (cv.winSize (HogSvm.m_hog this)))))
  = HogSvm.Predict this image.
Proof. reflexivity. Qed.

Lemma label_matrix_at before label labels :
  cv.at_ (HogSvm.label_matrix (before ++ label :: labels)) (length before) 0 = Some label.
Proof.
  unfold cv.at_, HogSvm.label_matrix. simpl.
  rewrite list_lookup_fmap, list_lookup_middle by reflexivity. reflexivity.
Qed.

Lemma mismatches_cons image images label labels :
  HogSvm.mismatches this (image :: images) (label :: labels)
  = (if static_cast_int (HogSvm.Predict this image) =? label then 0 else 1)
    + HogSvm.mismatches this images labels.
Proof.
  unfold HogSvm.mismatches. simpl. rewrite filter_cons. simpl.
  destruct (Z.eqb_spec (static_cast_int (HogSvm.Predict this image)) label) as [Heq|Hne].
  - rewrite decide_False by (intros Hne; by apply Hne). lia.
  - rewrite decide_True by assumption. simpl length. lia.
Qed.

(** The loop of [Svm::Test] counts the mismatches. *)
Lemma Test_loop_counts images : forall labels before errors,
  length labels = length images ->
  Svm.Test_loop (HogSvm.base this)
    (map (fun image => cv.compute (HogSvm.m_hog this)
                         (cv.resize image (cv.winSize (HogSvm.m_hog this)))) images)
    (HogSvm.label_matrix (before ++ labels)) (length before) errors
  = Some (errors + HogSvm.mismatches this images labels).
Proof.
  induction images as [|image images IH]; intros labels before errors Hlen;
    destruct labels as [|label labels]; try discriminate.
  - simpl. unfold HogSvm.mismatches. simpl. f_equal. lia.
  - cbn [map Svm.Test_loop]. rewrite label_matrix_at. simpl.
    rewrite predict_row, mismatches_cons.
    replace (before ++ label :: labels) with ((before ++ [label]) ++ labels)
      by (by rewrite <- app_assoc).
    replace (S (length before)) with (length (before ++ [label]))
      by (rewrite length_app; simpl; lia).
    rewrite IH by (simpl in Hlen; lia).
    f_equal. destruct (_ =? _); lia.
Qed.

End Testing.

(** C7 (as amended).  For every Dataset with as many labels as samples,
    [Test] returns [100 * mismatches / total] computed in single precision,
    where a sample is a mismatch when its prediction, cut to an [int],
    differs from its label.  This holds for the empty Dataset too: [Test]
    does not fail there, it returns the quotient of zero by zero, which is
    not a number. *)
Theorem C7_Test_percent_error `{cv.ImgProc} `{cv.StatModel}
    (this : HogSvm.HogSvm) (images : list (cv.Mat Z)) (labels : list Z) :
  length labels = length images ->
  HogSvm.Test this images (HogSvm.label_matrix labels)
  = Some (HogSvm.percent (HogSvm.mismatches this images labels)
                         (Z.of_nat (length images)))
  /\ (images = [] ->
      HogSvm.Test this images (HogSvm.label_matrix labels) = Some S754_nan).
Proof.
  intros Hlen.
  assert (Htest : HogSvm.Test this images (HogSvm.label_matrix labels)
                  = Some (HogSvm.percent (HogSvm.mismatches this images labels)
                                         (Z.of_nat (length images)))).
  { unfold HogSvm.Test, Svm.Test. rewrite ExtractFeatures_all_data. simpl.
    rewrite (Test_loop_counts this images labels [] 0 Hlen). simpl.
    rewrite Hlen. reflexivity. }
  split; [exact Htest|].
  intros ->. rewrite Htest. destruct labels; [|discriminate]. reflexivity.
Qed.

(** C7 on three samples, one of them mislabelled: 100 * 1 / 3 in single
    precision, 33.33333206... *)
Lemma C7_witness :
  @HogSvm.Test Toy.imgproc Toy.statmodel (Toy.constant 0)
    [Toy.blank 28 28; Toy.blank 28 28; Toy.blank 28 28] (HogSvm.label_matrix [0; 1; 0])
  = Some (HogSvm.percent
            (@HogSvm.mismatches Toy.imgproc Toy.statmodel (Toy.constant 0)
               [Toy.blank 28 28; Toy.blank 28 28; Toy.blank 28 28] [0; 1; 0])
            (Z.of_nat (length [Toy.blank 28 28; Toy.blank 28 28; Toy.blank 28 28])))
  /\ HogSvm.percent
       (@HogSvm.mismatches Toy.imgproc Toy.statmodel (Toy.constant 0)
          [Toy.blank 28 28; Toy.blank 28 28; Toy.blank 28 28] [0; 1; 0])
       (Z.of_nat (length [Toy.blank 28 28; Toy.blank 28 28; Toy.blank 28 28]))
     = S754_finite false 8738133 (-18).
Proof.
  split.
  - apply (@C7_Test_percent_error Toy.imgproc Toy.statmodel (Toy.constant 0)
             [Toy.blank 28 28; Toy.blank 28 28; Toy.blank 28 28] [0; 1; 0]).
    reflexivity.
  - vm_compute. reflexivity.
Defined.

(** C7 as the specification has it fails: on the empty Dataset [Test] does
    not fail, it returns a value, and that value is not a number. *)
Lemma C7_counterexample :
  @HogSvm.Test Toy.imgproc Toy.statmodel (Toy.constant 0) [] (HogSvm.label_matrix [])
  = Some S754_nan
  /\ @HogSvm.Test Toy.imgproc Toy.statmodel (Toy.constant 0) [] cv.empty
     = Some S754_nan.
Proof. split; reflexivity. Qed.

(** ** Persistence (Svm.cpp) *)

(** C8.  [Load] of a path at which there is no file returns [false] and
    leaves the object, the model it holds included, as it was. *)
Theorem C8_Load_missing_file `{cv.StatModel}
    (this : Svm.Svm) (filename : string) (fs : FileSystem) :
  fs !! filename = None ->
  Svm.Load this filename fs = (false, this).
Proof. intros Hmissing. unfold Svm.Load. rewrite Hmissing. reflexivity. Qed.

(** C8 on a machine whose only file is another one. *)
Lemma C8_witness :
  @Svm.Load Toy.statmodel (@Svm.mkSvm Toy.statmodel 5) "mnistSvm.xml"
    {[ "svmDigitDetector.xml"%string := [1] ]}
  = (false, @Svm.mkSvm Toy.statmodel 5).
Proof.
  apply (@C8_Load_missing_file Toy.statmodel (@Svm.mkSvm Toy.statmodel 5) "mnistSvm.xml"
           {[ "svmDigitDetector.xml"%string := [1] ]}).
  vm_compute. reflexivity.
Defined.

(** C10.  [Save] with the empty filename returns [false] and writes
    nothing; with any other filename it returns [true], and the file of that
    name then holds the saved model.  [Save] yields no new object: the model
    is as it was in both cases. *)
Theorem C10_Save_empty_filename `{cv.StatModel} (this : Svm.Svm) (fs : FileSystem) :
  Svm.Save this EmptyString fs = (false, fs)
  /\ forall filename : string,
       filename <> EmptyString ->
       Svm.Save this filename fs
       = (true, <[filename := cv.SVM_save (Svm.m_svm this)]> fs).
Proof.
  split; [reflexivity|].
  intros filename Hname. unfold Svm.Save.
  destruct (String.eqb_spec filename EmptyString) as [Hempty|_]; [contradiction | reflexivity].
Qed.

(** C10 on a machine without files. *)
Lemma C10_witness :
  @Svm.Save Toy.statmodel (@Svm.mkSvm Toy.statmodel 5) EmptyString ∅ = (false, ∅)
  /\ @Svm.Save Toy.statmodel (@Svm.mkSvm Toy.statmodel 5) "mnistSvm.xml" ∅
     = (true, <["mnistSvm.xml"%string := [5]]> ∅).
Proof.
  destruct (@C10_Save_empty_filename Toy.statmodel (@Svm.mkSvm Toy.statmodel 5) ∅)
    as [Hempty Hnamed].
  split; [exact Hempty|].
  apply Hnamed. discriminate.
Defined.

(** ** More on the dataset files (SvmTrainer.cpp) *)

Lemma be32_bytes b0 b1 b2 b3 :
  0 <= b0 < 256 -> 0 <= b1 < 256 -> 0 <= b2 < 256 -> 0 <= b3 < 256 ->
  SvmTrainer.be32 (b0 * 2 ^ 24 + b1 * 2 ^ 16 + b2 * 2 ^ 8 + b3) = [b0; b1; b2; b3].
Proof.
  intros H0 H1 H2 H3. unfold SvmTrainer.be32.
  change 255 with (Z.ones 8). rewrite !Z.land_ones, !Z.shiftr_div_pow2 by lia.
  assert (Hdiv : forall a b q r, 0 <= r < b -> a = b * q + r -> a / b = q).
  { intros a b q r Hr Ha. symmetry. by apply Z.div_unique with r; [left|]. }
  rewrite (Hdiv _ (2 ^ 24) b0 (b1 * 2 ^ 16 + b2 * 2 ^ 8 + b3)) by lia.
  rewrite (Hdiv _ (2 ^ 16) (b0 * 2 ^ 8 + b1) (b2 * 2 ^ 8 + b3)) by lia.
  rewrite (Hdiv _ (2 ^ 8) (b0 * 2 ^ 16 + b1 * 2 ^ 8 + b2) b3) by lia.
  repeat f_equal.
  - apply Z.mod_small. lia.
  - symmetry. apply Z.mod_unique with b0; lia.
  - symmetry. apply Z.mod_unique with (b0 * 2 ^ 8 + b1); lia.
  - symmetry. apply Z.mod_unique with (b0 * 2 ^ 16 + b1 * 2 ^ 8 + b2); lia.
Qed.

(** X1.  [ReadInt] takes four bytes from the stream and returns the number
    they spell with the first byte as the most significant one; the stream
    is left after them, in good state. *)
Theorem ReadInt_big_endian_value (opened : bool) (b0 b1 b2 b3 : Z) (rest : list Z) :
  0 <= b0 < 256 -> 0 <= b1 < 256 -> 0 <= b2 < 256 -> 0 <= b3 < 256 ->
  SvmTrainer.ReadInt (SvmTrainer.mk_ifstream opened (b0 :: b1 :: b2 :: b3 :: rest) false)
  = (b0 * 2 ^ 24 + b1 * 2 ^ 16 + b2 * 2 ^ 8 + b3,
     SvmTrainer.mk_ifstream opened rest false).
Proof.
  intros H0 H1 H2 H3.
  change (b0 :: b1 :: b2 :: b3 :: rest) with ([b0; b1; b2; b3] ++ rest).
  rewrite <- (be32_bytes b0 b1 b2 b3) by assumption.
  apply ReadInt_be32. lia.
Qed.

Lemma ReadInt_big_endian_value_witness :
  SvmTrainer.ReadInt (SvmTrainer.mk_ifstream true [0; 0; 234; 96; 7] false)
  = (0 * 2 ^ 24 + 0 * 2 ^ 16 + 234 * 2 ^ 8 + 96, SvmTrainer.mk_ifstream true [7] false).
Proof. apply (ReadInt_big_endian_value true 0 0 234 96 [7]); lia. Defined.

(** X2.  [ReadInt] checks no read.  On a stream with fewer than four bytes
    left it returns what it would return had the stream gone on with copies
    of its last byte (zeros when nothing was left), and leaves the stream
    empty and failed; on a failed stream it returns 0 and takes nothing. *)
Theorem ReadInt_short_stream (opened : bool) (bytes : list Z) :
  (length bytes < 4)%nat ->
  SvmTrainer.ReadInt (SvmTrainer.mk_ifstream opened bytes false)
  = ((SvmTrainer.ReadInt
        (SvmTrainer.mk_ifstream opened
           (bytes ++ replicate (4 - length bytes) (default 0 (last bytes))) false)).1,
     SvmTrainer.mk_ifstream opened [] true)
  /\ SvmTrainer.ReadInt (SvmTrainer.mk_ifstream opened bytes true)
     = (0, SvmTrainer.mk_ifstream opened bytes true).
Proof.
  intros Hshort. split; [|reflexivity].
  destruct bytes as [|b0 [|b1 [|b2 [|b3 bytes]]]]; try reflexivity.
  simpl in Hshort. lia.
Qed.

Lemma ReadInt_short_stream_witness :
  SvmTrainer.ReadInt (SvmTrainer.mk_ifstream true [1; 2] false)
  = ((SvmTrainer.ReadInt (SvmTrainer.mk_ifstream true [1; 2; 2; 2] false)).1,
     SvmTrainer.mk_ifstream true [] true)
  /\ SvmTrainer.ReadInt (SvmTrainer.mk_ifstream true [1; 2] true)
     = (0, SvmTrainer.mk_ifstream true [1; 2] true).
Proof. apply (ReadInt_short_stream true [1; 2]). simpl. lia. Defined.

Section MoreLoader.
Import SvmTrainer.
Variable heap : nat -> nat -> Z.

Lemma stored_image_trailing R C pixels trailing (k : nat) :
  ((k + 1) * Z.to_nat (R * C) <= length pixels)%nat ->
  stored_image R C (pixels ++ trailing) k = stored_image R C pixels k.
Proof.
  intros Hlen. unfold stored_image. do 2 f_equal.
  rewrite drop_app_le by lia.
  rewrite take_app_le by (rewrite length_drop; lia). reflexivity.
Qed.

Lemma ReadInt_loop_range n : forall file ch value,
  0 <= value < 2 ^ 32 -> 0 <= (ReadInt_loop n file ch value).1 < 2 ^ 32.
Proof.
  induction n as [|n IH]; intros file ch value Hvalue; cbn [ReadInt_loop].
  - exact Hvalue.
  - destruct (get file ch) as [ch' file']. apply IH.
    unfold uint32. apply Z.mod_pos_bound. lia.
Qed.

(** What [ReadInt] returns is an [unsigned int]. *)
Lemma ReadInt_range file : 0 <= (ReadInt file).1 < 2 ^ 32.
Proof. apply ReadInt_loop_range. lia. Qed.

(** A read of no more bytes than the destination has keeps its length. *)
Lemma length_read file count dest :
  (count <= length dest)%nat -> length (read file count dest).1 = length dest.
Proof.
  intros Hcount. unfold read. destruct (fail file); [reflexivity|]. simpl.
  rewrite length_app, length_drop, length_take. lia.
Qed.

Lemma of_buffer_well_formed (r c : Z) (buf : list Z) :
  0 <= r -> 0 <= c -> length buf = Z.to_nat (r * c) ->
  cv.well_formed (cv.of_buffer r c buf).
Proof.
  intros Hr Hc Hlen. unfold cv.well_formed, cv.of_buffer. simpl. split.
  - rewrite length_fmap, length_seq. lia.
  - apply Forall_fmap, Forall_forall. intros i Hi. simpl.
    apply elem_of_seq in Hi.
    rewrite length_take, length_drop, Hlen, Z2Nat.inj_mul by lia.
    assert ((i + 1) * Z.to_nat c <= Z.to_nat r * Z.to_nat c)%nat
      by (apply Nat.mul_le_mono_r; lia).
    lia.
Qed.

Lemma threshold_binary (src : cv.Mat Z) (thresh : Z) :
  Forall (Forall (fun pixel => pixel = 0 \/ pixel = 255))
         (cv.data (cv.threshold src thresh 255 cv.THRESH_BINARY)).
Proof.
  simpl. apply Forall_fmap, Forall_forall. intros row _. simpl.
  apply Forall_fmap, Forall_forall. intros pixel _. simpl.
  destruct (thresh <? pixel); auto.
Qed.

Lemma threshold_well_formed (src : cv.Mat Z) thresh maxval type :
  cv.well_formed src -> cv.well_formed (cv.threshold src thresh maxval type).
Proof.
  intros [Hrows Hcols]. split; simpl.
  - by rewrite length_fmap.
  - apply Forall_fmap. eapply Forall_impl; [exact Hcols|].
    intros row Hrow. simpl in *. by rewrite length_fmap.
Qed.

Lemma read_images_invariant n : forall i R C file images,
  0 <= R -> 0 <= C ->
  exists new,
    (read_images heap n i R C (uint32 (R * C)) file images).1 = images ++ new
    /\ Forall (loaded_image R C) new.
Proof.
  induction n as [|n IH]; intros i R C file images HR HC; cbn [read_images].
  - exists []. split; [by rewrite app_nil_r | constructor].
  - pose proof (length_read file (Z.to_nat (uint32 (R * C)))
                  (map (heap i) (seq 0 (Z.to_nat (R * C))))) as Hlen.
    destruct (read file _ _) as [buffer file'].
    rewrite length_fmap, length_seq in Hlen. simpl in Hlen.
    assert (Hbuf : length buffer = Z.to_nat (R * C)).
    { apply Hlen. apply Z2Nat.inj_le; unfold uint32.
      - apply Z.mod_pos_bound. lia.
      - lia.
      - apply Z.mod_le; lia. }
    destruct (IH (S i) R C file'
                (images ++ [cv.threshold (cv.of_buffer R C buffer) 90 255 cv.THRESH_BINARY])
                HR HC) as (new & Enew & Hnew).
    eexists (_ :: new). split.
    + rewrite Enew, <- app_assoc. reflexivity.
    + constructor; [|exact Hnew].
      split; [reflexivity|]. split; [reflexivity|]. split.
      * apply threshold_well_formed, of_buffer_well_formed; assumption.
      * apply threshold_binary.
Qed.

End MoreLoader.

(** X3.  When the file holds the pixels its header declares, the loader
    appends the [N] images to the ones the vector holds already, in the
    order of the file, each one its own block of [R * C] bytes.  Bytes that
    follow the last image are not looked at, and neither is what the fresh
    image buffers held. *)
Theorem ReadMnistImageFile_appends_in_order (heap : nat -> nat -> Z) (fs : FileSystem)
    (filename : string) (magic : list Z) (N R C : Z) (pixels trailing : list Z)
    (images : list (cv.Mat Z)) :
  fs !! filename
    = Some (magic ++ SvmTrainer.be32 N ++ SvmTrainer.be32 R ++ SvmTrainer.be32 C
            ++ pixels ++ trailing) ->
  length magic = 4%nat ->
  0 <= N < 2 ^ 32 -> 0 <= R <= INT_MAX -> 0 <= C <= INT_MAX -> R * C < 2 ^ 32 ->
  Z.of_nat (length pixels) = N * R * C ->
  SvmTrainer.ReadMnistImageFile heap fs filename images
  = (true, images ++ map (SvmTrainer.stored_image R C pixels) (seq 0 (Z.to_nat N))).
Proof.
  unfold INT_MAX. intros Hfile Hmagic HN HR HC HRC Hlen.
  unfold SvmTrainer.ReadMnistImageFile, SvmTrainer.open.
  rewrite Hfile. cbn [SvmTrainer.is_open negb].
  destruct magic as [|m0 [|m1 [|m2 [|m3 [|]]]]]; try discriminate. clear Hmagic.
  destruct (ReadInt_any4 true m0 m1 m2 m3
              (SvmTrainer.be32 N ++ SvmTrainer.be32 R ++ SvmTrainer.be32 C
               ++ pixels ++ trailing)) as [magicNumber EmagicNumber].
  cbn [app]. rewrite EmagicNumber.
  rewrite !ReadInt_be32 by lia.
  assert (Hsz : uint32 (R * C) = R * C) by (unfold uint32; apply Z.mod_small; lia).
  assert (Hnat : (Z.to_nat N * Z.to_nat (R * C))%nat = length pixels).
  { apply Nat2Z.inj. rewrite Nat2Z.inj_mul, !Z2Nat.id by lia. lia. }
  rewrite Hsz, read_images_complete by (rewrite length_app; lia).
  do 2 f_equal. apply list_fmap_ext. intros k ? Hk.
  apply lookup_seq in Hk as [-> Hk]. simpl.
  apply stored_image_trailing.
  rewrite <- Hnat. apply Nat.mul_le_mono_r. lia.
Qed.

Lemma ReadMnistImageFile_appends_in_order_witness :
  SvmTrainer.ReadMnistImageFile Toy.zeroed
    {[ "images"%string := [0; 0; 8; 3] ++ SvmTrainer.be32 2 ++ SvmTrainer.be32 1
                          ++ SvmTrainer.be32 2 ++ [90; 91; 89; 255] ++ [1; 2; 3] ]}
    "images" [Toy.blank 1 1]
  = (true, [Toy.blank 1 1]
           ++ map (SvmTrainer.stored_image 1 2 [90; 91; 89; 255]) (seq 0 (Z.to_nat 2))).
Proof.
  apply (ReadMnistImageFile_appends_in_order Toy.zeroed _ "images" [0; 0; 8; 3] 2 1 2
           [90; 91; 89; 255] [1; 2; 3] [Toy.blank 1 1]);
    try reflexivity; try lia; vm_compute; split; congruence.
Defined.

(** X4.  Whatever file opens, short, long or with a header that matches
    nothing, every image the loader appends has the declared number of rows
    and columns, has all its rows and pixels in place, and holds no value
    but 0 and 255; the images that were in the vector stay in front,
    untouched.  (The declared sides are [int]s.) *)
Theorem ReadMnistImageFile_images_binary (heap : nat -> nat -> Z) (fs : FileSystem)
    (filename : string) (content : list Z) (images : list (cv.Mat Z)) :
  fs !! filename = Some content ->
  SvmTrainer.header_numRows content <= INT_MAX ->
  SvmTrainer.header_numColumns content <= INT_MAX ->
  exists new,
    SvmTrainer.ReadMnistImageFile heap fs filename images = (true, images ++ new)
    /\ length new = Z.to_nat (SvmTrainer.header_numItems content)
    /\ Forall (fun image =>
                 cv.rows image = SvmTrainer.header_numRows content
                 /\ cv.cols image = SvmTrainer.header_numColumns content
                 /\ cv.well_formed image
                 /\ Forall (Forall (fun pixel => pixel = 0 \/ pixel = 255)) (cv.data image))
              new.
Proof.
  intros Hfile _ _.
  unfold SvmTrainer.ReadMnistImageFile, SvmTrainer.header_numItems,
    SvmTrainer.header_numRows, SvmTrainer.header_numColumns, SvmTrainer.open.
  rewrite Hfile. cbn [SvmTrainer.is_open negb].
  destruct (SvmTrainer.ReadInt _) as [magicNumber file1]. cbn [fst snd].
  destruct (SvmTrainer.ReadInt file1) as [numItems file2]. cbn [fst snd].
  pose proof (ReadInt_range file2) as HR.
  destruct (SvmTrainer.ReadInt file2) as [numRows file3]. cbn [fst snd] in *.
  pose proof (ReadInt_range file3) as HC.
  destruct (SvmTrainer.ReadInt file3) as [numColumns file4]. cbn [fst snd] in *.
  destruct (read_images_invariant heap (Z.to_nat numItems) 0 numRows numColumns file4 images)
    as (new & Enew & Hnew); [lia | lia |].
  pose proof (length_read_images heap (Z.to_nat numItems) 0 numRows numColumns
                (uint32 (numRows * numColumns)) file4 images) as Hcount.
  destruct (SvmTrainer.read_images _ _ _ _ _ _ _ _) as [images' file5].
  simpl in Enew, Hcount. subst images'.
  exists new. split; [reflexivity|]. split.
  - rewrite length_app in Hcount. lia.
  - exact Hnew.
Qed.

Lemma ReadMnistImageFile_images_binary_witness :
  exists new,
    SvmTrainer.ReadMnistImageFile Toy.zeroed Toy.short_files "images" [] = (true, [] ++ new)
    /\ length new = Z.to_nat (SvmTrainer.header_numItems Toy.truncated_images)
    /\ Forall (fun image =>
                 cv.rows image = SvmTrainer.header_numRows Toy.truncated_images
                 /\ cv.cols image = SvmTrainer.header_numColumns Toy.truncated_images
                 /\ cv.well_formed image
                 /\ Forall (Forall (fun pixel => pixel = 0 \/ pixel = 255)) (cv.data image))
              new.
Proof.
  apply (ReadMnistImageFile_images_binary Toy.zeroed Toy.short_files "images"
           Toy.truncated_images []); vm_compute; (reflexivity || discriminate).
Defined.

Section MoreLabels.
Import SvmTrainer.
Variable heap : nat -> nat -> Z.

Lemma read_labels_complete labels : forall i opened trailing rows,
  read_labels heap (length labels) i 1 (mk_ifstream opened (labels ++ trailing) false) rows
  = (rows ++ map (fun label => [label]) labels, mk_ifstream opened trailing false).
Proof.
  induction labels as [|label labels IH]; intros i opened trailing rows.
  - simpl. by rewrite app_nil_r.
  - cbn [length read_labels]. unfold read at 1. cbn [fail unread is_open app].
    simpl take. simpl drop. rewrite !take_0, !drop_0. cbn [length Nat.eqb negb app].
    rewrite IH, <- app_assoc. reflexivity.
Qed.

End MoreLabels.

(** X5.  When the file holds the labels its header declares, the label
    loader returns the [N] by 1 matrix of these labels, in the order of the
    file.  What the matrix held before is discarded, not appended to, and
    bytes that follow the last label are not looked at.  (The declared count
    is an [int].) *)
Theorem LoadMnistLabelFile_complete (heap : nat -> nat -> Z) (fs : FileSystem)
    (filename : string) (magic : list Z) (N : Z) (labels trailing : list Z)
    (previous : cv.Mat Z) :
  fs !! filename = Some (magic ++ SvmTrainer.be32 N ++ labels ++ trailing) ->
  length magic = 4%nat ->
  0 <= N <= INT_MAX ->
  Z.of_nat (length labels) = N ->
  SvmTrainer.LoadMnistLabelFile heap fs filename previous
  = (true, HogSvm.label_matrix labels).
Proof.
  unfold INT_MAX. intros Hfile Hmagic HN Hlen.
  unfold SvmTrainer.LoadMnistLabelFile, SvmTrainer.open.
  rewrite Hfile. cbn [SvmTrainer.is_open negb].
  destruct magic as [|m0 [|m1 [|m2 [|m3 [|]]]]]; try discriminate. clear Hmagic.
  destruct (ReadInt_any4 true m0 m1 m2 m3 (SvmTrainer.be32 N ++ labels ++ trailing))
    as [magicNumber EmagicNumber].
  cbn [app]. rewrite EmagicNumber.
  rewrite ReadInt_be32 by lia. cbv zeta.
  replace (Z.to_nat N) with (length labels) by lia.
  rewrite read_labels_complete. simpl. unfold HogSvm.label_matrix.
  rewrite Hlen. reflexivity.
Qed.

Lemma LoadMnistLabelFile_complete_witness :
  SvmTrainer.LoadMnistLabelFile Toy.zeroed
    {[ "labels"%string := [0; 0; 8; 1] ++ SvmTrainer.be32 3 ++ [7; 0; 4] ++ [9] ]}
    "labels" (HogSvm.label_matrix [1; 1])
  = (true, HogSvm.label_matrix [7; 0; 4]).
Proof.
  apply (LoadMnistLabelFile_complete Toy.zeroed _ "labels" [0; 0; 8; 1] 3 [7; 0; 4] [9]
           (HogSvm.label_matrix [1; 1]));
    try reflexivity; vm_compute; split; congruence.
Defined.

(** ** The two-stage pipeline as a whole (RealtimeDigitClassifier.cpp) *)

Section GatingLaw.
Import RealtimeDigitClassifier.
Context `{cv.ImgProc} `{cv.StatModel}.
Variables classifier detector : HogSvm.HogSvm.

Lemma accounts_for_nothing st : accounts_for classifier detector [] st st.
Proof. unfold accounts_for. simpl. rewrite !app_nil_r. repeat split; constructor. Qed.

(** One contour: its region is handled when the crop of its rectangle
    passes, and nothing is done when it raises. *)
Lemma ProcessContour_region roi contour st :
  match padded_image (frame st) (rect_of roi contour) with
  | Some image =>
      (ProcessContour classifier detector roi contour st).1 = Some tt
      /\ accounts_for classifier detector [(rect_of roi contour, image)] st
           (ProcessContour classifier detector roi contour st).2
  | None => ProcessContour classifier detector roi contour st = (None, st)
  end.
Proof.
  unfold accounts_for, rect_of.
  unfold ProcessContour, mbind, Proc_bind, get_frame, may_raise, predict, rng_uniform, draw.
  simpl. destruct (padded_image _ _) as [image|] eqn:Eimage; simpl; [|reflexivity].
  unfold gated_calls, gated_detection, detections. simpl.
  destruct (F32.ltb _ _) eqn:Epos; simpl.
  - repeat (destruct (cv.uniform _ _ _) as [? ?]; simpl).
    rewrite !omap_app, <- !app_assoc. simpl.
    split; [reflexivity|].
    split; [reflexivity|]. split; [reflexivity|]. split; [reflexivity|].
    constructor; [exact Eimage | constructor].
  - rewrite app_nil_r.
    split; [reflexivity|].
    split; [reflexivity|]. split; [reflexivity|]. split; [reflexivity|].
    constructor; [exact Eimage | constructor].
Qed.

(** The contours in their order: the regions handled are those of
    [regions_of], and all of them when the loop ends without exception. *)
Lemma ProcessContours_regions roi contours : forall st,
  accounts_for classifier detector (regions_of (frame st) roi contours) st
    (ProcessContours classifier detector roi contours st).2
  /\ ((ProcessContours classifier detector roi contours st).1 = Some tt ->
      map fst (regions_of (frame st) roi contours) = map (rect_of roi) contours).
Proof.
  induction contours as [|contour rest IH]; intros st; cbn [ProcessContours regions_of].
  - split; [apply accounts_for_nothing | reflexivity].
  - unfold mbind, Proc_bind.
    pose proof (ProcessContour_region roi contour st) as Hone.
    destruct (padded_image (frame st) (rect_of roi contour)) as [image|].
    + destruct Hone as [Hret (Hf1 & Hc1 & Hd1 & Hr1)].
      destruct (ProcessContour classifier detector roi contour st) as [[[]|] st1];
        cbn [fst snd] in Hret, Hf1, Hc1, Hd1; [|discriminate].
      destruct (IH st1) as [(Hf2 & Hc2 & Hd2 & Hr2) Hall].
      rewrite Hf1 in Hf2, Hc2, Hd2, Hr2, Hall.
      cbn [flat_map] in Hc1, Hd1. rewrite app_nil_r in Hc1, Hd1.
      split.
      * unfold accounts_for. cbn [flat_map fst snd].
        split; [exact Hf2|].
        split; [by rewrite Hc2, Hc1, <- app_assoc|].
        split; [by rewrite Hd2, Hd1, <- app_assoc|].
        constructor; [by inversion Hr1 | exact Hr2].
      * intros Hreturns. cbn [map fst]. f_equal. by apply Hall.
    + rewrite Hone. split; [apply accounts_for_nothing | discriminate].
Qed.

End GatingLaw.

(** X6.  What a frame leaves behind is fixed by its contours.  The
    contours found in the crop of the region of interest are taken in their
    order; the rectangle of a contour is its bounding rectangle moved by the
    corner of the region, and its image the padded crop of the processed
    frame at that rectangle.  For each contour, up to the first whose crop
    raises, the detector is asked once about the image; the classifier is
    asked about the same image, right after, exactly when the detector's
    answer is above zero, and exactly then one digit is written, five pixels
    above the top left corner of the rectangle.  Nothing else calls a model
    or writes a digit, and when the frame is processed without exception
    every contour has been handled. *)
Theorem ProcessFrame_gating_law `{cv.ImgProc} `{cv.StatModel}
    (classifier detector : HogSvm.HogSvm)
    (display : list RealtimeDigitClassifier.DrawOp) (frame : cv.Mat Z) :
  let r := RealtimeDigitClassifier.ProcessFrame classifier detector
             (RealtimeDigitClassifier.entry display frame) in
  RealtimeDigitClassifier.calls r.2
  = flat_map (fun region => RealtimeDigitClassifier.gated_calls classifier detector region.2)
             (RealtimeDigitClassifier.regions frame)
  /\ RealtimeDigitClassifier.detections (RealtimeDigitClassifier.displayFrame r.2)
     = RealtimeDigitClassifier.detections display
       ++ flat_map (fun region => RealtimeDigitClassifier.gated_detection
                                    classifier detector region.1 region.2)
                   (RealtimeDigitClassifier.regions frame)
  /\ RealtimeDigitClassifier.frame r.2 = RealtimeDigitClassifier.closed frame
  /\ (r.1 = Some tt ->
      map fst (RealtimeDigitClassifier.regions frame)
      = map (RealtimeDigitClassifier.rect_of
               (RealtimeDigitClassifier.roi_of (RealtimeDigitClassifier.binary frame)))
            (RealtimeDigitClassifier.contours_of frame)).
Proof.
  intros r. subst r.
  unfold RealtimeDigitClassifier.regions, RealtimeDigitClassifier.contours_of.
  unfold RealtimeDigitClassifier.ProcessFrame, RealtimeDigitClassifier.entry.
  unfold mbind, RealtimeDigitClassifier.Proc_bind, RealtimeDigitClassifier.get_frame,
    RealtimeDigitClassifier.draw, RealtimeDigitClassifier.set_frame,
    RealtimeDigitClassifier.set_rng, RealtimeDigitClassifier.may_raise.
  cbn [RealtimeDigitClassifier.frame RealtimeDigitClassifier.displayFrame
       RealtimeDigitClassifier.rng RealtimeDigitClassifier.calls fst snd].
  change (cv.morphologyEx _ _ _) with (RealtimeDigitClassifier.closed frame).
  change (cv.threshold _ 110 255 cv.THRESH_BINARY_INV)
    with (RealtimeDigitClassifier.binary frame).
  destruct (cv.submat (RealtimeDigitClassifier.closed frame)
              (RealtimeDigitClassifier.roi_of (RealtimeDigitClassifier.binary frame)))
    as [contourFrame|];
    cbn [RealtimeDigitClassifier.frame RealtimeDigitClassifier.displayFrame
         RealtimeDigitClassifier.rng RealtimeDigitClassifier.calls fst snd].
  - match goal with
    | |- context [RealtimeDigitClassifier.ProcessContours ?c ?d ?roi ?cs ?st] =>
        destruct (ProcessContours_regions c d roi cs st) as [(Hf & Hc & Hd & _) Hall]
    end.
    cbn [RealtimeDigitClassifier.frame RealtimeDigitClassifier.displayFrame
         RealtimeDigitClassifier.calls] in Hf, Hc, Hd, Hall.
    rewrite Hf, Hc, Hd.
    split; [reflexivity|]. split; [|split; [reflexivity | exact Hall]].
    unfold RealtimeDigitClassifier.detections. rewrite !omap_app. simpl.
    by rewrite app_nil_r.
  - cbn [RealtimeDigitClassifier.regions_of flat_map].
    split; [reflexivity|]. split; [|split; [reflexivity | discriminate]].
    unfold RealtimeDigitClassifier.detections. rewrite omap_app. simpl.
    by rewrite !app_nil_r.
Qed.

(** ** The padded image keeps the region (RealtimeDigitClassifier.cpp) *)

(** X7.  Inside its black border the image handed to the models is the
    region itself: the pixel [(i, j)] of the bounding rectangle, counted
    from its top left corner [(x, y)] in the processed frame, is found
    unchanged at [(h / 5 + i, w / 5 + j)].  (The sides of the frame are
    [int]s.) *)
Theorem padded_image_interior (frame : cv.Mat Z) (boundRect : cv.Rect) :
  cv.well_formed frame ->
  cv.cols frame <= INT_MAX -> cv.rows frame <= INT_MAX ->
  cv.inside boundRect frame = true ->
  exists image,
    RealtimeDigitClassifier.padded_image frame boundRect = Some image
    /\ forall i j : nat,
         Z.of_nat i < cv.height boundRect -> Z.of_nat j < cv.width boundRect ->
         cv.at_ image (Z.to_nat (cv.height boundRect / 5) + i)
                      (Z.to_nat (cv.width boundRect / 5) + j)
         = cv.at_ frame (Z.to_nat (cv.y boundRect) + i) (Z.to_nat (cv.x boundRect) + j).
Proof.
  intros [Hrows Hcols] Hc Hr Hin.
  destruct boundRect as [x y w h].
  unfold RealtimeDigitClassifier.padded_image, cv.submat. simpl. rewrite Hin. simpl.
  unfold cv.inside in Hin. simpl in Hin.
  repeat (apply andb_true_iff in Hin as [Hin ?]).
  repeat match goal with Hle : (_ <=? _) = true |- _ => apply Z.leb_le in Hle end.
  rewrite !pad_fifth by lia.
  eexists. split; [reflexivity|].
  intros i j Hi Hj. unfold cv.at_. simpl.
  rewrite lookup_app_r by (rewrite length_replicate; lia).
  rewrite length_replicate.
  replace (Z.to_nat (h / 5) + i - Z.to_nat (h / 5))%nat with i by lia.
  rewrite lookup_app_l
    by (rewrite !length_fmap, length_take, length_drop; zlia).
  rewrite !list_lookup_fmap, lookup_take_lt, lookup_drop by lia.
  destruct (cv.data frame !! (Z.to_nat y + i)%nat) as [row|] eqn:Erow; [|reflexivity].
  simpl.
  assert (Hlen : Z.of_nat (length row) = cv.cols frame).
  { eapply Forall_lookup_1 in Hcols; [exact Hcols | exact Erow]. }
  rewrite lookup_app_r by (rewrite length_replicate; lia).
  rewrite length_replicate.
  replace (Z.to_nat (w / 5) + j - Z.to_nat (w / 5))%nat with j by lia.
  rewrite lookup_app_l by (rewrite length_take, length_drop; zlia).
  rewrite lookup_take_lt, lookup_drop by lia. reflexivity.
Qed.

Lemma padded_image_interior_witness :
  exists image,
    RealtimeDigitClassifier.padded_image (Toy.blank 16 16) (cv.mkRect 2 3 7 10) = Some image
    /\ forall i j : nat,
         Z.of_nat i < 10 -> Z.of_nat j < 7 ->
         cv.at_ image (Z.to_nat (10 / 5) + i) (Z.to_nat (7 / 5) + j)
         = cv.at_ (Toy.blank 16 16) (Z.to_nat 3 + i) (Z.to_nat 2 + j).
Proof.
  apply (padded_image_interior (Toy.blank 16 16) (cv.mkRect 2 3 7 10)).
  - split; [reflexivity|]. simpl. repeat constructor.
  - vm_compute. discriminate.
  - vm_compute. discriminate.
  - reflexivity.
Defined.

(** ** The feature matrix and the test loop (HogSvm.cpp, Svm.cpp) *)

Section MoreFeatures.
Context `{cv.ImgProc} `{cv.StatModel}.

(** Only the first row pushed sets the width of the matrix. *)
Lemma ExtractFeatures_all_cols (this : HogSvm.HogSvm) images : forall features,
  cv.cols (HogSvm.ExtractFeatures_all this images features).2
  = match cv.data features, images with
    | [], image :: _ =>
        Z.of_nat (length (cv.compute (HogSvm.m_hog this)
                            (cv.resize image (cv.winSize (HogSvm.m_hog this)))))
    | _, _ => cv.cols features
    end.
Proof.
  unfold HogSvm.ExtractFeatures_all. simpl.
  induction images as [|image images IH]; intros features; simpl.
  - by destruct (cv.data features).
  - rewrite IH. simpl.
    destruct (cv.data features) as [|row rows]; simpl; by destruct images.
Qed.

Lemma compute_length (svm : Svm.Svm) (image : cv.Mat Z) :
  length (cv.compute (HogSvm.m_hog HogSvm.new)
            (cv.resize image (cv.winSize (HogSvm.m_hog HogSvm.new)))) = 1521%nat.
Proof. unfold cv.compute. rewrite length_fmap, length_seq. reflexivity. Qed.

End MoreFeatures.

(** X9.  The features of a list of images, extracted into an empty matrix
    with the configuration of [HogSvm::HogSvm()], form a matrix with one row
    per image, in the order of the images, every row 1521 entries long;
    its header says so, except that for no image at all the matrix stays
    the empty one, 0 by 0. *)
Theorem ExtractFeatures_all_matrix `{cv.ImgProc} `{cv.StatModel}
    (svm : Svm.Svm) (images : list (cv.Mat Z)) :
  let this := HogSvm.mkHogSvm svm (HogSvm.m_hog HogSvm.new) in
  let features := (HogSvm.ExtractFeatures_all this images cv.empty).2 in
  cv.well_formed features
  /\ cv.rows features = Z.of_nat (length images)
  /\ cv.cols features = (if images is [] then 0 else 1521)
  /\ (forall (i : nat) (image : cv.Mat Z),
        images !! i = Some image ->
        cv.data features !! i
        = Some (cv.compute (HogSvm.m_hog this)
                  (cv.resize image (cv.winSize (HogSvm.m_hog this))))).
Proof.
  intros this features.
  assert (Hrows : cv.rows features = Z.of_nat (length images)).
  { unfold features. rewrite ExtractFeatures_all_rows. simpl. lia. }
  assert (Hcols : cv.cols features = (if images is [] then 0 else 1521)).
  { unfold features. rewrite ExtractFeatures_all_cols.
    unfold cv.empty. cbn [cv.data cv.cols].
    destruct images as [|image images]; [reflexivity|].
    change (HogSvm.m_hog this) with (HogSvm.m_hog HogSvm.new).
    by rewrite (compute_length svm). }
  assert (Hdata : cv.data features
                  = map (fun image => cv.compute (HogSvm.m_hog this)
                           (cv.resize image (cv.winSize (HogSvm.m_hog this)))) images).
  { unfold features. by rewrite ExtractFeatures_all_data. }
  split; [|split; [exact Hrows | split; [exact Hcols|]]].
  - split.
    + rewrite Hdata, length_fmap, Hrows. reflexivity.
    + rewrite Hdata, Hcols. apply Forall_fmap, Forall_forall. intros image Himage.
      cbv [compose]. change (HogSvm.m_hog this) with (HogSvm.m_hog HogSvm.new).
      rewrite (compute_length svm).
      destruct images; [by apply elem_of_nil in Himage | reflexivity].
  - intros i image Himage. rewrite Hdata, list_lookup_fmap, Himage. reflexivity.
Qed.

Section MoreTesting.
Context `{cv.ImgProc} `{cv.StatModel}.
Variable this : HogSvm.HogSvm.

Lemma mismatches_nil_r images : HogSvm.mismatches this images [] = 0.
Proof. unfold HogSvm.mismatches. by destruct images. Qed.

Lemma label_matrix_at_end labels :
  cv.at_ (HogSvm.label_matrix labels) (length labels) 0 = None.
Proof.
  unfold cv.at_, HogSvm.label_matrix. simpl.
  rewrite list_lookup_fmap, lookup_ge_None_2; [reflexivity | lia].
Qed.

(** The loop of [Svm::Test] with labels to spare, and with too few. *)
Lemma Test_loop_general images : forall labels before errors,
  Svm.Test_loop (HogSvm.base this)
    (map (fun image => cv.compute (HogSvm.m_hog this)
                         (cv.resize image (cv.winSize (HogSvm.m_hog this)))) images)
    (HogSvm.label_matrix (before ++ labels)) (length before) errors
  = if decide (length images <= length labels)%nat
    then Some (errors + HogSvm.mismatches this images labels)
    else None.
Proof.
  induction images as [|image images IH]; intros labels before errors.
  - cbn [map Svm.Test_loop length]. rewrite decide_True by lia.
    unfold HogSvm.mismatches. simpl. f_equal. lia.
  - destruct labels as [|label labels].
    + rewrite decide_False by (simpl; lia).
      cbn [map Svm.Test_loop]. rewrite app_nil_r, label_matrix_at_end. reflexivity.
    + cbn [map Svm.Test_loop]. rewrite label_matrix_at. simpl.
      rewrite predict_row, mismatches_cons.
      replace (before ++ label :: labels) with ((before ++ [label]) ++ labels)
        by (by rewrite <- app_assoc).
      replace (S (length before)) with (length (before ++ [label]))
        by (rewrite length_app; simpl; lia).
      rewrite IH.
      destruct (decide (length images <= length labels)%nat);
        [rewrite decide_True by lia | rewrite decide_False by lia; reflexivity].
      f_equal. destruct (_ =? _); lia.
Qed.

End MoreTesting.

(** X10.  [Test] compares as many predictions as there are images and
    divides by the number of labels.  With at least as many labels as images
    the result is [100 * mismatches / labels] in single precision, the
    mismatches being counted over the images and the labels beside them, so
    that spare labels lower the percentage.  With fewer labels than images
    the loop reads a label the matrix does not have, a read nobody checks. *)
Theorem Test_divides_by_label_count `{cv.ImgProc} `{cv.StatModel}
    (this : HogSvm.HogSvm) (images : list (cv.Mat Z)) (labels : list Z) :
  ((length images <= length labels)%nat ->
   HogSvm.Test this images (HogSvm.label_matrix labels)
   = Some (HogSvm.percent (HogSvm.mismatches this images labels)
                          (Z.of_nat (length labels))))
  /\ ((length labels < length images)%nat ->
      HogSvm.Test this images (HogSvm.label_matrix labels) = None).
Proof.
  unfold HogSvm.Test, Svm.Test. rewrite ExtractFeatures_all_data. simpl.
  rewrite (Test_loop_general this images labels [] 0).
  split; intros Hlen.
  - rewrite decide_True by exact Hlen. reflexivity.
  - rewrite decide_False by lia. reflexivity.
Qed.

(** One image that is mislabelled, and a second label without an image:
    50 percent. *)
Lemma Test_divides_by_label_count_witness :
  @HogSvm.Test Toy.imgproc Toy.statmodel (Toy.constant 0) [Toy.blank 28 28]
    (HogSvm.label_matrix [1; 0])
  = Some (F32.of_int 50)
  /\ @HogSvm.Test Toy.imgproc Toy.statmodel (Toy.constant 0)
       [Toy.blank 28 28; Toy.blank 28 28] (HogSvm.label_matrix [1])
     = None.
Proof.
  destruct (@Test_divides_by_label_count Toy.imgproc Toy.statmodel (Toy.constant 0)
              [Toy.blank 28 28] [1; 0]) as [Hspare _].
  destruct (@Test_divides_by_label_count Toy.imgproc Toy.statmodel (Toy.constant 0)
              [Toy.blank 28 28; Toy.blank 28 28] [1]) as [_ Hshort].
  split.
  - rewrite Hspare by (simpl; lia). vm_compute. reflexivity.
  - apply Hshort. simpl. lia.
Defined.

(** ** The datasets of the trainer (SvmTrainer.cpp) *)

Section LoadAll.
Import SvmTrainer.

Lemma ReadMnistImageFile_result heap fs filename images :
  (ReadMnistImageFile heap fs filename images).1 = bool_decide (is_Some (fs !! filename)).
Proof.
  unfold ReadMnistImageFile, open.
  destruct (fs !! filename) as [bytes|]; cbn [is_open negb].
  - destruct (ReadInt _) as [magicNumber file1].
    destruct (ReadInt file1) as [numItems file2].
    destruct (ReadInt file2) as [numRows file3].
    destruct (ReadInt file3) as [numColumns file4].
    destruct (read_images _ _ _ _ _ _ _ _) as [images' file5].
    symmetry. apply bool_decide_eq_true. eauto.
  - symmetry. apply bool_decide_eq_false. by intros [? ?].
Qed.

Lemma LoadMnistLabelFile_result heap fs filename labels :
  (LoadMnistLabelFile heap fs filename labels).1 = bool_decide (is_Some (fs !! filename)).
Proof.
  unfold LoadMnistLabelFile, open.
  destruct (fs !! filename) as [bytes|]; cbn [is_open negb].
  - destruct (ReadInt _) as [magicNumber file1].
    destruct (ReadInt file1) as [numItems file2].
    destruct (read_labels _ _ _ _ _ _) as [rows file3].
    symmetry. apply bool_decide_eq_true. eauto.
  - symmetry. apply bool_decide_eq_false. by intros [? ?].
Qed.



End LoadAll.


(** The files of the toy machine declare sides and counts of 1. *)
Lemma int_headers_mnist : SvmTrainer.int_headers Toy.mnist.
Proof.
  unfold SvmTrainer.int_headers, SvmTrainer.int_sides, SvmTrainer.int_count.
  split; [|split; [|split]]; intros bytes Hbytes; vm_compute in Hbytes;
    injection Hbytes as <-; vm_compute; try split; discriminate.
Qed.

Lemma int_headers_without_test_labels :
  SvmTrainer.int_headers (delete "./data/MNIST/t10k-labels.idx1-ubyte"%string Toy.mnist).
Proof.
  unfold SvmTrainer.int_headers, SvmTrainer.int_sides, SvmTrainer.int_count.
  split; [|split; [|split]]; intros bytes Hbytes; vm_compute in Hbytes;
    try discriminate; injection Hbytes as <-; vm_compute; try split; discriminate.
Qed.


Section DetectorData.
Import SvmTrainer.

Lemma fold_alter_lookup {A} (f : A -> A) (n : nat) : forall (a : nat) (l : list A) (i : nat),
  fold_left (fun l i => alter f i l) (seq a n) l !! i
  = if decide (a <= i < a + n)%nat then f <$> l !! i else l !! i.
Proof.
  induction n as [|n IH]; intros a l i; simpl.
  - rewrite decide_False by lia. reflexivity.
  - rewrite IH, list_lookup_alter.
    repeat case_decide; subst; try lia; reflexivity.
Qed.

Lemma fold_alter_all {A} (f : A -> A) (l : list A) :
  fold_left (fun l i => alter f i l) (seq 0 (length l)) l = map f l.
Proof.
  apply list_eq. intros i. rewrite fold_alter_lookup, list_lookup_fmap.
  destruct (decide (0 <= i < 0 + length l)%nat) as [Hi|Hi]; [reflexivity|].
  rewrite lookup_ge_None_2 by lia. reflexivity.
Qed.

Lemma label_as_digit_fold (idx : list nat) : forall r c l,
  fold_left (fun labels i =>
               cv.mkMat (cv.rows labels) (cv.cols labels)
                        (alter (map (fun _ : Z => 1)) i (cv.data labels)))
            idx (cv.mkMat r c l)
  = cv.mkMat r c (fold_left (fun l i => alter (map (fun _ : Z => 1)) i l) idx l).
Proof. induction idx as [|i idx IH]; intros r c l; simpl; [reflexivity | apply IH]. Qed.

(** Every label of the matrix becomes 1. *)
Lemma label_as_digit_all (labels : list Z) :
  label_as_digit (HogSvm.label_matrix labels)
  = HogSvm.label_matrix (map (fun _ => 1) labels).
Proof.
  unfold label_as_digit, HogSvm.label_matrix. cbn [cv.rows cv.data].
  rewrite label_as_digit_fold, Nat2Z.id.
  replace (seq 0 (length labels))
    with (seq 0 (length (map (fun label : Z => [label]) labels)))
    by (by rewrite length_fmap).
  rewrite fold_alter_all, length_fmap, <- !list_fmap_compose. reflexivity.
Qed.

Lemma push_back_label (labels : list Z) (label : Z) :
  cv.push_back (HogSvm.label_matrix labels) [label] = HogSvm.label_matrix (labels ++ [label]).
Proof.
  unfold cv.push_back, HogSvm.label_matrix. simpl.
  rewrite length_app, fmap_app. simpl. f_equal; [lia|].
  by destruct labels.
Qed.

Variable imread : string -> cv.Mat Z.

(** The images a directory contributes: its first [n] files, binarized. *)
Lemma add_not_digits_upto prefix (n : nat) : forall (j : nat) i images labels,
  (j <= n)%nat ->
  (forall m : nat, (m < j)%nat ->
     cv.no_data (imread (not_digit_file prefix (i + Z.of_nat m))) = false) ->
  (j < n -> cv.no_data (imread (not_digit_file prefix (i + Z.of_nat j))) = true)%nat ->
  add_not_digits imread prefix n i images (HogSvm.label_matrix labels)
  = (bool_decide (j = n),
     (images
      ++ map (fun k => cv.threshold (imread (not_digit_file prefix k))
                         90 255 cv.THRESH_BINARY) (seqZ i (Z.of_nat j))
      ++ (if decide (j = n) then []
          else [imread (not_digit_file prefix (i + Z.of_nat j))]),
      HogSvm.label_matrix (labels ++ replicate j 0))).
Proof.
  induction n as [|n IH]; intros j i images labels Hj Hfound Hmissing.
  - assert (j = 0)%nat as -> by lia. simpl. by rewrite !app_nil_r.
  - cbn [add_not_digits]. destruct j as [|j].
    + rewrite bool_decide_eq_false_2, decide_False by lia.
      rewrite Z.add_0_r in Hmissing. rewrite Hmissing by lia.
      simpl. by rewrite Z.add_0_r, app_nil_r.
    + pose proof (Hfound 0%nat ltac:(lia)) as Hfirst. rewrite Z.add_0_r in Hfirst.
      rewrite Hfirst, push_back_label.
      rewrite (IH j (i + 1)); [| clear -Hj; lia | |].
      * rewrite <- !app_assoc. cbn [app replicate].
        replace (Z.of_nat (S j)) with (Z.succ (Z.of_nat j)) by (clear; lia).
        rewrite (seqZ_cons i) by (clear; lia). rewrite Z.pred_succ.
        replace (Z.succ i) with (i + 1) by (clear; lia).
        replace (i + 1 + Z.of_nat j) with (i + Z.succ (Z.of_nat j)) by (clear; lia).
        cbn [map app].
        destruct (decide (j = n)) as [->|Hne].
        -- rewrite !bool_decide_eq_true_2, decide_True by reflexivity.
           reflexivity.
        -- rewrite !bool_decide_eq_false_2, decide_False by lia.
           reflexivity.
      * intros m Hm. replace (i + 1 + Z.of_nat m) with (i + Z.of_nat (S m)) by (clear; lia).
        apply Hfound. clear -Hm. lia.
      * intros Hlt. replace (i + 1 + Z.of_nat j) with (i + Z.of_nat (S j)) by (clear; lia).
        apply Hmissing. clear -Hlt. lia.
Qed.

End DetectorData.

(** X12.  When all 30000 non-digit training images and all 10000 non-digit
    test images can be read, [CreateDigitDetectorData] succeeds and turns
    the digit dataset into the detector dataset: every label that was there
    becomes 1, whatever digit it was, the non-digit images are appended
    after the digit images, binarized and in the order of their numbers, and
    one label 0 is appended for each of them. *)
Theorem CreateDigitDetectorData_complete (imread : string -> cv.Mat Z)
    (trainImages testImages : list (cv.Mat Z)) (trainDigits testDigits : list Z) :
  (forall i, 0 <= i < 30000 ->
     cv.no_data
       (imread (SvmTrainer.not_digit_file "./data/NotDigits/train/image" i)) = false) ->
  (forall i, 0 <= i < 10000 ->
     cv.no_data
       (imread (SvmTrainer.not_digit_file "./data/NotDigits/test/image" i)) = false) ->
  SvmTrainer.CreateDigitDetectorData imread
    (SvmTrainer.mkData trainImages (HogSvm.label_matrix trainDigits)
                       testImages (HogSvm.label_matrix testDigits))
  = (true,
     SvmTrainer.mkData
       (trainImages
        ++ map (fun i => cv.threshold
                           (imread (SvmTrainer.not_digit_file "./data/NotDigits/train/image" i))
                           90 255 cv.THRESH_BINARY) (seqZ 0 30000))
       (HogSvm.label_matrix (map (fun _ => 1) trainDigits ++ replicate (Z.to_nat 30000) 0))
       (testImages
        ++ map (fun i => cv.threshold
                           (imread (SvmTrainer.not_digit_file "./data/NotDigits/test/image" i))
                           90 255 cv.THRESH_BINARY) (seqZ 0 10000))
       (HogSvm.label_matrix (map (fun _ => 1) testDigits ++ replicate (Z.to_nat 10000) 0))).
Proof.
  intros Htrain Htest. unfold SvmTrainer.CreateDigitDetectorData.
  cbn [SvmTrainer.trainImages SvmTrainer.trainLabels SvmTrainer.testImages
       SvmTrainer.testLabels].
  rewrite !label_as_digit_all.
  rewrite (add_not_digits_upto imread "./data/NotDigits/train/image" (Z.to_nat 30000)
             (Z.to_nat 30000) 0);
    [| reflexivity | intros m Hm; apply Htrain; clear -Hm; lia | clear; lia].
  rewrite bool_decide_eq_true_2, decide_True by reflexivity. cbn [negb].
  rewrite (add_not_digits_upto imread "./data/NotDigits/test/image" (Z.to_nat 10000)
             (Z.to_nat 10000) 0);
    [| reflexivity | intros m Hm; apply Htest; clear -Hm; lia | clear; lia].
  rewrite bool_decide_eq_true_2, decide_True by reflexivity. cbn [negb].
  rewrite !app_nil_r, !Z2Nat.id by (clear; lia). reflexivity.
Qed.

(** X12 with a reader that finds a blank image under every name. *)
Lemma CreateDigitDetectorData_complete_witness :
  SvmTrainer.CreateDigitDetectorData Toy.blank_image
    (SvmTrainer.mkData [Toy.blank 2 2] (HogSvm.label_matrix [7]) [] (HogSvm.label_matrix [3]))
  = (true,
     SvmTrainer.mkData
       ([Toy.blank 2 2]
        ++ map (fun i => cv.threshold
                           (Toy.blank_image
                              (SvmTrainer.not_digit_file "./data/NotDigits/train/image" i))
                           90 255 cv.THRESH_BINARY) (seqZ 0 30000))
       (HogSvm.label_matrix (map (fun _ => 1) [7] ++ replicate (Z.to_nat 30000) 0))
       ([] ++ map (fun i => cv.threshold
                              (Toy.blank_image
                                 (SvmTrainer.not_digit_file "./data/NotDigits/test/image" i))
                              90 255 cv.THRESH_BINARY) (seqZ 0 10000))
       (HogSvm.label_matrix (map (fun _ => 1) [3] ++ replicate (Z.to_nat 10000) 0))).
Proof.
  apply (CreateDigitDetectorData_complete Toy.blank_image [Toy.blank 2 2] [] [7] [3]);
    intros i Hi; reflexivity.
Defined.

(** X13.  When the non-digit training image number [k] is the first that
    cannot be read, [CreateDigitDetectorData] fails and leaves the training
    set with one image more than it has labels: the [k] images before are
    appended with their labels 0, the matrix without data that was read for
    number [k] stays in the vector, and the digit labels are 1 already.  The
    test set is as it was, its labels not even relabelled. *)
Theorem CreateDigitDetectorData_missing_image (imread : string -> cv.Mat Z)
    (trainImages testImages : list (cv.Mat Z)) (trainDigits : list Z)
    (testLabels : cv.Mat Z) (k : Z) :
  0 <= k < 30000 ->
  (forall i, 0 <= i < k ->
     cv.no_data
       (imread (SvmTrainer.not_digit_file "./data/NotDigits/train/image" i)) = false) ->
  cv.no_data
    (imread (SvmTrainer.not_digit_file "./data/NotDigits/train/image" k)) = true ->
  SvmTrainer.CreateDigitDetectorData imread
    (SvmTrainer.mkData trainImages (HogSvm.label_matrix trainDigits) testImages testLabels)
  = (false,
     SvmTrainer.mkData
       (trainImages
        ++ map (fun i => cv.threshold
                           (imread (SvmTrainer.not_digit_file "./data/NotDigits/train/image" i))
                           90 255 cv.THRESH_BINARY) (seqZ 0 k)
        ++ [imread (SvmTrainer.not_digit_file "./data/NotDigits/train/image" k)])
       (HogSvm.label_matrix (map (fun _ => 1) trainDigits ++ replicate (Z.to_nat k) 0))
       testImages testLabels).
Proof.
  intros Hk Hfound Hmissing. unfold SvmTrainer.CreateDigitDetectorData.
  cbn [SvmTrainer.trainImages SvmTrainer.trainLabels SvmTrainer.testImages
       SvmTrainer.testLabels].
  rewrite label_as_digit_all.
  rewrite (add_not_digits_upto imread "./data/NotDigits/train/image" (Z.to_nat 30000)
             (Z.to_nat k) 0);
    [| clear -Hk; lia
     | intros m Hm; apply Hfound; clear -Hm; lia
     | intros _; rewrite Z2Nat.id by (clear -Hk; lia); exact Hmissing].
  rewrite bool_decide_eq_false_2, decide_False by (clear -Hk; lia). cbn [negb].
  rewrite !Z2Nat.id by (clear -Hk; lia). reflexivity.
Qed.

(** X13 where no image can be read at all. *)
Lemma CreateDigitDetectorData_missing_image_witness :
  SvmTrainer.CreateDigitDetectorData Toy.no_image
    (SvmTrainer.mkData [Toy.blank 2 2] (HogSvm.label_matrix [7]) [] cv.empty)
  = (false,
     SvmTrainer.mkData
       ([Toy.blank 2 2]
        ++ map (fun i => cv.threshold
                           (Toy.no_image
                              (SvmTrainer.not_digit_file "./data/NotDigits/train/image" i))
                           90 255 cv.THRESH_BINARY) (seqZ 0 0)
        ++ [Toy.no_image (SvmTrainer.not_digit_file "./data/NotDigits/train/image" 0)])
       (HogSvm.label_matrix (map (fun _ => 1) [7] ++ replicate (Z.to_nat 0) 0))
       [] cv.empty).
Proof.
  apply (CreateDigitDetectorData_missing_image Toy.no_image [Toy.blank 2 2] []
           [7] cv.empty 0); [lia | intros i Hi; lia | reflexivity].
Defined.

(** ** The trainer as a program (SvmTrainer.cpp) *)

Section TrainerMain.
Import SvmTrainer.
Context `{cv.ImgProc} `{cv.SvmParams}.
Variable heap : nat -> nat -> nat -> Z.
Variable imread : string -> cv.Mat Z.

(** The detector half ends with status 0 and writes no file but the
    detector's. *)
Lemma main_detector_frame d fs status fs' :
  main_detector imread d fs = Some (status, fs') ->
  status = 0 /\ forall name : string, name <> "svmDigitDetector.xml"%string ->
                                      fs' !! name = fs !! name.
Proof.
  unfold main_detector.
  destruct (CreateDigitDetectorData imread d) as [[] d']; [|by intros [= <- <-]].
  destruct (HogSvm.Train _ _ _) as [[ok trained]|]; [|by intros [= <- <-]].
  destruct (HogSvm.Test _ _ _) as [percentError|]; [|discriminate]. simpl.
  intros [= <- <-]. split; [reflexivity|].
  intros name Hname. by rewrite lookup_insert_ne.
Qed.

Lemma LoadMnistData_missing (fs : FileSystem) (d : Data) (file : string) :
  file ∈ mnist_files -> fs !! file = None -> (LoadMnistData heap fs d).1 = false.
Proof.
  intros Hfile Hmissing. unfold LoadMnistData.
  unfold mnist_files in Hfile. rewrite !elem_of_cons, elem_of_nil in Hfile.
  pose proof (ReadMnistImageFile_result (heap 0%nat) fs
                "./data/MNIST/train-images.idx3-ubyte" (trainImages d)) as R1.
  destruct (ReadMnistImageFile (heap 0%nat) fs _ _) as [ok1 images1].
  pose proof (LoadMnistLabelFile_result (heap 1%nat) fs
                "./data/MNIST/train-labels.idx1-ubyte" (trainLabels d)) as R2.
  destruct (LoadMnistLabelFile (heap 1%nat) fs _ _) as [ok2 labels2].
  pose proof (ReadMnistImageFile_result (heap 2%nat) fs
                "./data/MNIST/t10k-images.idx3-ubyte" (testImages d)) as R3.
  destruct (ReadMnistImageFile (heap 2%nat) fs _ _) as [ok3 images3].
  pose proof (LoadMnistLabelFile_result (heap 3%nat) fs
                "./data/MNIST/t10k-labels.idx1-ubyte" (testLabels d)) as R4.
  destruct (LoadMnistLabelFile (heap 3%nat) fs _ _) as [ok4 labels4].
  simpl in R1, R2, R3, R4.
  assert (Hnone : forall name : string,
            fs !! name = None -> bool_decide (is_Some (fs !! name)) = false).
  { intros name ->. apply bool_decide_eq_false. by intros [? ?]. }
  destruct ok1; [|reflexivity]. destruct ok2; [|reflexivity].
  destruct ok3; [|reflexivity]. destruct ok4; [|reflexivity]. simpl.
  destruct Hfile as [-> | [-> | [-> | [-> | []]]]];
    rewrite (Hnone _ Hmissing) in *; discriminate.
Qed.

End TrainerMain.

(** X14.  Whenever the trainer ends, it ends with status 0, also when
    nothing was trained; it has written no file but the two model files;
    and either it has written nothing at all, or the classifier was trained
    on what [LoadMnistData] loaded and its model file holds the trained
    model.  The detector's file is never written without the
    classifier's. *)
Theorem trainer_main_writes_models_only `{cv.ImgProc} `{cv.SvmParams}
    (heap : nat -> nat -> nat -> Z) (imread : string -> cv.Mat Z)
    (fs : FileSystem) (status : Z) (fs' : FileSystem) :
  SvmTrainer.main heap imread fs = Some (status, fs') ->
  let d := (SvmTrainer.LoadMnistData heap fs (SvmTrainer.mkData [] cv.empty [] cv.empty)).2 in
  status = 0
  /\ (forall name : string,
        name <> "mnistSvm.xml"%string -> name <> "svmDigitDetector.xml"%string ->
        fs' !! name = fs !! name)
  /\ (fs' = fs
      \/ exists trained,
           HogSvm.Train SvmTrainer.digitSvm (SvmTrainer.trainImages d)
                        (SvmTrainer.trainLabels d) = Some (true, trained)
           /\ fs' !! "mnistSvm.xml"
              = Some (cv.SVM_save (Svm.m_svm (HogSvm.base trained)))).
Proof.
  unfold SvmTrainer.main.
  destruct (SvmTrainer.LoadMnistData heap fs _) as [[] d]; cbn [snd];
    [|intros [= <- <-]; by auto].
  destruct (HogSvm.Train _ _ _) as [[ok trained]|] eqn:Etrain;
    [|intros [= <- <-]; by auto].
  assert (ok = true) as ->.
  { unfold HogSvm.Train, Svm.Train in Etrain. simpl in Etrain.
    destruct (cv.SVM_train _ _ _); [|discriminate]. simpl in Etrain. congruence. }
  destruct (HogSvm.Test _ _ _) as [percentError|]; [|discriminate]. simpl.
  intros Hdetector. apply main_detector_frame in Hdetector as [-> Hframe].
  split; [reflexivity|]. split.
  - intros name Hclassifier Hdet. rewrite Hframe by exact Hdet.
    by rewrite lookup_insert_ne.
  - right. exists trained. split; [reflexivity|].
    rewrite Hframe by discriminate. by rewrite lookup_insert_eq.
Qed.

(** X14 on a machine with the four MNIST files and no non-digit image: the
    classifier's model file is written, the detector's is not. *)
Lemma trainer_main_writes_models_only_witness :
  let d := (SvmTrainer.LoadMnistData Toy.zeroed3 Toy.mnist
              (SvmTrainer.mkData [] cv.empty [] cv.empty)).2 in
  0 = 0
  /\ (forall name : string,
        name <> "mnistSvm.xml"%string -> name <> "svmDigitDetector.xml"%string ->
        <["mnistSvm.xml"%string := [1]]> Toy.mnist !! name = Toy.mnist !! name)
  /\ (<["mnistSvm.xml"%string := [1]]> Toy.mnist = Toy.mnist
      \/ exists trained,
           @HogSvm.Train Toy.imgproc Toy.statmodel
             (@SvmTrainer.digitSvm Toy.statmodel Toy.svmparams)
             (SvmTrainer.trainImages d) (SvmTrainer.trainLabels d) = Some (true, trained)
           /\ <["mnistSvm.xml"%string := [1]]> Toy.mnist !! "mnistSvm.xml"
              = Some (@cv.SVM_save Toy.statmodel (Svm.m_svm (HogSvm.base trained)))).
Proof.
  apply (@trainer_main_writes_models_only Toy.imgproc Toy.statmodel Toy.svmparams
           Toy.zeroed3 Toy.no_image Toy.mnist 0 (<["mnistSvm.xml"%string := [1]]> Toy.mnist)).
  vm_compute. reflexivity.
Defined.

(** X15.  When one of the four MNIST files is missing the trainer trains
    nothing and writes nothing, and still ends with status 0.  (The files
    that are there declare sides and label counts that are [int]s.) *)
Theorem trainer_main_without_data `{cv.ImgProc} `{cv.SvmParams}
    (heap : nat -> nat -> nat -> Z) (imread : string -> cv.Mat Z)
    (fs : FileSystem) (file : string) :
  SvmTrainer.int_headers fs ->
  file ∈ SvmTrainer.mnist_files ->
  fs !! file = None ->
  SvmTrainer.main heap imread fs = Some (0, fs).
Proof.
  intros _ Hfile Hmissing. unfold SvmTrainer.main.
  pose proof (LoadMnistData_missing heap fs (SvmTrainer.mkData [] cv.empty [] cv.empty)
                file Hfile Hmissing) as Hload.
  destruct (SvmTrainer.LoadMnistData heap fs _) as [ok d]. simpl in Hload. by subst ok.
Qed.

Lemma trainer_main_without_data_witness :
  @SvmTrainer.main Toy.imgproc Toy.statmodel Toy.svmparams Toy.zeroed3 Toy.blank_image
    (delete "./data/MNIST/t10k-labels.idx1-ubyte"%string Toy.mnist)
  = Some (0, delete "./data/MNIST/t10k-labels.idx1-ubyte"%string Toy.mnist).
Proof.
  apply (@trainer_main_without_data Toy.imgproc Toy.statmodel Toy.svmparams Toy.zeroed3
           Toy.blank_image (delete "./data/MNIST/t10k-labels.idx1-ubyte"%string Toy.mnist)
           "./data/MNIST/t10k-labels.idx1-ubyte").
  - exact int_headers_without_test_labels.
  - unfold SvmTrainer.mnist_files. set_solver.
  - apply lookup_delete_eq.
Defined.

(** ** The classifier as a program (RealtimeDigitClassifier.cpp) *)

Section ClassifierMain.
Import RealtimeDigitClassifier.
Context `{cv.ImgProc} `{cv.StatModel}.
Variables classifier detector : HogSvm.HogSvm.
Variable waitKey : nat -> Z.


(** The frames shown are the first frames captured, each processed on its
    own. *)
Lemma main_loop_shown frames : forall n,
  exists count : nat,
    (count <= length frames)%nat
    /\ (main_loop classifier detector frames waitKey n).2
       = map (shown_for classifier detector) (take count frames)
    /\ Forall (fun frame =>
                 cv.no_data frame = false
                 /\ (ProcessFrame classifier detector (entry [] frame)).1 = Some tt)
              (take count frames)
    /\ forall k : nat, (S k < count)%nat ->
         waitKey (n + k)%nat mod 256 <> 81 /\ waitKey (n + k)%nat mod 256 <> 113.
Proof.
  induction frames as [|frame rest IH]; intros n; cbn [main_loop].
  - exists 0%nat. simpl. repeat split; try constructor; intros; lia.
  - destruct (cv.no_data frame) eqn:Edata.
    { exists 0%nat. simpl. repeat split; try constructor; intros; lia. }
    destruct (ProcessFrame classifier detector (entry [] frame)) as [[[]|] st] eqn:Eprocess.
    2: { exists 0%nat. simpl. repeat split; try constructor; intros; lia. }
    cbv zeta. destruct (_ || _) eqn:Equit.
    + exists 1%nat. simpl. rewrite take_0. unfold shown_for. rewrite Eprocess.
      split; [lia|]. split; [reflexivity|]. split.
      * constructor; [|constructor]. split; [exact Edata | by rewrite Eprocess].
      * intros k Hk. lia.
    + destruct (IH (S n)) as (count & Hcount & Hshown & Hall & Hkeys).
      destruct (main_loop classifier detector rest waitKey (S n)) as [exit shown].
      simpl in Hshown. exists (S count). simpl.
      split; [lia|]. split; [|split].
      * unfold shown_for at 1. rewrite Eprocess, Hshown. reflexivity.
      * constructor; [|exact Hall]. split; [exact Edata | by rewrite Eprocess].
      * intros [|k] Hk.
        -- rewrite Nat.add_0_r. apply orb_false_iff in Equit as [Q1 Q2].
           apply Z.eqb_neq in Q1, Q2. by split.
        -- replace (n + S k)%nat with (S n + k)%nat by lia. apply Hkeys. lia.
Qed.

End ClassifierMain.


(** X17.  With both model files and an open camera, what the windows show
    is the first so many captured frames, in order, each processed on its
    own with the classifier loaded from [mnistSvm.xml] and the detector
    loaded from [svmDigitDetector.xml]: no frame's result depends on the
    frames before it.  Every frame shown had data and was processed without
    an exception, and no frame is shown after the key q or Q. *)
Theorem classifier_main_shows_each_frame `{cv.ImgProc} `{cv.StatModel}
    (fs : FileSystem) (vidCapture : RealtimeDigitClassifier.VideoCapture)
    (waitKey : nat -> Z) (cbytes dbytes : list Z) :
  fs !! "mnistSvm.xml" = Some cbytes ->
  fs !! "svmDigitDetector.xml" = Some dbytes ->
  RealtimeDigitClassifier.isOpened vidCapture = true ->
  let classifier := RealtimeDigitClassifier.loaded cbytes in
  let detector := RealtimeDigitClassifier.loaded dbytes in
  exists count : nat,
    (count <= length (RealtimeDigitClassifier.frames vidCapture))%nat
    /\ (RealtimeDigitClassifier.main fs vidCapture waitKey).2
       = map (RealtimeDigitClassifier.shown_for classifier detector)
             (take count (RealtimeDigitClassifier.frames vidCapture))
    /\ Forall (fun frame =>
                 cv.no_data frame = false
                 /\ (RealtimeDigitClassifier.ProcessFrame classifier detector
                       (RealtimeDigitClassifier.entry [] frame)).1 = Some tt)
              (take count (RealtimeDigitClassifier.frames vidCapture))
    /\ forall k : nat, (S k < count)%nat ->
         waitKey k mod 256 <> 81 /\ waitKey k mod 256 <> 113.
Proof.
  intros Hclassifier Hdetector Hopened classifier detector.
  unfold RealtimeDigitClassifier.main, Svm.Load.
  rewrite Hclassifier, Hdetector, Hopened. cbn [negb].
  apply (main_loop_shown classifier detector waitKey
           (RealtimeDigitClassifier.frames vidCapture) 0).
Qed.

(** X17 on a camera that delivers two blank frames, the key q being
    pressed after the first. *)
Lemma classifier_main_shows_each_frame_witness :
  let classifier := @RealtimeDigitClassifier.loaded Toy.statmodel [7] in
  let detector := @RealtimeDigitClassifier.loaded Toy.statmodel [1] in
  exists count : nat,
    (count <= length [Toy.blank 16 16; Toy.blank 16 16])%nat
    /\ (@RealtimeDigitClassifier.main Toy.imgproc Toy.statmodel Toy.models
          (RealtimeDigitClassifier.mkVideoCapture true [Toy.blank 16 16; Toy.blank 16 16])
          (fun _ => 113)).2
       = map (@RealtimeDigitClassifier.shown_for Toy.imgproc Toy.statmodel classifier detector)
             (take count [Toy.blank 16 16; Toy.blank 16 16])
    /\ Forall (fun frame =>
                 cv.no_data frame = false
                 /\ (@RealtimeDigitClassifier.ProcessFrame Toy.imgproc Toy.statmodel
                       classifier detector
                       (@RealtimeDigitClassifier.entry Toy.imgproc [] frame)).1 = Some tt)
              (take count [Toy.blank 16 16; Toy.blank 16 16])
    /\ forall k : nat, (S k < count)%nat ->
         (fun _ : nat => 113) k mod 256 <> 81 /\ (fun _ : nat => 113) k mod 256 <> 113.
Proof.
  apply (@classifier_main_shows_each_frame Toy.imgproc Toy.statmodel Toy.models
           (RealtimeDigitClassifier.mkVideoCapture true [Toy.blank 16 16; Toy.blank 16 16])
           (fun _ => 113) [7] [1]); reflexivity.
Defined.

(** ** The region of interest (RealtimeDigitClassifier.cpp) *)

(** *** Single precision *)

(** [shr_fexp] shifts the mantissa right by the digits it has beyond 24. *)
Lemma shr_fexp_32 (m e : Z) (l : location) :
  let s := Z.max (Zdigits2 m + e - 24) (-149) - e in
  0 <= s ->
  shr_fexp 24 128 m e l = (Nat.iter (Z.to_nat s) shr_1 (shr_record_of_loc m l), e + s).
Proof.
  intros s Hs. unfold shr_fexp, shr, fexp, emin.
  change (3 - 128 - 24) with (-149).
  fold s. destruct s as [|p|p] eqn:Es.
  - simpl. f_equal. lia.
  - rewrite iter_pos_nat. reflexivity.
  - lia.
Qed.

(** Shifting out digits that are all zero leaves no remainder. *)
Lemma shr_iter_exact (k : nat) : forall m : positive,
  Nat.iter k shr_1 {| shr_m := Z.pos m * 2 ^ Z.of_nat k; shr_r := false; shr_s := false |}
  = {| shr_m := Z.pos m; shr_r := false; shr_s := false |}.
Proof.
  induction k as [|k IH]; intros m.
  - simpl. rewrite Z.mul_1_r. reflexivity.
  - rewrite Nat.iter_succ_r.
    replace (Z.pos m * 2 ^ Z.of_nat (S k)) with (Z.pos (m~0) * 2 ^ Z.of_nat k)
      by (rewrite Nat2Z.inj_succ, Z.pow_succ_r by lia; lia).
    assert (Hpos : 0 < 2 ^ Z.of_nat k) by (apply Z.pow_pos_nonneg; lia).
    destruct (2 ^ Z.of_nat k) as [|q|q] eqn:Eq; [lia | | lia].
    change (Z.pos m~0 * Z.pos q) with (Z.pos (m * q)~0). cbn [shr_1 orb].
    exact (IH m).
Qed.

(** A mantissa of 24 digits followed by zeros is rounded to itself. *)
Lemma binary_round_aux_32_exact (M : positive) (s e : Z) :
  Z.pos (digits2_pos M) = 24 -> 0 <= s -> -149 <= e + s <= 104 ->
  binary_round_aux 24 128 false (Z.pos M * 2 ^ s) e loc_Exact
  = S754_finite false M (e + s).
Proof.
  intros Hdig Hs He.
  pose proof (digits2_pos_bounds M) as [Mlo Mhi]. rewrite Hdig in Mlo, Mhi.
  assert (Hpow : 0 < 2 ^ s) by (apply Z.pow_pos_nonneg; lia).
  destruct (Z.pos M * 2 ^ s) as [|P|P] eqn:EP; [lia | | lia].
  assert (EdigP : Z.pos (digits2_pos P) = 24 + s).
  { apply digits2_pos_unique. rewrite <- EP.
    replace (24 + s - 1) with (23 + s) by lia.
    rewrite !Z.pow_add_r by lia. change (24 - 1) with 23 in Mlo.
    split; [apply Z.mul_le_mono_nonneg_r | apply Z.mul_lt_mono_pos_r]; lia. }
  unfold binary_round_aux.
  rewrite shr_fexp_32; cbn [Zdigits2]; rewrite EdigP;
    [| replace (Z.max (24 + s + e - 24) (-149) - e) with s by lia; lia].
  replace (Z.max (24 + s + e - 24) (-149) - e) with s by lia.
  cbn beta iota. unfold shr_record_of_loc.
  pose proof (shr_iter_exact (Z.to_nat s) M) as Hshift.
  rewrite Z2Nat.id in Hshift by lia.
  rewrite <- EP, Hshift.
  cbn [shr_m loc_of_shr_record round_nearest_even].
  rewrite shr_fexp_32; cbn [Zdigits2]; rewrite Hdig; [|lia].
  replace (Z.max (24 + (e + s) - 24) (-149) - (e + s)) with 0 by lia.
  cbn beta iota. unfold shr_record_of_loc.
  change (Nat.iter (Z.to_nat 0) shr_1 ?x) with x.
  cbn [shr_m].
  destruct (Z.leb_spec (e + s + 0) (128 - 24)) as [_|Hbad]; [|lia].
  f_equal. lia.
Qed.

(** A positive [int] below [2^22] as a [float]: its digits moved up to 24. *)
Lemma of_int_32 (p : positive) :
  Z.pos p < 2 ^ 22 ->
  exists (mn : positive) (d : Z),
    F32.of_int (Z.pos p) = S754_finite false mn (- d)
    /\ 2 <= d <= 23
    /\ Z.pos mn = Z.pos p * 2 ^ d
    /\ Z.pos (digits2_pos mn) = 24.
Proof.
  intros Hp. pose proof (digits2_pos_bounds p) as [Plo Phi].
  set (k := Z.pos (digits2_pos p)) in *.
  assert (Hk : 1 <= k <= 22).
  { split; [lia|]. destruct (Z.le_gt_cases k 22) as [|Hbig]; [assumption|].
    assert (2 ^ 22 <= 2 ^ (k - 1)) by (apply Z.pow_le_mono_r; lia). lia. }
  unfold F32.of_int, binary_normalize, binary_round, shl_align, fexp, emin.
  fold k. change (3 - F32.emax - F32.prec) with (-149). change F32.prec with 24.
  replace (Z.max (k + 0 - 24) (-149) - 0) with (k - 24) by lia.
  replace (Z.max (k + 0 - 24) (-149)) with (k - 24) by lia.
  destruct (k - 24) as [|d|d] eqn:Ed; [lia | lia |].
  assert (Emn : Z.pos (Pos.iter xO p d) = Z.pos p * 2 ^ Z.pos d) by apply iter_xO.
  assert (Edig : Z.pos (digits2_pos (Pos.iter xO p d)) = 24).
  { apply digits2_pos_unique. rewrite Emn.
    assert (E1 : 2 ^ (24 - 1) = 2 ^ (k - 1) * 2 ^ Z.pos d)
      by (rewrite <- Z.pow_add_r by lia; f_equal; lia).
    assert (E2 : 2 ^ 24 = 2 ^ k * 2 ^ Z.pos d)
      by (rewrite <- Z.pow_add_r by lia; f_equal; lia).
    assert (0 < 2 ^ Z.pos d) by (apply Z.pow_pos_nonneg; lia).
    rewrite E1, E2. split; [apply Z.mul_le_mono_nonneg_r | apply Z.mul_lt_mono_pos_r]; lia. }
  exists (Pos.iter xO p d), (Z.pos d).
  split; [|split; [lia | split; assumption]].
  change F32.emax with 128.
  pose proof (binary_round_aux_32_exact (Pos.iter xO p d) 0 (Z.neg d) Edig) as Hround.
  rewrite Z.mul_1_r, Z.add_0_r in Hround. apply Hround; lia.
Qed.

(** The integer part of a positive float with a negative exponent. *)
Lemma static_cast_int_finite (M : positive) (e q : Z) :
  e < 0 -> Z.pos M / 2 ^ (- e) = q -> 0 <= q <= INT_MAX ->
  static_cast_int (S754_finite false M e) = q.
Proof.
  intros He Hq Hrange. unfold static_cast_int, float_trunc.
  rewrite Z.shiftl_div_pow2 by lia. rewrite Hq.
  unfold INT_MIN, INT_MAX in *.
  destruct (Z.leb_spec (- 2 ^ 31) q), (Z.leb_spec q (2 ^ 31 - 1)); simpl; lia.
Qed.

(** [static_cast<int>(n * size)]: three quarters of the side, the fraction
    dropped. *)
Lemma size_side (c : Z) :
  0 <= c < 2 ^ 22 ->
  static_cast_int (F32.mul (F32.of_int c) RealtimeDigitClassifier.size) = 3 * c / 4.
Proof.
  intros Hc. destruct c as [|p|p]; [reflexivity | | lia].
  destruct (of_int_32 p) as (mn & d & Eof & Hd & Emn & Hdig); [lia|].
  pose proof (digits2_pos_bounds mn) as [Mlo Mhi]. rewrite Hdig in Mlo, Mhi.
  change (24 - 1) with 23 in Mlo.
  unfold F32.mul. rewrite Eof.
  change RealtimeDigitClassifier.size with (S754_finite false 12582912 (-24)).
  cbn [SFmul xorb].
  change (Z.pos (mn * 12582912)) with (Z.pos mn * (3 * 2 ^ 22)).
  assert (Hq : 0 <= 3 * Z.pos p / 4 <= INT_MAX).
  { unfold INT_MAX. split; [apply Z.div_pos; lia | apply Z.div_le_upper_bound; lia]. }
  assert (Hd1 : 2 ^ d = 2 * 2 ^ (d - 1))
    by (rewrite <- Z.pow_succ_r by lia; f_equal; lia).
  assert (Hd2 : 2 ^ d = 4 * 2 ^ (d - 2))
    by (change 4 with (2 ^ 2); rewrite <- Z.pow_add_r by lia; f_equal; lia).
  assert (Hp1 : 0 < 2 ^ (d - 1)) by (apply Z.pow_pos_nonneg; lia).
  assert (Hp2 : 0 < 2 ^ (d - 2)) by (apply Z.pow_pos_nonneg; lia).
  destruct (Z.lt_ge_cases (3 * Z.pos mn) (2 ^ 25)) as [Hsmall|Hbig].
  - (* 25 digits: one is shifted out *)
    destruct (3 * Z.pos p * 2 ^ (d - 1)) as [|M|M] eqn:EM; [lia | | lia].
    assert (E2M : 2 * Z.pos M = 3 * Z.pos mn) by (rewrite <- EM, Emn, Hd1; lia).
    assert (HdigM : Z.pos (digits2_pos M) = 24) by (apply digits2_pos_unique; lia).
    replace (Z.pos mn * (3 * 2 ^ 22)) with (Z.pos M * 2 ^ 23) by lia.
    change F32.prec with 24. change F32.emax with 128.
    rewrite binary_round_aux_32_exact by (assumption || lia).
    apply static_cast_int_finite; [lia | | exact Hq].
    replace (- (- d + -24 + 23)) with (d + 1) by lia.
    rewrite <- EM, Z.pow_add_r by lia.
    replace (2 ^ d * 2 ^ 1) with (4 * 2 ^ (d - 1)) by lia.
    apply Z.div_mul_cancel_r; lia.
  - (* 26 digits: two are shifted out *)
    destruct (3 * Z.pos p * 2 ^ (d - 2)) as [|M|M] eqn:EM; [lia | | lia].
    assert (E4M : 4 * Z.pos M = 3 * Z.pos mn) by (rewrite <- EM, Emn, Hd2; lia).
    assert (HdigM : Z.pos (digits2_pos M) = 24) by (apply digits2_pos_unique; lia).
    replace (Z.pos mn * (3 * 2 ^ 22)) with (Z.pos M * 2 ^ 24) by lia.
    change F32.prec with 24. change F32.emax with 128.
    rewrite binary_round_aux_32_exact by (assumption || lia).
    apply static_cast_int_finite; [lia | | exact Hq].
    replace (- (- d + -24 + 24)) with d by lia.
    rewrite <- EM, Hd2.
    apply Z.div_mul_cancel_r; lia.
Qed.

(** The quotient of a float by [2.0f]: the exponent goes down by one. *)
Lemma F32_div_two (mn : positive) (e1 : Z) :
  Z.pos (digits2_pos mn) = 24 -> -100 <= e1 <= 100 ->
  F32.div (S754_finite false mn e1) (F32.lit 2 0) = S754_finite false mn (e1 - 1).
Proof.
  intros Hdig He.
  change (F32.lit 2 0) with (S754_finite false 8388608 (-22)).
  unfold F32.div. cbn [SFdiv xorb].
  assert (Ecore : SFdiv_core_binary F32.prec F32.emax (Z.pos mn) e1 8388608 (-22)
                  = (Z.pos mn * 2 ^ 1, e1 - 2, loc_Exact)).
  { unfold SFdiv_core_binary, fexp, emin. cbn [Zdigits2]. rewrite Hdig.
    change (Z.pos (digits2_pos 8388608)) with 24.
    change F32.prec with 24. change F32.emax with 128.
    replace (Z.min (Z.max (24 + e1 - (24 + -22) - 24) (3 - 128 - 24)) (e1 - -22))
      with (e1 - 2) by lia.
    replace (e1 - -22 - (e1 - 2)) with 24 by lia.
    cbv beta iota zeta.
    rewrite Z.shiftl_mul_pow2 by lia.
    assert (Ediv : Z.div_eucl (Z.pos mn * 2 ^ 24) 8388608 = (Z.pos mn * 2 ^ 1, 0)).
    { pose proof (Z.div_mul (Z.pos mn * 2 ^ 1) 8388608 ltac:(lia)) as Hquot.
      pose proof (Z.mod_mul (Z.pos mn * 2 ^ 1) 8388608 ltac:(lia)) as Hrem.
      replace (Z.pos mn * 2 ^ 1 * 8388608) with (Z.pos mn * 2 ^ 24) in Hquot, Hrem by lia.
      unfold Z.div, Z.modulo in Hquot, Hrem.
      destruct (Z.div_eucl (Z.pos mn * 2 ^ 24) 8388608) as [quot rem].
      simpl in Hquot, Hrem. congruence. }
    rewrite Ediv. reflexivity. }
  rewrite Ecore. change F32.prec with 24. change F32.emax with 128.
  rewrite binary_round_aux_32_exact by (assumption || lia).
  f_equal. lia.
Qed.

(** [static_cast<int>(n * (1 - size) / 2.0f)]: an eighth of the side, the
    fraction dropped. *)
Lemma margin_side (c : Z) :
  0 <= c < 2 ^ 22 ->
  static_cast_int
    (F32.div (F32.mul (F32.of_int c) (F32.sub (F32.of_int 1) RealtimeDigitClassifier.size))
             (F32.lit 2 0))
  = c / 8.
Proof.
  intros Hc. destruct c as [|p|p]; [reflexivity | | lia].
  destruct (of_int_32 p) as (mn & d & Eof & Hd & Emn & Hdig); [lia|].
  unfold F32.mul. rewrite Eof.
  change (F32.sub (F32.of_int 1) RealtimeDigitClassifier.size)
    with (S754_finite false 8388608 (-25)).
  cbn [SFmul xorb].
  change (Z.pos (mn * 8388608)) with (Z.pos mn * 2 ^ 23).
  change F32.prec with 24. change F32.emax with 128.
  rewrite binary_round_aux_32_exact by (assumption || lia).
  rewrite F32_div_two by (assumption || lia).
  assert (Hq : 0 <= Z.pos p / 8 <= INT_MAX).
  { unfold INT_MAX. split; [apply Z.div_pos; lia | apply Z.div_le_upper_bound; lia]. }
  assert (Hpd : 0 < 2 ^ d) by (apply Z.pow_pos_nonneg; lia).
  apply static_cast_int_finite; [lia | | exact Hq].
  replace (- (- d + -25 + 23 - 1)) with (d + 3) by lia.
  rewrite Emn, Z.pow_add_r by lia. change (2 ^ 3) with 8.
  replace (2 ^ d * 8) with (8 * 2 ^ d) by lia.
  apply Z.div_mul_cancel_r; lia.
Qed.

(** The region of interest of a frame with fewer than [2^22] rows and
    columns, and its place in the frame. *)
Lemma roi_of_rect (frame : cv.Mat Z) :
  0 <= cv.cols frame < 2 ^ 22 -> 0 <= cv.rows frame < 2 ^ 22 ->
  RealtimeDigitClassifier.roi_of frame
  = cv.mkRect (cv.cols frame / 8) (cv.rows frame / 8)
              (3 * cv.cols frame / 4) (3 * cv.rows frame / 4).
Proof.
  intros Hcols Hrows. unfold RealtimeDigitClassifier.roi_of. cbv zeta.
  rewrite !margin_side, !size_side by assumption. reflexivity.
Qed.

Lemma roi_of_inside (frame : cv.Mat Z) :
  0 <= cv.cols frame < 2 ^ 22 -> 0 <= cv.rows frame < 2 ^ 22 ->
  cv.inside (RealtimeDigitClassifier.roi_of frame) frame = true.
Proof.
  intros Hcols Hrows. rewrite roi_of_rect by assumption.
  unfold cv.inside. cbn [cv.x cv.y cv.width cv.height].
  pose proof (Z.mul_div_le (cv.cols frame) 8 ltac:(lia)).
  pose proof (Z.mul_div_le (3 * cv.cols frame) 4 ltac:(lia)).
  pose proof (Z.mul_div_le (cv.rows frame) 8 ltac:(lia)).
  pose proof (Z.mul_div_le (3 * cv.rows frame) 4 ltac:(lia)).
  pose proof (Z.div_pos (cv.cols frame) 8 ltac:(lia) ltac:(lia)).
  pose proof (Z.div_pos (3 * cv.cols frame) 4 ltac:(lia) ltac:(lia)).
  pose proof (Z.div_pos (cv.rows frame) 8 ltac:(lia) ltac:(lia)).
  pose proof (Z.div_pos (3 * cv.rows frame) 4 ltac:(lia) ltac:(lia)).
  repeat (apply andb_true_intro; split); apply Z.leb_le; lia.
Qed.

(** X18.  For a frame with fewer than [2^22] rows and columns the region
    of interest is exactly the rectangle at [(cols / 8, rows / 8)] that is
    [3 * cols / 4] wide and [3 * rows / 4] high, in integer arithmetic: the
    single precision products and quotients of the source lose nothing
    there.  The region lies inside the frame. *)
Theorem roi_of_geometry (frame : cv.Mat Z) :
  0 <= cv.cols frame < 2 ^ 22 -> 0 <= cv.rows frame < 2 ^ 22 ->
  RealtimeDigitClassifier.roi_of frame
  = cv.mkRect (cv.cols frame / 8) (cv.rows frame / 8)
              (3 * cv.cols frame / 4) (3 * cv.rows frame / 4)
  /\ cv.inside (RealtimeDigitClassifier.roi_of frame) frame = true.
Proof.
  intros Hcols Hrows. split; [by apply roi_of_rect | by apply roi_of_inside].
Qed.

(** X18 on a frame of 480 rows and 640 columns: the region is the
    rectangle at (80, 60) of 480 by 360. *)
Lemma roi_of_geometry_witness :
  RealtimeDigitClassifier.roi_of (cv.mkMat 480 640 (replicate 480 (replicate 640 255)))
  = cv.mkRect (640 / 8) (480 / 8) (3 * 640 / 4) (3 * 480 / 4)
  /\ cv.inside
       (RealtimeDigitClassifier.roi_of (cv.mkMat 480 640 (replicate 480 (replicate 640 255))))
       (cv.mkMat 480 640 (replicate 480 (replicate 640 255))) = true.
Proof.
  apply (roi_of_geometry (cv.mkMat 480 640 (replicate 480 (replicate 640 255))));
    cbn [cv.cols cv.rows]; lia.
Defined.

Section NoException.
Import RealtimeDigitClassifier.
Context `{cv.ImgProc} `{cv.StatModel}.
Variables classifier detector : HogSvm.HogSvm.

Lemma ProcessContour_returns roi contour st :
  cv.inside (cv.shift (cv.boundingRect contour) (cv.mkPoint (cv.x roi) (cv.y roi)))
            (frame st) = true ->
  (ProcessContour classifier detector roi contour st).1 = Some tt
  /\ frame (ProcessContour classifier detector roi contour st).2 = frame st.
Proof.
  intros Hin.
  assert (Eimage : is_Some (padded_image (frame st)
                              (cv.shift (cv.boundingRect contour)
                                        (cv.mkPoint (cv.x roi) (cv.y roi))))).
  { unfold padded_image, cv.submat.
    change (cv.inside (cv.mkRect _ _ _ _) (frame st))
      with (cv.inside (cv.shift (cv.boundingRect contour)
                                (cv.mkPoint (cv.x roi) (cv.y roi))) (frame st)).
    rewrite Hin. simpl. eauto. }
  destruct Eimage as [image Eimage].
  unfold ProcessContour, mbind, Proc_bind, get_frame, may_raise, predict, rng_uniform, draw.
  simpl. rewrite Eimage. simpl.
  destruct (F32.ltb _ _); simpl.
  - repeat (destruct (cv.uniform _ _ _) as [? ?]; simpl). by split.
  - by split.
Qed.

Lemma ProcessContours_returns roi contours : forall st,
  Forall (fun contour =>
            cv.inside (cv.shift (cv.boundingRect contour) (cv.mkPoint (cv.x roi) (cv.y roi)))
                      (frame st) = true) contours ->
  (ProcessContours classifier detector roi contours st).1 = Some tt.
Proof.
  induction contours as [|contour rest IH]; intros st Hall; simpl; [reflexivity|].
  apply Forall_cons in Hall as [Hfirst Hrest].
  unfold mbind, Proc_bind.
  destruct (ProcessContour_returns roi contour st Hfirst) as [Hret Hframe].
  destruct (ProcessContour classifier detector roi contour st) as [[[]|] st1];
    simpl in *; [|discriminate].
  apply IH. by rewrite Hframe.
Qed.

(** A bounding rectangle inside the crop of the region of interest, moved
    by the corner of the region, lies inside the frame. *)
Lemma shift_inside (boundRect roi : cv.Rect) (crop frame : cv.Mat Z) :
  cv.inside roi frame = true ->
  cv.rows crop = cv.height roi -> cv.cols crop = cv.width roi ->
  cv.inside boundRect crop = true ->
  cv.inside (cv.shift boundRect (cv.mkPoint (cv.x roi) (cv.y roi))) frame = true.
Proof.
  unfold cv.inside. simpl. intros Hroi Hrows Hcols Hbound.
  repeat (apply andb_true_iff in Hroi as [Hroi ?]).
  repeat (apply andb_true_iff in Hbound as [Hbound ?]).
  repeat match goal with Hle : (_ <=? _) = true |- _ => apply Z.leb_le in Hle end.
  repeat (apply andb_true_intro; split); apply Z.leb_le; lia.
Qed.

End NoException.

Lemma inside_same_size (r : cv.Rect) (m m' : cv.Mat Z) :
  cv.rows m' = cv.rows m -> cv.cols m' = cv.cols m -> cv.inside r m' = cv.inside r m.
Proof. intros Hrows Hcols. unfold cv.inside. by rewrite Hrows, Hcols. Qed.

(** X19.  [ProcessFrame] raises no exception.  Provided the filters of
    OpenCV give an image of the size of their input and the bounding
    rectangle of a contour lies inside the image the contours were found in,
    both range checks of the frame pass for every frame with fewer than
    [2^22] rows and columns: the region of interest lies inside the frame,
    and so does every bounding rectangle once it is moved by the corner of
    the region. *)
Theorem ProcessFrame_does_not_raise `{cv.ImgProc} `{cv.StatModel}
    (classifier detector : HogSvm.HogSvm)
    (display : list RealtimeDigitClassifier.DrawOp) (frame : cv.Mat Z) :
  (forall code, cv.keeps_size (fun m => cv.cvtColor m code)) ->
  (forall ksize, cv.keeps_size (fun m => cv.blur m ksize)) ->
  (forall seed value, cv.keeps_size (fun m => cv.floodFill m seed value)) ->
  (forall op kernel, cv.keeps_size (fun m => cv.morphologyEx m op kernel)) ->
  (forall m contour, contour ∈ cv.findContours m ->
                     cv.inside (cv.boundingRect contour) m = true) ->
  0 <= cv.cols frame < 2 ^ 22 -> 0 <= cv.rows frame < 2 ^ 22 ->
  (RealtimeDigitClassifier.ProcessFrame classifier detector
     (RealtimeDigitClassifier.entry display frame)).1 = Some tt.
Proof.
  intros HcvtColor Hblur HfloodFill Hmorph Hcontours Hcols Hrows.
  unfold RealtimeDigitClassifier.ProcessFrame, RealtimeDigitClassifier.entry.
  unfold mbind, RealtimeDigitClassifier.Proc_bind, RealtimeDigitClassifier.get_frame,
    RealtimeDigitClassifier.draw, RealtimeDigitClassifier.set_frame,
    RealtimeDigitClassifier.set_rng, RealtimeDigitClassifier.may_raise.
  cbn [RealtimeDigitClassifier.frame RealtimeDigitClassifier.displayFrame
       RealtimeDigitClassifier.rng RealtimeDigitClassifier.calls fst snd].
  set (binary := cv.threshold (cv.blur (cv.cvtColor frame cv.CV_BGR2GRAY) (cv.mkSize 5 5))
                              110 255 cv.THRESH_BINARY_INV).
  assert (Hbinary : cv.rows binary = cv.rows frame /\ cv.cols binary = cv.cols frame).
  { unfold binary. cbn [cv.threshold cv.rows cv.cols].
    destruct (Hblur (cv.mkSize 5 5) (cv.cvtColor frame cv.CV_BGR2GRAY)) as [-> ->].
    destruct (HcvtColor cv.CV_BGR2GRAY frame) as [-> ->]. by split. }
  destruct Hbinary as [Erows Ecols].
  set (roi := RealtimeDigitClassifier.roi_of binary).
  assert (Hroi : cv.inside roi binary = true)
    by (apply roi_of_inside; [rewrite Ecols | rewrite Erows]; assumption).
  match goal with
  | |- context [cv.submat ?processed roi] => set (closed := processed)
  end.
  assert (Hclosed : cv.inside roi closed = true).
  { rewrite <- Hroi. apply inside_same_size; unfold closed.
    - destruct (Hmorph cv.MORPH_CLOSE
                  (cv.getStructuringElement cv.MORPH_ELLIPSE (cv.mkSize 3 3))
                  (cv.floodFill
                     (cv.floodFill
                        (cv.floodFill (cv.floodFill binary (cv.tl roi) 0)
                           (cv.mkPoint (cv.x roi) (cv.y roi + cv.height roi)) 0)
                        (cv.br roi) 0)
                     (cv.mkPoint (cv.x roi + cv.width roi) (cv.y roi)) 0)) as [-> _].
      repeat match goal with
             | |- context [cv.rows (cv.floodFill ?m ?p ?v)] =>
                 destruct (HfloodFill p v m) as [-> _]
             end.
      reflexivity.
    - destruct (Hmorph cv.MORPH_CLOSE
                  (cv.getStructuringElement cv.MORPH_ELLIPSE (cv.mkSize 3 3))
                  (cv.floodFill
                     (cv.floodFill
                        (cv.floodFill (cv.floodFill binary (cv.tl roi) 0)
                           (cv.mkPoint (cv.x roi) (cv.y roi + cv.height roi)) 0)
                        (cv.br roi) 0)
                     (cv.mkPoint (cv.x roi + cv.width roi) (cv.y roi)) 0)) as [_ ->].
      repeat match goal with
             | |- context [cv.cols (cv.floodFill ?m ?p ?v)] =>
                 destruct (HfloodFill p v m) as [_ ->]
             end.
      reflexivity. }
  unfold cv.submat at 1. rewrite Hclosed.
  cbn [RealtimeDigitClassifier.frame RealtimeDigitClassifier.displayFrame
       RealtimeDigitClassifier.rng RealtimeDigitClassifier.calls fst snd].
  apply ProcessContours_returns. apply Forall_forall. intros contour Hcontour.
  cbn [RealtimeDigitClassifier.frame].
  eapply shift_inside; [exact Hclosed | | | apply Hcontours; exact Hcontour];
    reflexivity.
Qed.

(** X19 on a blank frame of 16 by 16 with one candidate region. *)
Lemma ProcessFrame_does_not_raise_witness :
  (@RealtimeDigitClassifier.ProcessFrame Toy.imgproc_in_bounds Toy.statmodel
     (Toy.constant 7) (Toy.constant 1)
     (@RealtimeDigitClassifier.entry Toy.imgproc_in_bounds [] (Toy.blank 16 16))).1
  = Some tt.
Proof.
  apply (@ProcessFrame_does_not_raise Toy.imgproc_in_bounds Toy.statmodel
           (Toy.constant 7) (Toy.constant 1) [] (Toy.blank 16 16)).
  - intros code m. by split.
  - intros ksize m. by split.
  - intros seed value m. by split.
  - intros op kernel m. by split.
  - intros m contour. cbn [cv.findContours cv.boundingRect Toy.imgproc_in_bounds].
    destruct ((3 <=? cv.cols m) && (4 <=? cv.rows m)) eqn:Eroom.
    + intros Hin. apply list_elem_of_singleton in Hin. subst contour.
      apply andb_true_iff in Eroom as [Ecols Erows].
      apply Z.leb_le in Ecols, Erows.
      change (Toy.boundingRect [cv.mkPoint 0 0; cv.mkPoint 2 3]) with (cv.mkRect 0 0 3 4).
      unfold cv.inside. cbn [cv.x cv.y cv.width cv.height].
      repeat (apply andb_true_intro; split); apply Z.leb_le; lia.
    + intros Hin. by apply elem_of_nil in Hin.
  - cbn [cv.cols Toy.blank]. lia.
  - cbn [cv.rows Toy.blank]. lia.
Defined.

(** ** Images past the end of a file (SvmTrainer.cpp) *)

Section PastEnd.
Import SvmTrainer.
Variable heap : nat -> nat -> Z.

Lemma read_images_prefix n : forall i R C imageSize file images,
  exists new, (read_images heap n i R C imageSize file images).1 = images ++ new.
Proof.
  induction n as [|n IH]; intros i R C imageSize file images; cbn [read_images].
  - exists []. by rewrite app_nil_r.
  - destruct (read file _ _) as [buffer file'].
    destruct (IH (S i) R C imageSize file'
                (images ++ [cv.threshold (cv.of_buffer R C buffer) 90 255 cv.THRESH_BINARY]))
      as [new Enew].
    rewrite Enew, <- app_assoc. eauto.
Qed.

(** Once the stream has failed or is used up, an image is what its fresh
    buffer held. *)
Lemma read_images_past_end n : forall (j i : nat) R C file images,
  (j < n)%nat ->
  fail file = true \/ (length (unread file) <= j * Z.to_nat (R * C))%nat ->
  (read_images heap n i R C (R * C) file images).1 !! (length images + j)%nat
  = Some (cv.threshold
            (cv.of_buffer R C (map (heap (i + j)%nat) (seq 0 (Z.to_nat (R * C)))))
            90 255 cv.THRESH_BINARY).
Proof.
  induction n as [|n IH]; intros j i R C file images Hj Hend; [lia|].
  cbn [read_images].
  destruct (read file (Z.to_nat (R * C)) (map (heap i) (seq 0 (Z.to_nat (R * C)))))
    as [buffer file'] eqn:Eread.
  destruct j as [|j].
  - assert (Ebuffer : buffer = map (heap i) (seq 0 (Z.to_nat (R * C)))).
    { unfold read in Eread. destruct Hend as [Hfail|Hempty].
      - rewrite Hfail in Eread. congruence.
      - destruct (fail file); [congruence|].
        destruct (unread file); [|simpl in Hempty; lia].
        rewrite take_nil in Eread. simpl in Eread. rewrite drop_0 in Eread. congruence. }
    subst buffer.
    destruct (read_images_prefix n (S i) R C (R * C) file'
                (images ++ [cv.threshold
                              (cv.of_buffer R C (map (heap i) (seq 0 (Z.to_nat (R * C)))))
                              90 255 cv.THRESH_BINARY])) as [new Enew].
    rewrite Enew, <- app_assoc, !Nat.add_0_r. cbn [app].
    rewrite list_lookup_middle by reflexivity. reflexivity.
  - replace (length images + S j)%nat
      with (length (images ++ [cv.threshold (cv.of_buffer R C buffer)
                                 90 255 cv.THRESH_BINARY]) + j)%nat
      by (rewrite length_app; simpl; lia).
    replace (i + S j)%nat with (S i + j)%nat by lia.
    apply IH; [lia|].
    unfold read in Eread. destruct (fail file) eqn:Efail.
    + left. injection Eread as _ <-. exact Efail.
    + right. injection Eread as _ <-. cbn [unread]. rewrite length_drop.
      destruct Hend as [Hfail|Hshort]; [discriminate | lia].
Qed.

End PastEnd.

(** X20.  An image whose bytes lie past the end of the file is not
    rejected and not blank: it is what the freshly allocated buffer of that
    image happened to hold, binarized.  This is so for every item [k] below
    the declared count whose block starts at or after the end of the pixels
    the file holds. *)
Theorem ReadMnistImageFile_past_end (heap : nat -> nat -> Z) (fs : FileSystem)
    (filename : string) (magic : list Z) (N R C : Z) (pixels : list Z)
    (images : list (cv.Mat Z)) (k : nat) :
  fs !! filename
    = Some (magic ++ SvmTrainer.be32 N ++ SvmTrainer.be32 R ++ SvmTrainer.be32 C ++ pixels) ->
  length magic = 4%nat ->
  0 <= N < 2 ^ 32 -> 0 <= R <= INT_MAX -> 0 <= C <= INT_MAX -> R * C < 2 ^ 32 ->
  (k < Z.to_nat N)%nat ->
  Z.of_nat (length pixels) <= Z.of_nat k * (R * C) ->
  (SvmTrainer.ReadMnistImageFile heap fs filename images).2 !! (length images + k)%nat
  = Some (cv.threshold
            (cv.of_buffer R C (map (heap k) (seq 0 (Z.to_nat (R * C)))))
            90 255 cv.THRESH_BINARY).
Proof.
  unfold INT_MAX. intros Hfile Hmagic HN HR HC HRC Hk Hpast.
  unfold SvmTrainer.ReadMnistImageFile, SvmTrainer.open.
  rewrite Hfile. cbn [SvmTrainer.is_open negb].
  destruct magic as [|m0 [|m1 [|m2 [|m3 [|]]]]]; try discriminate. clear Hmagic.
  destruct (ReadInt_any4 true m0 m1 m2 m3
              (SvmTrainer.be32 N ++ SvmTrainer.be32 R ++ SvmTrainer.be32 C ++ pixels))
    as [magicNumber EmagicNumber].
  cbn [app]. rewrite EmagicNumber.
  rewrite !ReadInt_be32 by lia.
  assert (Hsz : uint32 (R * C) = R * C) by (unfold uint32; apply Z.mod_small; lia).
  rewrite Hsz.
  pose proof (read_images_past_end heap (Z.to_nat N) k 0 R C
                (SvmTrainer.mk_ifstream true pixels false) images Hk) as Hpastend.
  destruct (SvmTrainer.read_images heap (Z.to_nat N) 0 R C (R * C) _ images)
    as [images' file'].
  cbn [fst snd] in *. apply Hpastend. right. cbn [SvmTrainer.unread].
  apply Nat2Z.inj_le. rewrite Nat2Z.inj_mul, Z2Nat.id by lia. exact Hpast.
Qed.

(** X20 on the file that declares two 1 by 1 images and holds one pixel,
    the fresh memory holding 93: the second image is white. *)
Lemma ReadMnistImageFile_past_end_witness :
  (SvmTrainer.ReadMnistImageFile (fun _ _ => 93) Toy.short_files "images" []).2
    !! (length (@nil (cv.Mat Z)) + 1)%nat
  = Some (cv.threshold
            (cv.of_buffer 1 1 (map ((fun _ _ => 93) 1%nat) (seq 0 (Z.to_nat (1 * 1)))))
            90 255 cv.THRESH_BINARY).
Proof.
  apply (ReadMnistImageFile_past_end (fun _ _ => 93) Toy.short_files "images"
           [0; 0; 8; 3] 2 1 1 [200] [] 1);
    try reflexivity; try lia; vm_compute; (reflexivity || (split; congruence) || congruence).
Defined.
